(** * GPU metrics of the Slurm exporter: parser, fetchers and throttled cache

    A shallow embedding of [exporter/gpus.go]: the GRES/TRES resource-string
    parser [parseGresGpuCount], the two fetcher variants ([GpuJsonFetcher],
    [GpuCliFallbackFetcher]) and the TTL cache held in [gpuCache].

    Go values are modelled as follows.
    - [string] and [[]byte] are byte sequences: Rocq's [string] (one [ascii]
      per byte).
    - [float64] is the kernel's binary64 type [float] ([PrimFloat]), so the
      arithmetic and the comparisons round exactly as the Go code does.
    - [int], [time.Time] and [time.Duration] are [Z]; durations are
      nanoseconds and saturate at the int64 bounds as [time.Time.Sub] does.
    - [(T, error)] results are the sum type [result T].
    - functions of Go's standard library whose text is not part of the
      repository ([strconv.ParseFloat], [json.Unmarshal], [csv.Reader.ReadAll])
      are the fields of the class [GoRuntime]. *)

From Stdlib Require Import ZArith List Bool Ascii String Lia Permutation.
From Stdlib Require Import Floats Uint63.
Import ListNotations.

Local Open Scope string_scope.
Local Open Scope Z_scope.

(** ** Go's [strings] and [bytes] functions used by the exporter *)

Module GoStrings.

(** [len(s)] *)
Definition len (s : string) : Z := Z.of_nat (String.length s).

(** [strings.HasPrefix(s, prefix)] *)
Fixpoint HasPrefix (s pre : string) : bool :=
  match pre, s with
  | EmptyString, _ => true
  | String _ _, EmptyString => false
  | String a pre', String b s' => Ascii.eqb a b && HasPrefix s' pre'
  end.

(** [strings.Contains(s, substr)] *)
Fixpoint Contains (s substr : string) : bool :=
  HasPrefix s substr ||
  match s with
  | EmptyString => false
  | String _ s' => Contains s' substr
  end.

(** Position of the first occurrence of [substr] in [s], if any. *)
Fixpoint find (s substr : string) : option nat :=
  if HasPrefix s substr then Some O
  else match s with
       | EmptyString => None
       | String _ s' => option_map S (find s' substr)
       end.

(** [strings.Index(s, substr)]: [-1] when [substr] does not occur. *)
Definition Index (s substr : string) : Z :=
  match find s substr with
  | Some i => Z.of_nat i
  | None => -1
  end.

(** The slice expressions [s[i:]] and [s[:i]], used with [0 <= i <= len(s)]. *)
Fixpoint drop (n : nat) (s : string) : string :=
  match n, s with
  | O, _ => s
  | S _, EmptyString => EmptyString
  | S n', String _ s' => drop n' s'
  end.

Fixpoint take (n : nat) (s : string) : string :=
  match n, s with
  | O, _ => EmptyString
  | S _, EmptyString => EmptyString
  | S n', String c s' => String c (take n' s')
  end.

Definition slice_from (s : string) (i : Z) : string := drop (Z.to_nat i) s.
Definition slice_to (s : string) (i : Z) : string := take (Z.to_nat i) s.

(** [strings.Split(s, sep)] and [bytes.Split(s, sep)] for a one-byte
    separator, the only way the exporter calls them.  The result is never
    empty: on the empty string it is the one-element list of the empty
    string. *)
Fixpoint Split (s : string) (sep : ascii) : list string :=
  match s with
  | EmptyString => [EmptyString]
  | String c s' =>
      if Ascii.eqb c sep then EmptyString :: Split s' sep
      else match Split s' sep with
           | p :: ps => String c p :: ps
           | [] => [String c EmptyString]
           end
  end.

(** The white space of [unicode.IsSpace], as UTF-8.  One byte, Go's
    [asciiSpace] table: ['\t'], ['\n'], ['\v'], ['\f'], ['\r'] and [' ']. *)
Definition isSpace (c : ascii) : bool :=
  let n := nat_of_ascii c in
  ((9 <=? n)%nat && (n <=? 13)%nat) || (n =? 32)%nat.

(** Two bytes: U+0085 ([C2 85]) and U+00A0 ([C2 A0]). *)
Definition isSpace2 (c1 c2 : ascii) : bool :=
  let a := nat_of_ascii c1 in
  let b := nat_of_ascii c2 in
  ((a =? 194) && ((b =? 133) || (b =? 160)))%nat.

(** Three bytes: U+1680 ([E1 9A 80]), U+2000 to U+200A ([E2 80 80] to
    [E2 80 8A]), U+2028, U+2029 and U+202F ([E2 80 A8], [E2 80 A9],
    [E2 80 AF]), U+205F ([E2 81 9F]) and U+3000 ([E3 80 80]). *)
Definition isSpace3 (c1 c2 c3 : ascii) : bool :=
  let a := nat_of_ascii c1 in
  let b := nat_of_ascii c2 in
  let c := nat_of_ascii c3 in
  (((a =? 225) && (b =? 154) && (c =? 128))
   || ((a =? 226) && (b =? 128)
       && (((128 <=? c) && (c <=? 138)) || (c =? 168) || (c =? 169) || (c =? 175)))
   || ((a =? 226) && (b =? 129) && (c =? 159))
   || ((a =? 227) && (b =? 128) && (c =? 128)))%nat.

(** The loop of [strings.TrimLeftFunc]: the runes are taken one after the
    other from the left, and the first that is not trimmed ends the loop.
    [p1], [p2] and [p3] recognise the trimmed runes of one, two and three
    bytes; any other byte sequence, valid UTF-8 or not, decodes to a rune
    that is kept. *)
Fixpoint trimRunes (p1 : ascii -> bool) (p2 : ascii -> ascii -> bool)
         (p3 : ascii -> ascii -> ascii -> bool) (s : string) : string :=
  match s with
  | EmptyString => EmptyString
  | String c1 s1 =>
      if p1 c1 then trimRunes p1 p2 p3 s1
      else match s1 with
           | String c2 s2 =>
               if p2 c1 c2 then trimRunes p1 p2 p3 s2
               else match s2 with
                    | String c3 s3 =>
                        if p3 c1 c2 c3 then trimRunes p1 p2 p3 s3 else s
                    | EmptyString => s
                    end
           | EmptyString => s
           end
  end.

(** A byte that is part of no trimmed rune. *)
Definition untrimmed (p1 : ascii -> bool) (p2 : ascii -> ascii -> bool)
           (p3 : ascii -> ascii -> ascii -> bool) (c : ascii) : Prop :=
  p1 c = false /\
  (forall x, p2 c x = false /\ p2 x c = false) /\
  (forall x y, p3 c x y = false /\ p3 x c y = false /\ p3 x y c = false).

(** The bytes of [s] from the last to the first. *)
Fixpoint reverse (s : string) : string :=
  match s with
  | EmptyString => EmptyString
  | String c s' => reverse s' ++ String c EmptyString
  end.

(** [strings.TrimLeftFunc(s, unicode.IsSpace)] *)
Definition TrimLeftSpace (s : string) : string :=
  trimRunes isSpace isSpace2 isSpace3 s.

(** [strings.TrimRightFunc(s, unicode.IsSpace)]: the runes are taken from
    the right; the last rune is white space exactly when the last one, two
    or three bytes are one of the encodings above. *)
Definition TrimRightSpace (s : string) : string :=
  reverse (trimRunes isSpace (fun c1 c2 => isSpace2 c2 c1)
                     (fun c1 c2 c3 => isSpace3 c3 c2 c1) (reverse s)).

(** The loops of [strings.Trim] over the bytes of [s], from the left and
    from the right. *)
Fixpoint TrimLeftFunc (f : ascii -> bool) (s : string) : string :=
  match s with
  | EmptyString => EmptyString
  | String c s' => if f c then TrimLeftFunc f s' else s
  end.

Fixpoint TrimRightFunc (f : ascii -> bool) (s : string) : string :=
  match s with
  | EmptyString => EmptyString
  | String c s' =>
      match TrimRightFunc f s' with
      | EmptyString => if f c then EmptyString else String c EmptyString
      | r => String c r
      end
  end.

(** [strings.TrimSpace(s)] and [bytes.TrimSpace(s)]: leading and trailing
    white space, as defined by Unicode, is removed. *)
Definition TrimSpace (s : string) : string :=
  TrimRightSpace (TrimLeftSpace s).

(** [strings.Trim(s, cutset)] for a one-byte cutset. *)
Definition Trim (s : string) (cut : ascii) : string :=
  TrimRightFunc (Ascii.eqb cut) (TrimLeftFunc (Ascii.eqb cut) s).

(** Lower-casing of one byte: ['A'..'Z'] to ['a'..'z']. *)
Definition lowerByte (c : ascii) : ascii :=
  let n := nat_of_ascii c in
  if ((65 <=? n)%nat && (n <=? 90)%nat) then ascii_of_nat (n + 32) else c.

(** [strings.ToLower(s)] on the bytes of [s].  Go also lower-cases
    non-ASCII runes; no such rune lower-cases to ['g'], ['p'] or ['u'], so
    the test [Contains (ToLower s) "gpu"] is the same under both. *)
Fixpoint ToLower (s : string) : string :=
  match s with
  | EmptyString => EmptyString
  | String c s' => String (lowerByte c) (ToLower s')
  end.

(** The line feed and the double quote. *)
Definition newline : ascii := ascii_of_nat 10.
Definition dquote : ascii := ascii_of_nat 34.

End GoStrings.
Import GoStrings.

(** ** float64 *)

Module F64.

Definition zero : float := 0%float.

(** [float64(n)] for an integer [n] with [|n| < 2^63]. *)
Definition of_Z (z : Z) : float :=
  if z <? 0 then PrimFloat.opp (PrimFloat.of_uint63 (Uint63.of_Z (- z)))
  else PrimFloat.of_uint63 (Uint63.of_Z z).

(** Go's [x < y], [x <= y], [x > y] and [x >= y] on float64. *)
Definition lt (x y : float) : bool := PrimFloat.ltb x y.
Definition le (x y : float) : bool := PrimFloat.leb x y.
Definition gt (x y : float) : bool := PrimFloat.ltb y x.
Definition ge (x y : float) : bool := PrimFloat.leb y x.

(** Left-to-right accumulation [total := 0.0; for ... { total += v }]. *)
Definition sum (vs : list float) : float := fold_left PrimFloat.add vs zero.

(** The binary64 values that compare [>= 0]: the two zeros, the positive
    finite numbers and [+Inf]; not NaN. *)
Definition sf_nonneg (x : spec_float) : bool :=
  match x with
  | S754_zero _ => true
  | S754_infinity s => negb s
  | S754_finite s _ _ => negb s
  | S754_nan => false
  end.

(** Every value except the negative zero. *)
Definition sf_not_negzero (x : spec_float) : bool :=
  match x with
  | S754_zero true => false
  | _ => true
  end.

(** [m] shifted left by [k] bits. *)
Definition shl (k : nat) (m : positive) : positive := Nat.iter k xO m.

(** The binary64 value that holds the positive integer [v] of at most 53
    bits: a mantissa of exactly 53 bits and the matching exponent. *)
Definition canon (v : positive) : spec_float :=
  S754_finite false
    (shl (53 - Pos.to_nat (digits2_pos v)) v)
    (Zpos (digits2_pos v) - 53).

(** The binary64 value of a non-negative integer below [2^53]. *)
Definition sf_of_Z (n : Z) : spec_float :=
  match n with
  | Zpos v => canon v
  | _ => S754_zero false
  end.

(** The sum of a list of integers. *)
Definition Zsum (ns : list Z) : Z := fold_right Z.add 0 ns.

End F64.

(** ** Results and the Go runtime functions *)

(** A Go [error] value is identified with its message. *)
Definition error := string.

Inductive result (A : Type) : Type :=
| Ok (a : A)
| Err (e : error).
Arguments Ok {A} a.
Arguments Err {A} e.

(** [[]byte] *)
Definition bytes := string.

(** JSON API mode: the decoded documents. *)
Record SlurmVersion := mkSlurmVersion {
  Major : Z; Micro : Z; Minor : Z; Release : string }.

Record sinfoGpuNode := mkSinfoGpuNode { Gres : string }.

Record sinfoGpuResponse := mkSinfoGpuResponse {
  sinfo_Meta : SlurmVersion;
  sinfo_Errors : list string;
  Nodes : list sinfoGpuNode }.

Record sacctGpuJob := mkSacctGpuJob { AllocGRES : string }.

Record sacctGpuResponse := mkSacctGpuResponse {
  sacct_Meta : SlurmVersion;
  sacct_Errors : list string;
  Jobs : list sacctGpuJob }.

(** The functions of Go's standard library the exporter calls and whose
    text is outside the repository.
    - [ParseFloat s] is [strconv.ParseFloat(s, 64)]: [Some v] for
      [(v, nil)], [None] for a syntax or range error.
    - [UnmarshalSinfo] and [UnmarshalSacct] are [json.Unmarshal] into a
      fresh [sinfoGpuResponse] or [sacctGpuResponse].
    - [ReadAll] is [csv.Reader.ReadAll] with [Comma = '|'] and
      [LazyQuotes = true]. *)
Class GoRuntime := {
  ParseFloat : string -> option float;
  UnmarshalSinfo : bytes -> result sinfoGpuResponse;
  UnmarshalSacct : bytes -> result sacctGpuResponse;
  ReadAll : bytes -> result (list (list string)) }.

(** ** The resource-string parser *)

Section Parser.
Context {go : GoRuntime}.

(** The three sentinel spellings of "no resources". *)
Definition isSentinel (gres : string) : bool :=
  String.eqb gres EmptyString || String.eqb gres "N/A" || String.eqb gres "(null)".

(** The TRES loop of [parseGresGpuCount]: the body of
    [for _, part := range strings.Split(gres, ",")], followed by the
    [return 0] after the loop. *)
Fixpoint tresLoop (parts : list string) : float :=
  match parts with
  | [] => F64.zero
  | part :: rest =>
      let part := TrimSpace part in
      if HasPrefix part "gres/gpu" then
        let eqIdx := Index part "=" in
        if negb (eqIdx =? -1) && (eqIdx <? len part - 1) then
          let countStr := slice_from part (eqIdx + 1) in
          match ParseFloat countStr with
          | Some count => count
          | None => tresLoop rest
          end
        else tresLoop rest
      else tresLoop rest
  end.

(** [if idx := strings.Index(gres, "("); idx != -1 { gres = gres[:idx] }]:
    the index annotation such as [(IDX:0-1)] is cut off. *)
Definition stripIndex (gres : string) : string :=
  let idx := Index gres "(" in
  if negb (idx =? -1) then slice_to gres idx else gres.

(** The tail of [parseGresGpuCount], for a string with neither ['='] nor
    [',']: one legacy GRES token.  (The [slog.Debug] record written when
    the count does not parse is not part of the model; it has no bearing
    on the value returned.) *)
Definition singleGres (gres : string) : float :=
  let gres := stripIndex gres in
  if negb (Contains (ToLower gres) "gpu") then F64.zero
  else
    let parts := Split gres ":" in
    if Z.of_nat (List.length parts) <? 2 then F64.zero
    else
      let countStr := List.last parts EmptyString in
      match ParseFloat countStr with
      | Some count => count
      | None => F64.zero
      end.

(** What [parseGresGpuCount] computes on a string with neither ['=']
    nor [',']: the sentinel test, then the single token. *)
Definition parseToken (gres : string) : float :=
  if isSentinel gres then F64.zero else singleGres gres.

(** [parseGresGpuCount] calls itself on the comma-separated parts of a
    legacy string.  [parseGres n] is the function with at most [n] nested
    activations; [None] means that the bound was reached. *)
Fixpoint parseGres (fuel : nat) (gres : string) : option float :=
  match fuel with
  | O => None
  | S fuel' =>
      if isSentinel gres then Some F64.zero
      else if Contains gres "=" then Some (tresLoop (Split gres ","))
      else if Contains gres "," then
        fold_left
          (fun total part =>
             match total, parseGres fuel' (TrimSpace part) with
             | Some t, Some c => Some (PrimFloat.add t c)
             | _, _ => None
             end)
          (Split gres ",") (Some F64.zero)
      else Some (singleGres gres)
  end.

(** Two activations are always enough (see [parseGres_fuel]). *)
Definition parseGresGpuCount (gres : string) : float :=
  match parseGres 2 gres with
  | Some count => count
  | None => F64.zero
  end.

End Parser.

(** ** A computable fragment of the Go runtime

    The theorems below hold for every [GoRuntime].  To run the model on
    concrete inputs, [Fragment] implements the library functions on
    the inputs whose result is determined by a short argument, and rejects
    the rest. *)

Module Fragment.

Definition isDigit (c : ascii) : bool :=
  let n := nat_of_ascii c in ((48 <=? n)%nat && (n <=? 57)%nat).

Definition digitVal (c : ascii) : Z := Z.of_nat (nat_of_ascii c) - 48.

(** Reads [digits] then, after an optional ['.'], more [digits]; yields
    the integer the digits spell, the number of digits after the point and
    the number of digits read. [None] on any other byte. *)
Fixpoint readDecimal (s : string) (seenDot : bool) (mant nfrac ndig : Z)
  : option (Z * Z * Z) :=
  match s with
  | EmptyString => Some (mant, nfrac, ndig)
  | String c s' =>
      if isDigit c then
        readDecimal s' seenDot (10 * mant + digitVal c)
                    (if seenDot then nfrac + 1 else nfrac) (ndig + 1)
      else if Ascii.eqb c "." && negb seenDot then
        readDecimal s' true mant nfrac ndig
      else None
  end.

Definition stripSign (s : string) : bool * string :=
  match s with
  | String "-" s' => (true, s')
  | String "+" s' => (false, s')
  | _ => (false, s)
  end.

(** [strconv.ParseFloat(s, 64)] on
    - the special values: ["inf"] and ["infinity"] with an optional sign,
      and ["nan"], in any letter case;
    - decimal literals [[+-]digits[.digits]] without exponent whose digits
      spell an integer below [2^53] with at most 15 digits after the point.
      There Go takes its exact path, [float64(mantissa) / 10^k], which is
      the expression below.
    Longer literals, exponents, hexadecimal floats and digit separators
    are valid for Go but outside this fragment, which answers [None]. *)
Definition ParseFloat (s : string) : option float :=
  let low := ToLower s in
  if String.eqb low "nan" then Some PrimFloat.nan
  else
    let '(neg, body) := stripSign s in
    let lbody := ToLower body in
    if String.eqb lbody "inf" || String.eqb lbody "infinity" then
      Some (if neg then PrimFloat.neg_infinity else PrimFloat.infinity)
    else
      match readDecimal body false 0 0 0 with
      | Some (mant, nfrac, ndig) =>
          if (0 <? ndig) && (mant <? 2 ^ 53) && (nfrac <=? 15) then
            let f := F64.of_Z mant in
            let f := if neg then PrimFloat.opp f else f in
            Some (if nfrac =? 0 then f
                  else PrimFloat.div f (F64.of_Z (10 ^ nfrac)))
          else None
      | None => None
      end.

Fixpoint allBytes (f : ascii -> bool) (s : string) : bool :=
  match s with
  | EmptyString => true
  | String c s' => f c && allBytes f s'
  end.

(** The bytes a JSON string of the fragment may hold: printable ASCII
    other than the double quote and the backslash, so that the text
    between two quotes is the decoded string itself. *)
Definition plainByte (c : ascii) : bool :=
  let n := nat_of_ascii c in
  (32 <=? n)%nat && (n <=? 126)%nat && negb (n =? 34)%nat && negb (n =? 92)%nat.

Definition plainText (s : string) : bool := allBytes plainByte s.

(** The objects of a record list, once the document is cut at its double
    quotes: [key], [:], [value], then the bytes up to the next quote. *)
Fixpoint readObjects (key : string) (toks : list string) : option (list string) :=
  match toks with
  | k :: colon :: v :: close :: rest =>
      if String.eqb k key && String.eqb colon ":" && plainText v then
        if String.eqb close "}]}" then
          match rest with [] => Some [v] | _ => None end
        else if String.eqb close "},{" then
          option_map (cons v) (readObjects key rest)
        else None
      else None
  | _ => None
  end.

Definition readRecords (key : string) (toks : list string) : option (list string) :=
  match toks with
  | [close] => if String.eqb close ":[]}" then Some [] else None
  | open :: rest => if String.eqb open ":[{" then readObjects key rest else None
  | [] => None
  end.

(** The entries of a non-empty [errors] array, up to the key that follows. *)
Fixpoint readErrors (toks : list string) : option (list string * list string) :=
  match toks with
  | e :: sep :: rest =>
      if plainText e then
        if String.eqb sep "]," then Some ([e], rest)
        else if String.eqb sep "," then
          match readErrors rest with
          | Some (es, r) => Some (e :: es, r)
          | None => None
          end
        else None
      else None
  | _ => None
  end.

(** Documents [{"errors":[...],"LIST":[{"FIELD":"..."},...]}], the
    [errors] member being optional, without white space. *)
Definition decode (listKey fieldKey : string) (data : bytes)
  : option (list string * list string) :=
  match Split data dquote with
  | open :: k :: rest =>
      if negb (String.eqb open "{") then None
      else if String.eqb k listKey then
        option_map (pair []) (readRecords fieldKey rest)
      else if String.eqb k "errors" then
        match rest with
        | sep :: rest2 =>
            if String.eqb sep ":[]," then
              match rest2 with
              | k2 :: rest3 =>
                  if String.eqb k2 listKey then
                    option_map (pair []) (readRecords fieldKey rest3)
                  else None
              | [] => None
              end
            else if String.eqb sep ":[" then
              match readErrors rest2 with
              | Some (es, k2 :: rest3) =>
                  if String.eqb k2 listKey then
                    option_map (pair es) (readRecords fieldKey rest3)
                  else None
              | _ => None
              end
            else None
        | [] => None
        end
      else None
  | _ => None
  end.

Definition noVersion : SlurmVersion := mkSlurmVersion 0 0 0 EmptyString.

(** [json.Unmarshal] on the documents of [decode], and on the empty input,
    which Go rejects with the message below.  Any other document (white
    space, escapes, other members, ...) is outside the fragment and
    rejected here. *)
Definition UnmarshalSinfo (data : bytes) : result sinfoGpuResponse :=
  if String.eqb data EmptyString then Err "unexpected end of JSON input"
  else match decode "nodes" "gres" data with
       | Some (errs, vs) =>
           Ok (mkSinfoGpuResponse noVersion errs (map mkSinfoGpuNode vs))
       | None => Err "document outside the decoded fragment"
       end.

Definition UnmarshalSacct (data : bytes) : result sacctGpuResponse :=
  if String.eqb data EmptyString then Err "unexpected end of JSON input"
  else match decode "jobs" "allocated_gres" data with
       | Some (errs, vs) =>
           Ok (mkSacctGpuResponse noVersion errs (map mkSacctGpuJob vs))
       | None => Err "document outside the decoded fragment"
       end.

Definition sameLength (r r' : list string) : bool :=
  (List.length r =? List.length r')%nat.

(** [csv.Reader.ReadAll] with [Comma = '|'] on input without double
    quotes and carriage returns: empty lines are skipped, every other
    line is cut at the separators, and all records must have as many
    fields as the first one (Go's [ErrFieldCount], reported here without
    the line number).  Input with quotes or carriage returns is outside
    the fragment and rejected. *)
Definition ReadAll (data : bytes) : result (list (list string)) :=
  if negb (allBytes (fun c => negb (Ascii.eqb c dquote)
                              && negb (Ascii.eqb c (ascii_of_nat 13))) data)
  then Err "input outside the decoded fragment"
  else
    let lines := filter (fun l => negb (String.eqb l EmptyString))
                        (Split data newline) in
    let records := map (fun l => Split l "|") lines in
    match records with
    | [] => Ok []
    | r :: rs =>
        if forallb (sameLength r) rs then Ok records
        else Err "wrong number of fields"
    end.

Definition runtime : GoRuntime :=
  Build_GoRuntime ParseFloat UnmarshalSinfo UnmarshalSacct ReadAll.

End Fragment.

(** ** Time *)

(** [time.Time] as a reading of the process's monotonic clock and
    [time.Duration], both in nanoseconds. *)
Definition Time := Z.
Definition Duration := Z.

Module GoTime.

Definition minDuration : Duration := - 2 ^ 63.
Definition maxDuration : Duration := 2 ^ 63 - 1.
Definition Second : Duration := 1000000000.

(** [t.Sub(u)]: the difference, saturated at the bounds of [Duration]. *)
Definition Sub (t u : Time) : Duration :=
  Z.max minDuration (Z.min maxDuration (t - u)).

(** [d.Seconds()]: [float64(d / Second) + float64(d % Second) / 1e9],
    with Go's truncated integer division. *)
Definition Seconds (d : Duration) : float :=
  let sec := Z.quot d Second in
  let nsec := Z.rem d Second in
  PrimFloat.add (F64.of_Z sec) (PrimFloat.div (F64.of_Z nsec) 1e9%float).

End GoTime.

(** ** Scrapers *)

(** What one run of the external command produced, and the wall time it
    took. *)
Record ScrapeResult := mkScrapeResult {
  output : result bytes;
  took : Duration }.

(** Modelled from the spec: the [SlurmByteScraper] interface and its
    implementations are not part of the sources.  A scraper is bound to one
    command; [FetchRawBytes] runs it once and returns the raw output or an
    opaque error, without retrying; [Duration] returns the wall time of the
    most recent invocation.  [script k] is what the command does on its
    invocation number [k], which makes any sequence of outcomes
    expressible; [invocations] counts the runs (the instrumentation a test
    double carries). *)
Record Scraper := mkScraper {
  script : nat -> ScrapeResult;
  invocations : nat;
  lastDuration : Duration }.

Module SlurmByteScraper.

Definition FetchRawBytes (sc : Scraper) : result bytes * Scraper :=
  let r := script sc (invocations sc) in
  (output r, mkScraper (script sc) (S (invocations sc)) (took r)).

Definition Duration (sc : Scraper) : Duration := lastDuration sc.

End SlurmByteScraper.

(** ** The fetcher state *)

Record GpuMetrics := mkGpuMetrics {
  Alloc : float;
  Idle : float;
  Total : float;
  Utilization : float }.

(** [gpuCache]: the embedded [sync.Mutex] ([true] when held), the time the
    snapshot was stored, the TTL in seconds, the snapshot ([None] for the
    nil pointer) and the duration of the last fetch. *)
Module gpuCache.
Record gpuCache := mk {
  Mutex : bool;
  t : Time;
  limit : float;
  cache : option GpuMetrics;
  duration : Duration }.
End gpuCache.
Abbreviation gpuCache := gpuCache.gpuCache.

Inductive Level := LevelDebug | LevelInfo | LevelWarn | LevelError.

(** One [slog] record: the level, the format string of the source and the
    value formatted into it. *)
Record LogEntry := mkLogEntry {
  level : Level;
  format : string;
  arg : string }.

Inductive ScraperId := Sinfo | Sacct.

(** The state a fetcher method runs in.  [sinfoScraper], [sacctScraper],
    [errorCounter] and [cache] are the fields that [GpuJsonFetcher] and
    [GpuCliFallbackFetcher] have in common; [now] is the clock, [logs] the
    records the fetcher and the collector write through [slog] (most
    recent first; the debug line of the parser is left out, see
    [singleGres]) and [trace] the
    scraper invocations made so far (most recent first, each with the time
    it took). *)
Record State := mkState {
  now : Time;
  logs : list LogEntry;
  trace : list (ScraperId * Duration);
  sinfoScraper : Scraper;
  sacctScraper : Scraper;
  errorCounter : Z;
  cache : gpuCache }.

Definition set_now (v : Time) (s : State) : State :=
  mkState v (logs s) (trace s) (sinfoScraper s) (sacctScraper s)
          (errorCounter s) (cache s).
Definition set_logs (v : list LogEntry) (s : State) : State :=
  mkState (now s) v (trace s) (sinfoScraper s) (sacctScraper s)
          (errorCounter s) (cache s).
Definition set_errorCounter (v : Z) (s : State) : State :=
  mkState (now s) (logs s) (trace s) (sinfoScraper s) (sacctScraper s)
          v (cache s).
Definition set_cache (v : gpuCache) (s : State) : State :=
  mkState (now s) (logs s) (trace s) (sinfoScraper s) (sacctScraper s)
          (errorCounter s) v.

(** A method is a function from the state before the call to the value
    returned and the state after it. *)
Definition M (A : Type) : Type := State -> A * State.

Definition ret {A} (a : A) : M A := fun s => (a, s).
Definition bind {A B} (c : M A) (k : A -> M B) : M B :=
  fun s => let '(a, s') := c s in k a s'.

Declare Scope go_scope.
Delimit Scope go_scope with go.
Notation "x <- c ;; k" := (bind c (fun x => k))
  (at level 61, c at next level, right associativity) : go_scope.
Notation "c ;;; k" := (bind c (fun _ => k))
  (at level 61, right associativity) : go_scope.
Local Open Scope go_scope.

Definition get : M State := fun s => (s, s).
Definition modify (f : State -> State) : M unit := fun s => (tt, f s).

(** Propagation of a Go error: [v, err := c; if err != nil { return _, err }]. *)
Definition try_ {A B} (c : M (result A)) (k : A -> M (result B)) : M (result B) :=
  r <- c ;; match r with Ok a => k a | Err e => ret (Err e) end.
Notation "x <-? c ;; k" := (try_ c (fun x => k))
  (at level 61, c at next level, right associativity) : go_scope.

(** [time.Now()] *)
Definition Now : M Time := fun s => (now s, s).

(** [time.Since(t)] *)
Definition Since (t0 : Time) : M Duration :=
  n <- Now ;; ret (GoTime.Sub n t0).

(** [slog.Error(fmt.Sprintf(format, arg))] *)
Definition slogError (fmt a : string) : M unit :=
  modify (fun s => set_logs (mkLogEntry LevelError fmt a :: logs s) s).

(** [errorCounter.Add(float64(n))] for a count [n], and [errorCounter.Inc()]. *)
Definition counterAdd (n : Z) : M unit :=
  modify (fun s => set_errorCounter (errorCounter s + n) s).
Definition counterInc : M unit := counterAdd 1.

(** [sinfoScraper.FetchRawBytes()] and [sacctScraper.FetchRawBytes()]: the
    command runs, the clock advances by the time it took. *)
Definition sinfoFetchRawBytes : M (result bytes) := fun s =>
  let '(r, sc) := SlurmByteScraper.FetchRawBytes (sinfoScraper s) in
  (r, mkState (now s + lastDuration sc) (logs s)
              ((Sinfo, lastDuration sc) :: trace s)
              sc (sacctScraper s) (errorCounter s) (cache s)).

Definition sacctFetchRawBytes : M (result bytes) := fun s =>
  let '(r, sc) := SlurmByteScraper.FetchRawBytes (sacctScraper s) in
  (r, mkState (now s + lastDuration sc) (logs s)
              ((Sacct, lastDuration sc) :: trace s)
              (sinfoScraper s) sc (errorCounter s) (cache s)).

(** The state after one run of the [sinfo] or [sacct] command. *)
Definition afterSinfo (s : State) : State :=
  let r := script (sinfoScraper s) (invocations (sinfoScraper s)) in
  mkState (now s + took r) (logs s) ((Sinfo, took r) :: trace s)
          (mkScraper (script (sinfoScraper s))
                     (S (invocations (sinfoScraper s))) (took r))
          (sacctScraper s) (errorCounter s) (cache s).

Definition afterSacct (s : State) : State :=
  let r := script (sacctScraper s) (invocations (sacctScraper s)) in
  mkState (now s + took r) (logs s) ((Sacct, took r) :: trace s)
          (sinfoScraper s)
          (mkScraper (script (sacctScraper s))
                     (S (invocations (sacctScraper s))) (took r))
          (errorCounter s) (cache s).

Definition sinfoOutput (s : State) : result bytes :=
  output (script (sinfoScraper s) (invocations (sinfoScraper s))).

Definition sacctOutput (s : State) : result bytes :=
  output (script (sacctScraper s) (invocations (sacctScraper s))).

(** The records [logEach] writes, most recent first. *)
Definition errorRecords (fmt : string) (errs : list string) : list LogEntry :=
  rev (map (mkLogEntry LevelError fmt) errs).

(** [for _, e := range errs { slog.Error(fmt.Sprintf(format, e)) }] *)
Fixpoint logEach (fmt : string) (errs : list string) : M unit :=
  match errs with
  | [] => ret tt
  | e :: rest => slogError fmt e ;;; logEach fmt rest
  end.

(** The derived fields, as both [fetch] methods compute them. *)
Definition deriveMetrics (totalGpus allocGpus : float) : GpuMetrics :=
  let idleGpus := PrimFloat.sub totalGpus allocGpus in
  let utilization :=
    if F64.gt totalGpus F64.zero then PrimFloat.div allocGpus totalGpus
    else F64.zero in
  mkGpuMetrics allocGpus idleGpus totalGpus utilization.

(** The cache test of [FetchMetrics]:
    [cache.cache != nil && time.Since(cache.t).Seconds() < cache.limit]. *)
Definition cacheHit (s : State) : option GpuMetrics :=
  match gpuCache.cache (cache s) with
  | Some m =>
      if F64.lt (GoTime.Seconds (GoTime.Sub (now s) (gpuCache.t (cache s))))
                (gpuCache.limit (cache s))
      then Some m else None
  | None => None
  end.

Definition setMutex (b : bool) (c : gpuCache) : gpuCache :=
  gpuCache.mk b (gpuCache.t c) (gpuCache.limit c) (gpuCache.cache c)
              (gpuCache.duration c).

(** [cache.Unlock()] *)
Definition Unlock : M unit :=
  modify (fun s => set_cache (setMutex false (cache s)) s).

(** The statements of [FetchMetrics] that run while the mutex is held,
    given the [fetch] method of the variant. *)
Definition locked (fetch : M (result GpuMetrics)) : M (result GpuMetrics) :=
  s <- get ;;
  match cacheHit s with
  | Some m => ret (Ok m)
  | None =>
      t0 <- Now ;;
      metrics <-? fetch ;;
      d <- Since t0 ;;
      t1 <- Now ;;
      modify (fun s => set_cache
                (gpuCache.mk (gpuCache.Mutex (cache s)) t1
                             (gpuCache.limit (cache s)) (Some metrics) d) s) ;;;
      ret (Ok metrics)
  end.

(** [FetchMetrics], for a caller that finds the mutex free: [Lock], the
    statements above, and the deferred [Unlock] on every return path.
    [None] stands for a call that blocks in [Lock] because the mutex is
    held. *)
Definition FetchMetricsWith (fetch : M (result GpuMetrics))
  : State -> option (result GpuMetrics * State) := fun s =>
  if gpuCache.Mutex (cache s) then None
  else
    let s1 := set_cache (setMutex true (cache s)) s in
    let '(r, s2) := locked fetch s1 in
    Some (r, snd (Unlock s2)).

(** ** JSON API mode *)

Module GpuJsonFetcher.
Section WithRuntime.
Context {go : GoRuntime}.

Definition fetchTotalGpus : M (result float) :=
  cliJson <-? sinfoFetchRawBytes ;;
  match UnmarshalSinfo cliJson with
  | Err e =>
      slogError "Unmarshaling sinfo GPU metrics: %q" e ;;;
      ret (Err e)
  | Ok sinfoResp =>
      if (0 <? Z.of_nat (List.length (sinfo_Errors sinfoResp))) then
        logEach "sinfo API error response: %q" (sinfo_Errors sinfoResp) ;;;
        counterAdd (Z.of_nat (List.length (sinfo_Errors sinfoResp))) ;;;
        ret (Err (List.hd EmptyString (sinfo_Errors sinfoResp)))
      else
        ret (Ok (fold_left
                   (fun totalGpus node =>
                      PrimFloat.add totalGpus (parseGresGpuCount (Gres node)))
                   (Nodes sinfoResp) F64.zero))
  end.

Definition fetchAllocatedGpus : M (result float) :=
  cliJson <-? sacctFetchRawBytes ;;
  match UnmarshalSacct cliJson with
  | Err e =>
      slogError "Unmarshaling sacct GPU metrics: %q" e ;;;
      ret (Err e)
  | Ok sacctResp =>
      if (0 <? Z.of_nat (List.length (sacct_Errors sacctResp))) then
        logEach "sacct API error response: %q" (sacct_Errors sacctResp) ;;;
        counterAdd (Z.of_nat (List.length (sacct_Errors sacctResp))) ;;;
        ret (Err (List.hd EmptyString (sacct_Errors sacctResp)))
      else
        ret (Ok (fold_left
                   (fun allocGpus job =>
                      PrimFloat.add allocGpus (parseGresGpuCount (AllocGRES job)))
                   (Jobs sacctResp) F64.zero))
  end.

Definition fetch : M (result GpuMetrics) :=
  totalGpus <-? fetchTotalGpus ;;
  allocGpus <-? fetchAllocatedGpus ;;
  ret (Ok (deriveMetrics totalGpus allocGpus)).

Definition FetchMetrics := FetchMetricsWith fetch.

Definition ScrapeError (s : State) : Z := errorCounter s.

Definition ScrapeDuration (s : State) : Duration :=
  SlurmByteScraper.Duration (sinfoScraper s).

End WithRuntime.
End GpuJsonFetcher.

(** ** CLI fallback mode *)

Module GpuCliFallbackFetcher.
Section WithRuntime.
Context {go : GoRuntime}.

(** The loop over the CSV records of [sinfo]: rows with fewer than two
    fields are passed over, the second field of the others is parsed. *)
Definition addRecord (totalGpus : float) (record : list string) : float :=
  if Z.of_nat (List.length record) <? 2 then totalGpus
  else
    let gresField := TrimSpace (List.nth 1 record EmptyString) in
    PrimFloat.add totalGpus (parseGresGpuCount gresField).

Definition fetchTotalGpus : M (result float) :=
  sinfoOutput <-? sinfoFetchRawBytes ;;
  let sinfoOutput := TrimSpace sinfoOutput in
  if len sinfoOutput =? 0 then ret (Ok F64.zero)
  else
    match ReadAll sinfoOutput with
    | Err e =>
        slogError "Failed to parse sinfo GPU output: %q" e ;;;
        counterInc ;;;
        ret (Err e)
    | Ok records => ret (Ok (fold_left addRecord records F64.zero))
    end.

(** The loop over the lines of [sacct]: blank lines are passed over, the
    others are stripped of surrounding double quotes and parsed. *)
Definition addLine (allocGpus : float) (line : string) : float :=
  let line := TrimSpace line in
  if len line =? 0 then allocGpus
  else
    let gresField := Trim line dquote in
    PrimFloat.add allocGpus (parseGresGpuCount gresField).

Definition fetchAllocatedGpus : M (result float) :=
  sacctOutput <-? sacctFetchRawBytes ;;
  let sacctOutput := TrimSpace sacctOutput in
  if len sacctOutput =? 0 then ret (Ok F64.zero)
  else ret (Ok (fold_left addLine (Split sacctOutput newline) F64.zero)).

Definition fetch : M (result GpuMetrics) :=
  totalGpus <-? fetchTotalGpus ;;
  allocGpus <-? fetchAllocatedGpus ;;
  ret (Ok (deriveMetrics totalGpus allocGpus)).

Definition FetchMetrics := FetchMetricsWith fetch.

Definition ScrapeError (s : State) : Z := errorCounter s.

Definition ScrapeDuration (s : State) : Duration :=
  SlurmByteScraper.Duration (sinfoScraper s).

End WithRuntime.
End GpuCliFallbackFetcher.

(** ** The collector *)

Module GpuCollector.
Section WithRuntime.
Context {go : GoRuntime}.

(** The concrete type behind the [GpuFetcher] interface. *)
Inductive GpuFetcher := JsonFetcher | CliFallbackFetcher.

Definition fetch (f : GpuFetcher) : M (result GpuMetrics) :=
  match f with
  | JsonFetcher => GpuJsonFetcher.fetch
  | CliFallbackFetcher => GpuCliFallbackFetcher.fetch
  end.

Definition FetchMetrics (f : GpuFetcher) :=
  match f with
  | JsonFetcher => GpuJsonFetcher.FetchMetrics
  | CliFallbackFetcher => GpuCliFallbackFetcher.FetchMetrics
  end.

Definition ScrapeDuration (f : GpuFetcher) :=
  match f with
  | JsonFetcher => GpuJsonFetcher.ScrapeDuration
  | CliFallbackFetcher => GpuCliFallbackFetcher.ScrapeDuration
  end.

(** [NewGpuCollector]: the variant is chosen by [cliOpts.fallback]; the
    cache starts empty with [limit = config.PollLimit]. *)
Definition NewGpuCollector (fallback : bool) : GpuFetcher :=
  if fallback then CliFallbackFetcher else JsonFetcher.

Definition newCache (PollLimit : float) : gpuCache :=
  gpuCache.mk false 0 PollLimit None 0.

(** The four gauge names sent by [Describe]. *)
Definition Describe : list string :=
  ["slurm_gpus_alloc"; "slurm_gpus_idle"; "slurm_gpus_total";
   "slurm_gpus_utilization"].

(** [Collect]: the gauge observations sent on the channel, in order. *)
Definition Collect (f : GpuFetcher) (s : State)
  : option (list (string * float) * State) :=
  match FetchMetrics f s with
  | None => None
  | Some (Err e, s') =>
      Some ([], snd (slogError "Failed to fetch GPU metrics: %q" e s'))
  | Some (Ok metrics, s') =>
      Some ([("slurm_gpus_alloc", Alloc metrics);
             ("slurm_gpus_idle", Idle metrics);
             ("slurm_gpus_total", Total metrics);
             ("slurm_gpus_utilization", Utilization metrics)], s')
  end.

End WithRuntime.
End GpuCollector.

(** ** Bytes and substrings *)

(** [hasByte c s]: the byte [c] occurs in [s]. *)
Fixpoint hasByte (c : ascii) (s : string) : bool :=
  match s with
  | EmptyString => false
  | String b s' => Ascii.eqb b c || hasByte c s'
  end.

(** [t] occurs in [s] as a contiguous piece. *)
Definition substring (t s : string) : Prop :=
  exists pre suf, s = pre ++ t ++ suf.

Fixpoint prefixes (s : string) : list string :=
  EmptyString ::
  match s with
  | EmptyString => []
  | String c s' => map (String c) (prefixes s')
  end.

(** Every contiguous piece of [s]. *)
Fixpoint substrings (s : string) : list string :=
  prefixes s ++
  match s with
  | EmptyString => []
  | String _ s' => substrings s'
  end.

(** [String.concat] with a one-byte separator: the inverse of [Split]. *)
Fixpoint Join (parts : list string) (sep : ascii) : string :=
  match parts with
  | [] => EmptyString
  | [p] => p
  | p :: rest => p ++ String sep (Join rest sep)
  end.

(** ** The TRES form, from the words of the spec

    "A comma-separated list of key=value pairs; scan for a key beginning
    with gres/gpu; parse its value as a floating-point quantity and return
    the first match; if no such key exists, return 0.  Other keys are
    ignored."  This second definition follows the spec, not the source; it
    is compared with the source's loop in
    [parseGresGpuCount_tres_first_match]. *)

Module TresSpec.
Section WithRuntime.
Context {go : GoRuntime}.

(** One list item cut at its first ['=']: the key before it and the value
    after it; [None] when the item has no ['=']. *)
Definition keyValue (item : string) : option (string * string) :=
  match find item "=" with
  | Some i => Some (take i item, drop (S i) item)
  | None => None
  end.

(** The items of the list, white space around each removed. *)
Definition pairs (s : string) : list (option (string * string)) :=
  map (fun item => keyValue (TrimSpace item)) (Split s ",").

Definition isGpuPair (kv : option (string * string)) : bool :=
  match kv with
  | Some (key, _) => HasPrefix key "gres/gpu"
  | None => false
  end.

(** The value of the first pair whose key begins with [gres/gpu] and
    whose value is a floating-point quantity; [0] when there is none. *)
Fixpoint firstMatch (kvs : list (option (string * string))) : float :=
  match kvs with
  | [] => F64.zero
  | kv :: rest =>
      if isGpuPair kv then
        match kv with
        | Some (_, value) =>
            match ParseFloat value with
            | Some quantity => quantity
            | None => firstMatch rest
            end
        | None => firstMatch rest
        end
      else firstMatch rest
  end.

End WithRuntime.
End TresSpec.

(** ** The outcomes of a fetch, as relations

    The cases of [fetchTotalGpus], [fetchAllocatedGpus] and [fetch], each
    with the value returned and the state left behind.  The relations are
    shown equivalent to the functions ([GpuJsonFetcher_fetch_outcome],
    [GpuCliFallbackFetcher_fetch_outcome]); proofs about a fetch go by
    inversion on them. *)

(** [s] with [records] written to the log and the error counter advanced by
    [delta]. *)
Definition logged (records : list LogEntry) (delta : Z) (s : State) : State :=
  mkState (now s) (records ++ logs s) (trace s) (sinfoScraper s)
          (sacctScraper s) (errorCounter s + delta) (cache s).

Section Outcomes.
Context {go : GoRuntime}.

Definition sumNodes (nodes : list sinfoGpuNode) : float :=
  F64.sum (map (fun node => parseGresGpuCount (Gres node)) nodes).

Definition sumJobs (jobs : list sacctGpuJob) : float :=
  F64.sum (map (fun job => parseGresGpuCount (AllocGRES job)) jobs).

Inductive JsonTotal (s : State) : result float -> State -> Prop :=
| JsonTotal_transport e :
    sinfoOutput s = Err e ->
    JsonTotal s (Err e) (afterSinfo s)
| JsonTotal_decode raw e :
    sinfoOutput s = Ok raw -> UnmarshalSinfo raw = Err e ->
    JsonTotal s (Err e)
      (logged [mkLogEntry LevelError "Unmarshaling sinfo GPU metrics: %q" e] 0
              (afterSinfo s))
| JsonTotal_upstream raw resp :
    sinfoOutput s = Ok raw -> UnmarshalSinfo raw = Ok resp ->
    sinfo_Errors resp <> [] ->
    JsonTotal s (Err (List.hd EmptyString (sinfo_Errors resp)))
      (logged (errorRecords "sinfo API error response: %q" (sinfo_Errors resp))
              (Z.of_nat (List.length (sinfo_Errors resp)))
              (afterSinfo s))
| JsonTotal_ok raw resp :
    sinfoOutput s = Ok raw -> UnmarshalSinfo raw = Ok resp ->
    sinfo_Errors resp = [] ->
    JsonTotal s (Ok (sumNodes (Nodes resp))) (afterSinfo s).

Inductive JsonAlloc (s : State) : result float -> State -> Prop :=
| JsonAlloc_transport e :
    sacctOutput s = Err e ->
    JsonAlloc s (Err e) (afterSacct s)
| JsonAlloc_decode raw e :
    sacctOutput s = Ok raw -> UnmarshalSacct raw = Err e ->
    JsonAlloc s (Err e)
      (logged [mkLogEntry LevelError "Unmarshaling sacct GPU metrics: %q" e] 0
              (afterSacct s))
| JsonAlloc_upstream raw resp :
    sacctOutput s = Ok raw -> UnmarshalSacct raw = Ok resp ->
    sacct_Errors resp <> [] ->
    JsonAlloc s (Err (List.hd EmptyString (sacct_Errors resp)))
      (logged (errorRecords "sacct API error response: %q" (sacct_Errors resp))
              (Z.of_nat (List.length (sacct_Errors resp)))
              (afterSacct s))
| JsonAlloc_ok raw resp :
    sacctOutput s = Ok raw -> UnmarshalSacct raw = Ok resp ->
    sacct_Errors resp = [] ->
    JsonAlloc s (Ok (sumJobs (Jobs resp))) (afterSacct s).

(** CLI fallback: the total of the records [csv.ReadAll] returned, and
    the total of the lines of [sacct]. *)
Definition sumRecords (records : list (list string)) : float :=
  fold_left GpuCliFallbackFetcher.addRecord records F64.zero.

Definition sumLines (out : bytes) : float :=
  fold_left GpuCliFallbackFetcher.addLine (Split out newline) F64.zero.

Inductive CliTotal (s : State) : result float -> State -> Prop :=
| CliTotal_transport e :
    sinfoOutput s = Err e ->
    CliTotal s (Err e) (afterSinfo s)
| CliTotal_blank raw :
    sinfoOutput s = Ok raw -> TrimSpace raw = EmptyString ->
    CliTotal s (Ok F64.zero) (afterSinfo s)
| CliTotal_malformed raw e :
    sinfoOutput s = Ok raw -> TrimSpace raw <> EmptyString ->
    ReadAll (TrimSpace raw) = Err e ->
    CliTotal s (Err e)
      (logged [mkLogEntry LevelError "Failed to parse sinfo GPU output: %q" e] 1
              (afterSinfo s))
| CliTotal_ok raw records :
    sinfoOutput s = Ok raw -> TrimSpace raw <> EmptyString ->
    ReadAll (TrimSpace raw) = Ok records ->
    CliTotal s (Ok (sumRecords records)) (afterSinfo s).

Inductive CliAlloc (s : State) : result float -> State -> Prop :=
| CliAlloc_transport e :
    sacctOutput s = Err e ->
    CliAlloc s (Err e) (afterSacct s)
| CliAlloc_blank raw :
    sacctOutput s = Ok raw -> TrimSpace raw = EmptyString ->
    CliAlloc s (Ok F64.zero) (afterSacct s)
| CliAlloc_ok raw :
    sacctOutput s = Ok raw -> TrimSpace raw <> EmptyString ->
    CliAlloc s (Ok (sumLines (TrimSpace raw))) (afterSacct s).

(** [fetch], in either variant: the total, then the allocation, then the
    derived fields; the first failure ends the fetch. *)
Inductive Fetch (total alloc : State -> result float -> State -> Prop)
          (s : State) : result GpuMetrics -> State -> Prop :=
| Fetch_total_failed e s1 :
    total s (Err e) s1 ->
    Fetch total alloc s (Err e) s1
| Fetch_alloc_failed totalGpus s1 e s2 :
    total s (Ok totalGpus) s1 -> alloc s1 (Err e) s2 ->
    Fetch total alloc s (Err e) s2
| Fetch_ok totalGpus s1 allocGpus s2 :
    total s (Ok totalGpus) s1 -> alloc s1 (Ok allocGpus) s2 ->
    Fetch total alloc s (Ok (deriveMetrics totalGpus allocGpus)) s2.

End Outcomes.

(** ** The outcomes of [FetchMetrics], as a relation *)

(** The state with the mutex taken, and with the mutex released. *)
Definition lock (s : State) : State := set_cache (setMutex true (cache s)) s.
Definition unlock (s : State) : State := set_cache (setMutex false (cache s)) s.

(** The state after a successful refresh that started at time [t0] and left
    the state [s2]: the snapshot, the time of storing and the duration of
    the fetch are written, the mutex is released. *)
Definition store (metrics : GpuMetrics) (t0 : Time) (s2 : State) : State :=
  set_cache (gpuCache.mk false (now s2) (gpuCache.limit (cache s2))
                         (Some metrics) (GoTime.Sub (now s2) t0)) s2.

Inductive Called (fetch : M (result GpuMetrics)) (s : State)
  : result GpuMetrics -> State -> Prop :=
| Called_hit m :
    cacheHit s = Some m ->
    Called fetch s (Ok m) s
| Called_failed e s2 :
    cacheHit s = None -> fetch (lock s) = (Err e, s2) ->
    Called fetch s (Err e) (unlock s2)
| Called_refreshed m s2 :
    cacheHit s = None -> fetch (lock s) = (Ok m, s2) ->
    Called fetch s (Ok m) (store m (now s) s2).

(** The time shown by the clock moves to [later]; nothing else changes. *)
Definition at_time (later : Time) (s : State) : State := set_now later s.

(** ** Sample inputs *)

Module Samples.

Definition quoted (s : string) : string :=
  String dquote (s ++ String dquote EmptyString).

(** The document [{"errors":[...],"LIST":[{"FIELD":"..."},...]}]. *)
Definition jsonDoc (listKey fieldKey : string) (errs values : list string) : bytes :=
  "{" ++ quoted "errors" ++ ":[" ++ Join (map quoted errs) "," ++ "],"
      ++ quoted listKey ++ ":["
      ++ Join (map (fun v => "{" ++ quoted fieldKey ++ ":" ++ quoted v ++ "}")
                   values) ","
      ++ "]}".

Definition sinfoJson := jsonDoc "nodes" "gres".
Definition sacctJson := jsonDoc "jobs" "allocated_gres".

(** A command that always prints [out] and takes [d] nanoseconds, and one
    that always fails. *)
Definition prints (out : bytes) (d : Duration) : Scraper :=
  mkScraper (fun _ => mkScrapeResult (Ok out) d) 0 0.
Definition fails (e : error) (d : Duration) : Scraper :=
  mkScraper (fun _ => mkScrapeResult (Err e) d) 0 0.

(** A fetcher just constructed, at clock reading [1000], with the default
    [PollLimit] of 10 seconds. *)
Definition fresh (sinfo sacct : Scraper) : State :=
  mkState 1000 [] [] sinfo sacct 0 (gpuCache.mk false 0 10%float None 0).

(** Three nodes with 4, 8 and no GPUs; two jobs holding 2 and 1 GPUs.
    [sinfo] takes one second, [sacct] two. *)
Definition jsonState : State :=
  fresh (prints (sinfoJson [] ["gpu:4"; "gpu:a100:8(IDX:0-7)"; "(null)"])
                1000000000)
        (prints (sacctJson [] ["cpu=4,mem=1024M,gres/gpu=2"; "gpu:1"])
                2000000000).

Definition cliState : State :=
  fresh (prints (Join ["node1|gpu:4"; "node2|gpu:a100:8(IDX:0-7)"; "node3|(null)"]
                      newline) 1000000000)
        (prints (Join ["gres/gpu=2"; quoted "gpu:1"; EmptyString] newline)
                2000000000).

(** One node with one GPU, one job holding two. *)
Definition oversubscribed : State :=
  fresh (prints (sinfoJson [] ["gpu:1"]) 1000000000)
        (prints (sacctJson [] ["gpu:2"]) 2000000000).

(** A snapshot stored at clock reading [0], read twenty seconds later with
    a TTL of ten seconds, while the [sinfo] command fails. *)
Definition staleFailing : State :=
  mkState 20000000000 [] [] (fails "exit status 1" 5) (prints EmptyString 5) 0
          (gpuCache.mk false 0 10%float
                       (Some (deriveMetrics 12%float 3%float)) 3000000000).

(** A stale snapshot of 8 GPUs, all allocated, while both commands work
    as in [jsonState]. *)
Definition staleJson : State :=
  mkState 20000000000 [] [] (sinfoScraper jsonState) (sacctScraper jsonState) 0
          (gpuCache.mk false 0 10%float
                       (Some (deriveMetrics 8%float 8%float)) 3000000000).

(** U+00A0 and U+3000 in UTF-8, and a lone lead byte. *)
Definition nbsp : string :=
  String (ascii_of_nat 194) (String (ascii_of_nat 160) EmptyString).
Definition ideographicSpace : string :=
  String (ascii_of_nat 227)
         (String (ascii_of_nat 128) (String (ascii_of_nat 128) EmptyString)).
Definition leadByte : string := String (ascii_of_nat 194) EmptyString.

(** The [sinfo] command cannot run. *)
Definition sinfoDown : State :=
  fresh (fails "exit status 1" 5) (prints EmptyString 5).


Definition sampleState (f : GpuCollector.GpuFetcher) : State :=
  match f with
  | GpuCollector.JsonFetcher => jsonState
  | GpuCollector.CliFallbackFetcher => cliState
  end.

End Samples.

(** The derived fields of a snapshot follow the formulas of [fetch]. *)
Definition derived (m : GpuMetrics) : Prop :=
  Idle m = PrimFloat.sub (Total m) (Alloc m) /\
  Utilization m = (if F64.gt (Total m) F64.zero
                   then PrimFloat.div (Alloc m) (Total m)
                   else F64.zero).

(** The cached snapshot, if there is one, is [derived]. *)
Definition cacheDerived (s : State) : Prop :=
  forall m, gpuCache.cache (cache s) = Some m -> derived m.

(** [x >= 0] on float64 (false of NaN). *)
Definition nonneg (x : float) : Prop := F64.le F64.zero x = true.

Section Counts.
Context {go : GoRuntime}.

(** The count a CSV record of [sinfo] and a line of [sacct] contribute. *)
Definition recordCount (record : list string) : float :=
  parseGresGpuCount (TrimSpace (List.nth 1 record EmptyString)).

Definition lineCount (line : string) : float :=
  parseGresGpuCount (Trim (TrimSpace line) dquote).

End Counts.

(** ** Why a fetch fails, and what it writes then

    [Cause f s e id records n]: in state [s] the fetch of variant [f] fails
    with error [e] in the step that runs the command [id]; on the way it
    writes [records] to the log (most recent first) and advances the error
    counter by [n]. *)

(** [wrote records n s s']: from [s] to [s'], [records] were added to the
    log and the error counter advanced by [n]. *)
Definition wrote (records : list LogEntry) (n : Z) (s s' : State) : Prop :=
  logs s' = (records ++ logs s)%list /\ errorCounter s' = errorCounter s + n.

Section Causes.
Context {go : GoRuntime}.



End Causes.

(** ** Reading the trace of scraper invocations *)

(** The time taken by the most recent invocation of any scraper, and by
    the most recent invocation of the scraper [id]. *)
Definition mostRecentCall (tr : list (ScraperId * Duration)) : option Duration :=
  match tr with
  | (_, d) :: _ => Some d
  | [] => None
  end.

Definition isScraper (id : ScraperId) (call : ScraperId * Duration) : bool :=
  match id, fst call with
  | Sinfo, Sinfo | Sacct, Sacct => true
  | _, _ => false
  end.

Definition lastCall (id : ScraperId) (tr : list (ScraperId * Duration))
  : option Duration :=
  option_map snd (List.find (isScraper id) tr).

(** [ScrapeDuration] shows the latest [sinfo] invocation, once there was
    one. *)
Definition tracksSinfo (s : State) : Prop :=
  forall d, lastCall Sinfo (trace s) = Some d ->
            SlurmByteScraper.Duration (sinfoScraper s) = d.


(** ** Legacy GRES lists *)

Section LegacyTerms.
Context {go : GoRuntime}.

(** The terms of a legacy list: no term holds [','] or ['=']. *)
Definition legacyTerms (ts : list string) : Prop :=
  forall t, In t ts -> hasByte "," t = false /\ hasByte "=" t = false.

(** The quantity one term of a list of two or more contributes. *)
Definition termCount (t : string) : float := parseToken (TrimSpace t).

(** [t'] is [t] with the letter case of one [gpu] marker (the resource
    name in front of a [':']) changed, or [t] itself. *)
Definition markerCase (t t' : string) : Prop :=
  t = t' \/
  exists pre m m' rest,
    t = pre ++ m ++ ":" ++ rest /\ t' = pre ++ m' ++ ":" ++ rest /\
    ToLower m = "gpu" /\ ToLower m' = "gpu".

End LegacyTerms.

(** ** Concurrent callers

    Several goroutines call [FetchMetrics] on one fetcher.  Each is at one
    of the points of the method where another goroutine may run: before
    [Lock] returns, after it (the mutex is held, the cache test comes
    next), while the fetch is in flight (the scrapers run), or after the
    return.  A step is taken by one goroutine at a time, or by the clock.
    The statements between two such points are those of [FetchMetricsWith]
    and [locked]. *)

Inductive Status :=
| Waiting
| Holding
| Fetching (t0 : Time)
| Returned (r : result GpuMetrics).

Record Config := mkConfig {
  shared : State;
  goroutines : list Status }.

(** The status of goroutine [i] becomes [st]. *)
Fixpoint setStatus (i : nat) (st : Status) (gs : list Status) : list Status :=
  match gs, i with
  | [], _ => []
  | _ :: rest, O => st :: rest
  | g :: rest, S i' => g :: setStatus i' st rest
  end.

(** A goroutine is inside the critical section between [Lock] and
    [Unlock]. *)
Definition inside (st : Status) : bool :=
  match st with
  | Holding | Fetching _ => true
  | Waiting | Returned _ => false
  end.

Definition countInside (gs : list Status) : nat :=
  List.length (filter inside gs).

(** A fetch, hence a scraper invocation, is in flight. *)
Definition fetching (st : Status) : bool :=
  match st with
  | Fetching _ => true
  | _ => false
  end.

Definition countFetching (gs : list Status) : nat :=
  List.length (filter fetching gs).

Definition returned (st : Status) : bool :=
  match st with
  | Returned _ => true
  | _ => false
  end.

Definition countReturned (gs : list Status) : nat :=
  List.length (filter returned gs).

(** The goroutine has returned an error. *)
Definition failed (st : Status) : bool :=
  match st with
  | Returned (Err _) => true
  | _ => false
  end.

Definition countFailed (gs : list Status) : nat :=
  List.length (filter failed gs).

Inductive Event :=
| EvLock (i : nat)
| EvHit (i : nat)
| EvMiss (i : nat)
| EvFetched (i : nat)
| EvTick (d : Duration).

(** The nanoseconds an event lets pass on the clock, outside the scrapers'
    own running time. *)
Definition ticks (ev : Event) : Z :=
  match ev with
  | EvTick d => d
  | _ => 0
  end.

Section Steps.
Variable fetch : M (result GpuMetrics).

Inductive step : Config -> Event -> Config -> Prop :=
(* [cache.Lock()] returns: the mutex was free and is now held *)
| step_lock s gs i :
    nth_error gs i = Some Waiting ->
    gpuCache.Mutex (cache s) = false ->
    step (mkConfig s gs) (EvLock i)
         (mkConfig (lock s) (setStatus i Holding gs))
(* the cache test succeeds: return the snapshot, [Unlock] *)
| step_hit s gs i m :
    nth_error gs i = Some Holding ->
    cacheHit s = Some m ->
    step (mkConfig s gs) (EvHit i)
         (mkConfig (unlock s) (setStatus i (Returned (Ok m)) gs))
(* the cache test fails: [t := time.Now()], the fetch starts *)
| step_miss s gs i :
    nth_error gs i = Some Holding ->
    cacheHit s = None ->
    step (mkConfig s gs) (EvMiss i)
         (mkConfig s (setStatus i (Fetching (now s)) gs))
(* the fetch failed: return the error, [Unlock] *)
| step_failed s gs i t0 e s2 :
    nth_error gs i = Some (Fetching t0) ->
    fetch s = (Err e, s2) ->
    step (mkConfig s gs) (EvFetched i)
         (mkConfig (unlock s2) (setStatus i (Returned (Err e)) gs))
(* the fetch succeeded: store, return the snapshot, [Unlock] *)
| step_fetched s gs i t0 m s2 :
    nth_error gs i = Some (Fetching t0) ->
    fetch s = (Ok m, s2) ->
    step (mkConfig s gs) (EvFetched i)
         (mkConfig (store m t0 s2) (setStatus i (Returned (Ok m)) gs))
(* time passes *)
| step_tick s gs d :
    0 <= d ->
    step (mkConfig s gs) (EvTick d)
         (mkConfig (at_time (now s + d) s) gs).

(** [run c k c']: some interleaving leads from [c] to [c'], during which
    the clock ticks for [k] nanoseconds in total. *)
Inductive run : Config -> Z -> Config -> Prop :=
| run_nil c : run c 0 c
| run_step c k c1 ev c2 :
    run c k c1 -> step c1 ev c2 -> run c (k + ticks ev) c2.

End Steps.

(** [n] goroutines have called [FetchMetrics] on the fetcher in state [s]. *)
Definition callers (n : nat) (s : State) : Config :=
  mkConfig s (repeat Waiting n).

(** The invariants of a run that starts with [n] callers on a fetcher in
    state [s0]. *)

(** The mutex is held exactly when one goroutine is inside. *)
Definition mutexInv (c : Config) : Prop :=
  countInside (goroutines c) =
  (if gpuCache.Mutex (cache (shared c)) then 1 else 0)%nat.

(** [s] has the scrapers and the cache entry of [s0]. *)
Definition sameBacking (s0 s : State) : Prop :=
  sinfoScraper s = sinfoScraper s0 /\
  sacctScraper s = sacctScraper s0 /\
  gpuCache.cache (cache s) = gpuCache.cache (cache s0) /\
  gpuCache.t (cache s) = gpuCache.t (cache s0) /\
  gpuCache.limit (cache s) = gpuCache.limit (cache s0).

(** No refresh has completed yet: the clock has moved by the [k]
    nanoseconds of the ticks only, and nobody has returned. *)
Definition beforeRefresh (s0 : State) (k : Z) (c : Config) : Prop :=
  sameBacking s0 (shared c) /\
  now (shared c) = now s0 + k /\
  Forall (fun st => returned st = false) (goroutines c).

(** The refresh has completed and stored [m]; since then the clock has
    moved by [k] nanoseconds at most, each scraper has run once, and no
    fetch is in flight. *)
Definition afterRefresh (s0 : State) (m : GpuMetrics) (k : Z) (c : Config) : Prop :=
  gpuCache.cache (cache (shared c)) = Some m /\
  gpuCache.limit (cache (shared c)) = gpuCache.limit (cache s0) /\
  0 <= now (shared c) - gpuCache.t (cache (shared c)) <= k /\
  invocations (sinfoScraper (shared c)) = S (invocations (sinfoScraper s0)) /\
  invocations (sacctScraper (shared c)) = S (invocations (sacctScraper s0)) /\
  Forall (fun st => st = Waiting \/ st = Holding \/ st = Returned (Ok m))
         (goroutines c).

(** The cache test succeeds as long as no more than [K] nanoseconds have
    passed since the snapshot was stored. *)
Definition withinTTL (K : Z) (limit : float) : Prop :=
  forall d, 0 <= d <= K ->
            F64.lt (GoTime.Seconds (GoTime.Sub d 0)) limit = true.

(** The entry of the cache in [s0], which may hold a snapshot, has expired
    and stays expired while the clock moves on by up to [K] nanoseconds:
    the cache test fails throughout. *)
Definition staleFor (K : Z) (s0 : State) : Prop :=
  forall d, 0 <= d <= K -> cacheHit (at_time (now s0 + d) s0) = None.

(** ** Other resources in a GRES string *)

(** The term [t] of a legacy list names a GPU resource: ["gpu"] occurs, in
    any letter case, in front of its index annotation. *)
Definition mentionsGpu (t : string) : bool :=
  Contains (ToLower (stripIndex (TrimSpace t))) "gpu".

(** The count written after the last [':'] of a token, the index
    annotation put aside; [0] when it is not a number. *)
Definition countField {go : GoRuntime} (rest : string) : float :=
  match ParseFloat (List.last (Split (stripIndex rest) ":") EmptyString) with
  | Some count => count
  | None => F64.zero
  end.

(** ** The two steps of a fetch, by variant *)

Module GpuFetcher.
Section WithRuntime.
Context {go : GoRuntime}.

Definition fetchTotalGpus (f : GpuCollector.GpuFetcher) : M (result float) :=
  match f with
  | GpuCollector.JsonFetcher => GpuJsonFetcher.fetchTotalGpus
  | GpuCollector.CliFallbackFetcher => GpuCliFallbackFetcher.fetchTotalGpus
  end.

Definition fetchAllocatedGpus (f : GpuCollector.GpuFetcher) : M (result float) :=
  match f with
  | GpuCollector.JsonFetcher => GpuJsonFetcher.fetchAllocatedGpus
  | GpuCollector.CliFallbackFetcher => GpuCliFallbackFetcher.fetchAllocatedGpus
  end.

End WithRuntime.
End GpuFetcher.

(** What a step does to the fetcher, apart from the cache it never
    touches: the command [id] runs once, the other not at all; error
    records are written and the error counter advances, by nothing when the
    step succeeds. *)
Definition ranOnce (id : ScraperId) (s s1 : State) : Prop :=
  match id with
  | Sinfo => sinfoScraper s1 = sinfoScraper (afterSinfo s) /\
             sacctScraper s1 = sacctScraper s
  | Sacct => sinfoScraper s1 = sinfoScraper s /\
             sacctScraper s1 = sacctScraper (afterSacct s)
  end.

Definition stepEffect {A} (id : ScraperId) (s : State) (r : result A) (s1 : State)
  : Prop :=
  ranOnce id s s1 /\
  exists records n,
    wrote records n s s1 /\ 0 <= n /\
    Forall (fun rec => level rec = LevelError) records /\
    (forall v, r = Ok v -> records = [] /\ n = 0).

(** ** The resource strings the two variants read *)

Section ResourceStrings.
Context {go : GoRuntime}.

(** JSON API mode: both documents decode and list no error; [nodes] are
    the [gres] fields of the nodes and [jobs] the [allocated_gres] fields
    of the jobs, in order. *)
Definition jsonData (s : State) (nodes jobs : list string) : Prop :=
  exists raw1 resp1 raw2 resp2,
    sinfoOutput s = Ok raw1 /\ UnmarshalSinfo raw1 = Ok resp1 /\
    sinfo_Errors resp1 = [] /\ map Gres (Nodes resp1) = nodes /\
    sacctOutput s = Ok raw2 /\ UnmarshalSacct raw2 = Ok resp2 /\
    sacct_Errors resp2 = [] /\ map AllocGRES (Jobs resp2) = jobs.

(** A CSV record that has the second field, and that field trimmed. *)
Definition hasGresField (record : list string) : bool :=
  negb (Z.of_nat (List.length record) <? 2).

Definition gresField (record : list string) : string :=
  TrimSpace (List.nth 1 record EmptyString).

(** A line that is not blank, and the line without the white space and
    the double quotes around it. *)
Definition notBlank (line : string) : bool :=
  negb (len (TrimSpace line) =? 0).

Definition allocField (line : string) : string :=
  Trim (TrimSpace line) dquote.

(** CLI fallback mode: the output of [sinfo] is blank or parses as CSV;
    [nodes] are the second fields of its records and [jobs] the non-blank
    lines of [sacct], in order. *)
Definition cliData (s : State) (nodes jobs : list string) : Prop :=
  exists raw1 records raw2,
    sinfoOutput s = Ok raw1 /\
    (TrimSpace raw1 = EmptyString /\ records = [] \/
     TrimSpace raw1 <> EmptyString /\ ReadAll (TrimSpace raw1) = Ok records) /\
    map gresField (filter hasGresField records) = nodes /\
    sacctOutput s = Ok raw2 /\
    map allocField (filter notBlank (Split (TrimSpace raw2) newline)) = jobs.

(** The snapshot for the resource strings [nodes] and [jobs]. *)
Definition snapshotOf (nodes jobs : list string) : GpuMetrics :=
  deriveMetrics (F64.sum (map parseGresGpuCount nodes))
                (F64.sum (map parseGresGpuCount jobs)).

End ResourceStrings.

Module MoreSamples.

(** The same resource strings as JSON documents and as the text of the
    CLI fallback. *)
Definition sameJson : State :=
  Samples.fresh
    (Samples.prints (Samples.sinfoJson [] ["gpu:4"; "gpu:a100:8(IDX:0-7)"; "(null)"])
                    1000000000)
    (Samples.prints (Samples.sacctJson [] ["gres/gpu=2"; "gpu:1"]) 2000000000).

Definition sameCli : State :=
  Samples.fresh
    (Samples.prints
       (Join ["node1|gpu:4"; "node2| gpu:a100:8(IDX:0-7) "; "node3|(null)"] newline)
       1000000000)
    (Samples.prints
       (Join ["gres/gpu=2"; EmptyString; Samples.quoted "gpu:1"; EmptyString] newline)
       2000000000).

(** Both commands print white space only. *)
Definition blank : State :=
  Samples.fresh (Samples.prints (String newline " ") 5)
                (Samples.prints (String newline EmptyString) 5).

End MoreSamples.

(** * Configuration and construction: [exporter/server.go]

    [NewConfig] turns the command-line flags and the environment into the
    [Config] from which [NewGpuCollector] builds the GPU collector;
    [NewPromHTTPServer] builds the handler that hides the metric families
    an exclusion pattern matches. *)

(** The functions of Go's standard and Prometheus libraries that
    [server.go] calls and whose text is outside the repository.
    - [Regexp] stands for a compiled [regexp.Regexp]; [Compile] is
      [regexp.Compile], [RegexpString] the method [String] (the source
      text the expression was compiled from) and [MatchString] the method
      of that name.
    - [ParseFloatError s] is the error [strconv.ParseFloat(s, 64)]
      returns for a string it rejects.
    - [MetricFamily] stands for [dto.MetricFamily] and [GetName] for its
      method. *)
Class ServerRuntime := {
  Regexp : Type;
  Compile : string -> result Regexp;
  RegexpString : Regexp -> string;
  MatchString : Regexp -> string -> bool;
  ParseFloatError : string -> error;
  MetricFamily : Type;
  GetName : MetricFamily -> string }.

Module Server.

Module CliFlags.
Record CliFlags := mk {
  SlurmLicEnabled : bool;
  SlurmDiagEnabled : bool;
  SlurmGpusEnabled : bool;
  SlurmCliFallback : bool;
  TraceEnabled : bool;
  SacctEnabled : bool;
  SlurmPollLimit : float;
  LogLevel : string;
  ListenAddress : string;
  MetricsPath : string;
  SlurmSqueueOverride : string;
  SlurmSinfoOverride : string;
  SlurmDiagOverride : string;
  SlurmAcctOverride : string;
  SlurmSinfoGpuOverride : string;
  SlurmSacctGpuOverride : string;
  TraceRate : Z;
  TracePath : string;
  SlurmLicenseOverride : string;
  MetricsExcludeFilterRegex : string }.
End CliFlags.
Abbreviation CliFlags := CliFlags.CliFlags.

Section WithRuntime.
Context {go : GoRuntime} {sr : ServerRuntime}.

(** [excludeFilter] is a pointer: [None] for nil. *)
Record CliOpts := mkCliOpts {
  sinfo : list string;
  squeue : list string;
  sacctmgr : list string;
  lic : list string;
  sdiag : list string;
  sinfoGpu : list string;
  sacctGpu : list string;
  licEnabled : bool;
  diagsEnabled : bool;
  gpusEnabled : bool;
  fallback : bool;
  sacctEnabled : bool;
  excludeFilter : option Regexp }.

(** Modelled from the spec: [NewCliScraper], [NewAtomicThrottledCache]
    and the job fetchers [JobJsonFetcher] and [JobCliFallbackFetcher] are
    not part of the sources.  A scraper is bound at construction to one
    fixed command-and-argument vector, and the TTL is applied to every
    domain's cache uniformly; a job fetcher is recorded here by the
    variant and by what [NewConfig] passes to its constructors. *)
Inductive JobFetcherVariant := JobJsonFetcher | JobCliFallbackFetcher.

Record JobFetcher := mkJobFetcher {
  jobVariant : JobFetcherVariant;
  jobScraper : list string;
  jobCacheLimit : float;
  jobErrCounter : string * string }.

(** [rate] is a [uint64]; [sharedFetcher] is an interface value, [None]
    for nil. *)
Record TraceConfig := mkTraceConfig {
  enabled : bool;
  path : string;
  rate : Z;
  sharedFetcher : option JobFetcher }.

(** [TraceConf] and [cliOpts] are pointers to the local variables
    [traceConf] and [cliOpts] of [NewConfig]: what [NewConfig] assigns to
    those variables after it has built the [Config] is seen through it.
    The record holds the values the pointers lead to when [NewConfig]
    returns. *)
Record Config := mkConfig {
  TraceConf : TraceConfig;
  PollLimit : float;
  LogLevel : Level;
  ListenAddress : string;
  MetricsPath : string;
  cliOpts : CliOpts }.

(** [logLevelMap], and [m[key]] on it: the zero value of [slog.Level],
    which is [slog.LevelInfo], when the key is missing. *)
Definition logLevelMap : list (string * Level) :=
  [("debug", LevelDebug); ("info", LevelInfo);
   ("warn", LevelWarn); ("error", LevelError)].

Fixpoint mapIndex (m : list (string * Level)) (key : string) : Level :=
  match m with
  | [] => LevelInfo
  | (k, v) :: rest => if String.eqb k key then v else mapIndex rest key
  end.

(** [s != ""] *)
Definition nonEmpty (s : string) : bool := negb (String.eqb s EmptyString).

(** The [-o] format of the fallback [squeue] command, a raw string
    literal that holds double quotes. *)
Definition squeueFormat : string :=
  let q := Samples.quoted in
  "{" ++ q "a" ++ ": " ++ q "%a" ++ ", " ++ q "id" ++ ": %A, "
      ++ q "end_time" ++ ": " ++ q "%e" ++ ", " ++ q "u" ++ ": " ++ q "%u" ++ ", "
      ++ q "state" ++ ": " ++ q "%T" ++ ", " ++ q "p" ++ ": " ++ q "%P" ++ ", "
      ++ q "cpu" ++ ": %C, " ++ q "mem" ++ ": " ++ q "%m" ++ ", "
      ++ q "array_id" ++ ": " ++ q "%K" ++ ", " ++ q "r" ++ ": " ++ q "%R" ++ "}".

(** [NewConfig].  [env] is the process environment as [os.LookupEnv]
    reads it.  The local variables of the source are the variables of the
    same names here; a field of [cliOpts], [traceConf] or [config] that is
    assigned to is bound again under its name. *)
Definition NewConfig (env : string -> option string) (cliFlags : CliFlags)
  : result Config :=
  match Compile (CliFlags.MetricsExcludeFilterRegex cliFlags) with
  | Err err => Err err
  | Ok compiledExcludeRegex =>
  (* cliOpts := CliOpts{...} *)
  let squeue := ["squeue"; "--json"] in
  let sinfo := ["sinfo"; "--json"] in
  let lic := ["scontrol"; "show"; "lic"; "--json"] in
  let sdiag := ["sdiag"; "--json"] in
  let sacctmgr :=
    ["sacctmgr"; "show"; "assoc";
     "format=User,Account,GrpCPU,GrpMem,GrpJobs,GrpSubmit";
     "--noheader"; "--parsable2"] in
  let sinfoGpu := ["sinfo"; "--json"] in
  let sacctGpu :=
    ["sacct"; "-a"; "-X"; "--format=AllocGRES"; "--state=RUNNING"; "--json"] in
  let fallback := CliFlags.SlurmCliFallback cliFlags in
  (* traceConf := TraceConfig{...} *)
  let path := "/trace" in
  let rate := 10 in
  (* config := &Config{...} *)
  let PollLimit := 10%float in
  let LogLevel := LevelInfo in
  let ListenAddress := ":9092" in
  let MetricsPath := "/metrics" in
  match
    match env "POLL_LIMIT" with
    | Some lm =>
        match ParseFloat lm with
        | None => Err (ParseFloatError lm)
        | Some limit => Ok limit
        end
    | None => Ok PollLimit
    end
  with
  | Err err => Err err
  | Ok PollLimit =>
  let PollLimit :=
    if F64.gt (CliFlags.SlurmPollLimit cliFlags) F64.zero
    then CliFlags.SlurmPollLimit cliFlags else PollLimit in
  let LogLevel :=
    match env "LOGLEVEL" with
    | Some lvl => mapIndex logLevelMap lvl
    | None => LogLevel
    end in
  let LogLevel :=
    if nonEmpty (CliFlags.LogLevel cliFlags)
    then mapIndex logLevelMap (CliFlags.LogLevel cliFlags) else LogLevel in
  let ListenAddress :=
    if nonEmpty (CliFlags.ListenAddress cliFlags)
    then CliFlags.ListenAddress cliFlags else ListenAddress in
  let MetricsPath :=
    if nonEmpty (CliFlags.MetricsPath cliFlags)
    then CliFlags.MetricsPath cliFlags else MetricsPath in
  let squeue :=
    if nonEmpty (CliFlags.SlurmSqueueOverride cliFlags)
    then Split (CliFlags.SlurmSqueueOverride cliFlags) " " else squeue in
  let sinfo :=
    if nonEmpty (CliFlags.SlurmSinfoOverride cliFlags)
    then Split (CliFlags.SlurmSinfoOverride cliFlags) " " else sinfo in
  let sdiag :=
    if nonEmpty (CliFlags.SlurmDiagOverride cliFlags)
    then Split (CliFlags.SlurmDiagOverride cliFlags) " " else sdiag in
  let sacctmgr :=
    if nonEmpty (CliFlags.SlurmAcctOverride cliFlags)
    then Split (CliFlags.SlurmAcctOverride cliFlags) " " else sacctmgr in
  let rate :=
    if negb (CliFlags.TraceRate cliFlags =? 0)
    then CliFlags.TraceRate cliFlags else rate in
  let path :=
    if nonEmpty (CliFlags.TracePath cliFlags)
    then CliFlags.TracePath cliFlags else path in
  let lic :=
    if nonEmpty (CliFlags.SlurmLicenseOverride cliFlags)
    then Split (CliFlags.SlurmLicenseOverride cliFlags) " " else lic in
  let sinfoGpu :=
    if nonEmpty (CliFlags.SlurmSinfoGpuOverride cliFlags)
    then Split (CliFlags.SlurmSinfoGpuOverride cliFlags) " " else sinfoGpu in
  let sacctGpu :=
    if nonEmpty (CliFlags.SlurmSacctGpuOverride cliFlags)
    then Split (CliFlags.SlurmSacctGpuOverride cliFlags) " " else sacctGpu in
  let '(squeue, sinfo, sinfoGpu, sacctGpu, sharedFetcher) :=
    if fallback then
      let squeue :=
        if String.eqb (CliFlags.SlurmSqueueOverride cliFlags) EmptyString
        then ["squeue"; "--states=all"; "-h"; "-r"; "-o"; squeueFormat]
        else squeue in
      let sinfo :=
        if String.eqb (CliFlags.SlurmSinfoOverride cliFlags) EmptyString
        then ["sinfo"; "-h"; "-O";
              "StateCompact:12|,Memory:15|,NodeHost:30|,CPUsLoad:12|,Partition:15|,FreeMem:15|,CPUsState:15|,Weight:10|,AllocMem:15"]
        else sinfo in
      let sinfoGpu :=
        if String.eqb (CliFlags.SlurmSinfoGpuOverride cliFlags) EmptyString
        then ["sinfo"; "-h"; "-O"; "Gres:30|"] else sinfoGpu in
      let sacctGpu :=
        if String.eqb (CliFlags.SlurmSacctGpuOverride cliFlags) EmptyString
        then ["sacct"; "-a"; "-X"; "--format=AllocGRES"; "--state=RUNNING";
              "--noheader"; "--parsable2"]
        else sacctGpu in
      (squeue, sinfo, sinfoGpu, sacctGpu,
       mkJobFetcher JobCliFallbackFetcher squeue PollLimit
                    ("job_scrape_errors", "job scrape errors"))
    else
      (squeue, sinfo, sinfoGpu, sacctGpu,
       mkJobFetcher JobJsonFetcher squeue PollLimit
                    ("job_scrape_errors", "job scrape errors")) in
  Ok (mkConfig
        (mkTraceConfig (CliFlags.TraceEnabled cliFlags) path rate
                       (Some sharedFetcher))
        PollLimit LogLevel ListenAddress MetricsPath
        (mkCliOpts sinfo squeue sacctmgr lic sdiag sinfoGpu sacctGpu
                   (CliFlags.SlurmLicEnabled cliFlags)
                   (CliFlags.SlurmDiagEnabled cliFlags)
                   (CliFlags.SlurmGpusEnabled cliFlags)
                   fallback
                   (CliFlags.SacctEnabled cliFlags)
                   (Some compiledExcludeRegex)))
  end
  end.

(** ** [NewPromHTTPServer] *)

(** The handler returned: [promhttp.Handler()], which serves what the
    default gatherer gathers, or [promhttp.HandlerFor] on the gatherer
    that filters with the pattern [re]. *)
Inductive Handler :=
| DefaultHandler
| FilteredHandler (re : Regexp).

(** The loop of the filtering gatherer: the families whose name the
    pattern does not match are appended to [filteredMetrics] in order. *)
Definition filterLoop (re : Regexp) (allMetrics : list MetricFamily)
  : list MetricFamily :=
  fold_left
    (fun filteredMetrics mf =>
       if negb (MatchString re (GetName mf))
       then (filteredMetrics ++ [mf])%list else filteredMetrics)
    allMetrics [].

(** [filteredGatherer], given what [prometheus.DefaultGatherer.Gather()]
    returns. *)
Definition filteredGatherer (re : Regexp)
           (gathered : result (list MetricFamily))
  : result (list MetricFamily) :=
  match gathered with
  | Err err => Err err
  | Ok allMetrics => Ok (filterLoop re allMetrics)
  end.

(** [NewPromHTTPServer]: the handler and the [slog.Info] message written,
    if any. *)
Definition NewPromHTTPServer (metricsExcludeFilter : option Regexp)
  : Handler * list string :=
  match metricsExcludeFilter with
  | None => (DefaultHandler, [])
  | Some re =>
      if String.eqb (RegexpString re) EmptyString then (DefaultHandler, [])
      else (FilteredHandler re,
            ["filtering metrics based on regex: " ++ RegexpString re])
  end.

(** What the handler serves, given what the default gatherer gathers. *)
Definition served (h : Handler) (gathered : result (list MetricFamily))
  : result (list MetricFamily) :=
  match h with
  | DefaultHandler => gathered
  | FilteredHandler re => filteredGatherer re gathered
  end.

(** ** [NewGpuCollector] *)

(** [prometheus.NewDesc(fqName, help, nil, nil)] *)
Record Desc := mkDesc { fqName : string; help : string }.

(** The fetcher [NewGpuCollector] builds: the variant, the commands its
    two scrapers are bound to, the cache and the options of the error
    counter. *)
Record Fetcher := mkFetcher {
  variant : GpuCollector.GpuFetcher;
  sinfoCommand : list string;
  sacctCommand : list string;
  fetcherCache : gpuCache;
  errorCounterOpts : string * string }.

Record GpuCollector := mkGpuCollector {
  alloc : Desc;
  idle : Desc;
  total : Desc;
  utilization : Desc;
  fetcher : Fetcher }.

Definition NewGpuCollector (config : Config) : GpuCollector :=
  let cliOpts := cliOpts config in
  let fetcher :=
    if fallback cliOpts then
      mkFetcher GpuCollector.CliFallbackFetcher
                (sinfoGpu cliOpts) (sacctGpu cliOpts)
                (gpuCache.mk false 0 (PollLimit config) None 0)
                ("gpu_scrape_errors", "GPU scrape errors")
    else
      mkFetcher GpuCollector.JsonFetcher
                (sinfoGpu cliOpts) (sacctGpu cliOpts)
                (gpuCache.mk false 0 (PollLimit config) None 0)
                ("gpu_scrape_errors", "GPU scrape errors") in
  mkGpuCollector
    (mkDesc "slurm_gpus_alloc" "Allocated GPUs")
    (mkDesc "slurm_gpus_idle" "Idle GPUs")
    (mkDesc "slurm_gpus_total" "Total GPUs")
    (mkDesc "slurm_gpus_utilization" "Total GPU utilization")
    fetcher.

(** [Describe]: the descriptors sent, in order. *)
Definition Describe (gc : GpuCollector) : list Desc :=
  [alloc gc; idle gc; total gc; utilization gc].

(** The state in which the fetcher of a new collector takes its first
    call.  Modelled from the spec: [NewCliScraper] binds a scraper to the
    command it is given; [exec args k] is what the command [args] does on
    its run number [k].  Nothing has been logged or counted, no command
    has run. *)
Definition start (exec : list string -> nat -> ScrapeResult) (clock : Time)
           (f : Fetcher) : State :=
  mkState clock [] []
          (mkScraper (exec (sinfoCommand f)) 0 0)
          (mkScraper (exec (sacctCommand f)) 0 0)
          0 (fetcherCache f).

End WithRuntime.
End Server.

(** ** A computable fragment of the server runtime

    For running [NewConfig] on concrete inputs: patterns made of
    letters, digits and ['_'] only, which match a name exactly when they
    occur in it; a metric family is its name.  Other patterns are outside
    the fragment and rejected. *)

Module FragmentServer.

Definition isWord (c : ascii) : bool :=
  let n := nat_of_ascii c in
  ((48 <=? n)%nat && (n <=? 57)%nat) || ((65 <=? n)%nat && (n <=? 90)%nat)
  || ((97 <=? n)%nat && (n <=? 122)%nat) || (n =? 95)%nat.

Definition Compile (s : string) : result string :=
  if Fragment.allBytes isWord s then Ok s
  else Err "pattern outside the fragment".

Definition MatchString (re name : string) : bool := Contains name re.

Definition ParseFloatError (s : string) : error :=
  "strconv.ParseFloat: parsing " ++ Samples.quoted s ++ ": invalid syntax".

Definition runtime : ServerRuntime :=
  Build_ServerRuntime string Compile (fun re => re) MatchString
                      ParseFloatError string (fun name => name).

(** No flag given. *)
Definition noFlags : Server.CliFlags :=
  Server.CliFlags.mk false false false false false false 0%float
    EmptyString EmptyString EmptyString EmptyString EmptyString EmptyString
    EmptyString EmptyString EmptyString 0 EmptyString EmptyString EmptyString.

(** GPU collection in CLI fallback mode with a limit of 30 seconds, the
    [sinfo] command for GPUs overridden. *)
Definition gpuFlags : Server.CliFlags :=
  Server.CliFlags.mk false false true true false false 30%float
    "verbose" EmptyString EmptyString EmptyString EmptyString EmptyString
    EmptyString "sinfo -h -O NodeHost:30|,Gres:30" EmptyString 0 EmptyString
    EmptyString "slurm_gpus_idle".

Definition emptyEnv : string -> option string := fun _ => None.

(** [POLL_LIMIT=ten LOGLEVEL=debug] *)
Definition badLimitEnv : string -> option string := fun name =>
  if String.eqb name "POLL_LIMIT" then Some "ten"
  else if String.eqb name "LOGLEVEL" then Some "debug" else None.

(** [POLL_LIMIT=2.5 LOGLEVEL=debug] *)
Definition debugEnv : string -> option string := fun name =>
  if String.eqb name "POLL_LIMIT" then Some "2.5"
  else if String.eqb name "LOGLEVEL" then Some "debug" else None.

(** Every command prints nothing and takes no time. *)
Definition silent : list string -> nat -> ScrapeResult :=
  fun _ _ => mkScrapeResult (Ok EmptyString) 0.

End FragmentServer.

(** * Properties *)

(** ** Strings *)

Section StringFacts.

Lemma HasPrefix_nil (s : string) : HasPrefix s EmptyString = true.
Proof. destruct s; reflexivity. Qed.

Lemma Contains_byte (c : ascii) (s : string) :
  Contains s (String c EmptyString) = hasByte c s.
Proof.
  induction s as [|b s IH]; simpl.
  - reflexivity.
  - rewrite IH, HasPrefix_nil, andb_true_r, Ascii.eqb_sym. reflexivity.
Qed.

Lemma hasByte_app (c : ascii) (s1 s2 : string) :
  hasByte c (s1 ++ s2) = hasByte c s1 || hasByte c s2.
Proof.
  induction s1 as [|b s1 IH]; simpl; [reflexivity|].
  rewrite IH. apply orb_assoc.
Qed.

Lemma Split_cons (s : string) (sep : ascii) :
  exists p ps, Split s sep = p :: ps.
Proof.
  destruct s as [|c s]; simpl.
  - eauto.
  - destruct (Ascii.eqb c sep); [eauto|].
    destruct (Split s sep); eauto.
Qed.

(** No part of a split holds the separator, and a byte absent from the
    string is absent from every part. *)
Lemma Split_absent (c sep : ascii) (s : string) :
  (Ascii.eqb c sep = true \/ hasByte c s = false) ->
  forall p, In p (Split s sep) -> hasByte c p = false.
Proof.
  induction s as [|b s IH]; simpl; intros Hc p Hp.
  - destruct Hp as [<-|[]]. reflexivity.
  - destruct (Ascii.eqb b sep) eqn:Hb.
    + destruct Hp as [<-|Hp]; [reflexivity|].
      apply IH; [|exact Hp].
      destruct Hc as [Hc|Hc]; [left; exact Hc|].
      right. apply orb_false_iff in Hc. tauto.
    + assert (Hbc : Ascii.eqb b c = false).
      { destruct Hc as [Hc|Hc].
        - apply Ascii.eqb_eq in Hc. subst c. exact Hb.
        - apply orb_false_iff in Hc. tauto. }
      assert (Hs : Ascii.eqb c sep = true \/ hasByte c s = false).
      { destruct Hc as [Hc|Hc]; [left; exact Hc|].
        right. apply orb_false_iff in Hc. tauto. }
      destruct (Split s sep) as [|q qs] eqn:Hq.
      * destruct Hp as [<-|[]]. simpl. rewrite Hbc. reflexivity.
      * destruct Hp as [<-|Hp].
        -- simpl. rewrite Hbc. simpl. apply IH; [exact Hs|]. left. reflexivity.
        -- apply IH; [exact Hs|]. right. exact Hp.
Qed.

Lemma append_nil_r (s : string) : s ++ EmptyString = s.
Proof. induction s as [|c s IH]; simpl; [reflexivity|]. now rewrite IH. Qed.

Lemma append_assoc (s1 s2 s3 : string) : (s1 ++ s2) ++ s3 = s1 ++ s2 ++ s3.
Proof. induction s1 as [|c s1 IH]; simpl; [reflexivity|]. now rewrite IH. Qed.

Lemma substring_refl (s : string) : substring s s.
Proof. exists EmptyString, EmptyString. simpl. now rewrite append_nil_r. Qed.

Lemma substring_trans (a b c : string) :
  substring a b -> substring b c -> substring a c.
Proof.
  intros (p1 & q1 & ->) (p2 & q2 & ->).
  exists (p2 ++ p1), (q1 ++ q2). now rewrite !append_assoc.
Qed.

Lemma substring_tail (t s : string) (c : ascii) :
  substring t s -> substring t (String c s).
Proof. intros (p & q & ->). exists (String c p), q. reflexivity. Qed.

Lemma substring_head (t s : string) (c : ascii) :
  substring t s -> substring t (s ++ String c EmptyString).
Proof.
  intros (p & q & ->). exists p, (q ++ String c EmptyString).
  now rewrite !append_assoc.
Qed.

Lemma take_drop (n : nat) (s : string) : take n s ++ drop n s = s.
Proof.
  revert s. induction n as [|n IH]; intros [|c s]; simpl; try reflexivity.
  now rewrite IH.
Qed.

Lemma substring_drop (n : nat) (s : string) : substring (drop n s) s.
Proof.
  exists (take n s), EmptyString. now rewrite append_nil_r, take_drop.
Qed.

Lemma substring_take (n : nat) (s : string) : substring (take n s) s.
Proof. exists EmptyString, (drop n s). simpl. now rewrite take_drop. Qed.

Lemma reverse_app (a b : string) : reverse (a ++ b) = reverse b ++ reverse a.
Proof.
  induction a as [|c a IH]; cbn [append reverse].
  - now rewrite append_nil_r.
  - now rewrite IH, append_assoc.
Qed.

Lemma reverse_involutive (s : string) : reverse (reverse s) = s.
Proof.
  induction s as [|c s IH]; cbn [reverse]; [reflexivity|].
  rewrite reverse_app, IH. reflexivity.
Qed.

Section TrimRunes.
Variable p1 : ascii -> bool.
Variable p2 : ascii -> ascii -> bool.
Variable p3 : ascii -> ascii -> ascii -> bool.

(** Trimming from the left leaves a suffix. *)
Lemma trimRunes_suffix (s : string) :
  exists pre, s = pre ++ trimRunes p1 p2 p3 s.
Proof.
  assert (H : forall n s, (String.length s <= n)%nat ->
                          exists pre, s = pre ++ trimRunes p1 p2 p3 s).
  { clear s. induction n as [|n IH]; intros s Hn.
    - destruct s; [exists EmptyString; reflexivity|cbn in Hn; lia].
    - destruct s as [|c1 [|c2 [|c3 s3]]]; cbn [trimRunes].
      + exists EmptyString. reflexivity.
      + destruct (p1 c1); [exists (String c1 EmptyString)|exists EmptyString];
          reflexivity.
      + destruct (p1 c1).
        { destruct (IH (String c2 EmptyString)) as [pre E]; [cbn in *; lia|].
          exists (String c1 pre). cbn [append]. f_equal. exact E. }
        destruct (p2 c1 c2);
          [exists (String c1 (String c2 EmptyString))|exists EmptyString];
          reflexivity.
      + destruct (p1 c1).
        { destruct (IH (String c2 (String c3 s3))) as [pre E]; [cbn in *; lia|].
          exists (String c1 pre). cbn [append]. f_equal. exact E. }
        destruct (p2 c1 c2).
        { destruct (IH (String c3 s3)) as [pre E]; [cbn in *; lia|].
          exists (String c1 (String c2 pre)). cbn [append]. do 2 f_equal. exact E. }
        destruct (p3 c1 c2 c3).
        { destruct (IH s3) as [pre E]; [cbn in *; lia|].
          exists (String c1 (String c2 (String c3 pre))). cbn [append].
          do 3 f_equal. exact E. }
        exists EmptyString. reflexivity. }
  exact (H (String.length s) s (le_n _)).
Qed.

Lemma trimRunes_head (c : ascii) (b : string) :
  untrimmed p1 p2 p3 c -> trimRunes p1 p2 p3 (String c b) = String c b.
Proof.
  intros (H1 & H2 & H3). cbn [trimRunes]. rewrite H1.
  destruct b as [|c2 [|c3 s3]]; [reflexivity| |].
  - now rewrite (proj1 (H2 c2)).
  - now rewrite (proj1 (H2 c2)), (proj1 (H3 c2 c3)).
Qed.

(** Trimming stops at such a byte at the latest. *)
Lemma trimRunes_app (a : string) (c : ascii) (b : string) :
  untrimmed p1 p2 p3 c ->
  trimRunes p1 p2 p3 (a ++ String c b) = trimRunes p1 p2 p3 a ++ String c b.
Proof.
  intros Hc.
  assert (H : forall n a, (String.length a <= n)%nat ->
                trimRunes p1 p2 p3 (a ++ String c b)
                = trimRunes p1 p2 p3 a ++ String c b).
  { clear a. induction n as [|n IH]; intros a Hn.
    - destruct a; [apply (trimRunes_head c b Hc)|cbn in Hn; lia].
    - pose proof Hc as (H1 & H2 & H3).
      destruct a as [|a1 [|a2 [|a3 a']]].
      + apply (trimRunes_head c b Hc).
      + change (String a1 EmptyString ++ String c b)
          with (String a1 (String c b)).
        cbn [trimRunes]. destruct (p1 a1).
        { exact (trimRunes_head c b Hc). }
        rewrite (proj2 (H2 a1)).
        destruct b as [|c3 s3]; [reflexivity|].
        now rewrite (proj1 (proj2 (H3 a1 c3))).
      + change (String a1 (String a2 EmptyString) ++ String c b)
          with (String a1 (String a2 EmptyString ++ String c b)).
        cbn [trimRunes]. destruct (p1 a1).
        { apply (IH (String a2 EmptyString)). cbn in *. lia. }
        cbn [append]. destruct (p2 a1 a2).
        { exact (trimRunes_head c b Hc). }
        now rewrite (proj2 (proj2 (H3 a1 a2))).
      + change (String a1 (String a2 (String a3 a')) ++ String c b)
          with (String a1 (String a2 (String a3 a') ++ String c b)).
        cbn [trimRunes]. destruct (p1 a1).
        { apply (IH (String a2 (String a3 a'))). cbn in *. lia. }
        change (String a2 (String a3 a') ++ String c b)
          with (String a2 (String a3 a' ++ String c b)).
        cbv iota. destruct (p2 a1 a2).
        { apply (IH (String a3 a')). cbn in *. lia. }
        change (String a3 a' ++ String c b) with (String a3 (a' ++ String c b)).
        cbv iota. destruct (p3 a1 a2 a3).
        { apply (IH a'). cbn in *. lia. }
        reflexivity. }
  exact (H (String.length a) a (le_n _)).
Qed.

End TrimRunes.

Lemma substring_TrimSpace (s : string) : substring (TrimSpace s) s.
Proof.
  unfold TrimSpace.
  apply substring_trans with (TrimLeftSpace s).
  - unfold TrimRightSpace.
    set (t := TrimLeftSpace s).
    destruct (trimRunes_suffix isSpace (fun c1 c2 => isSpace2 c2 c1)
                (fun c1 c2 c3 => isSpace3 c3 c2 c1) (reverse t)) as [pre E].
    exists EmptyString, (reverse pre). cbn [append].
    rewrite <- reverse_app, <- E. symmetry. apply reverse_involutive.
  - destruct (trimRunes_suffix isSpace isSpace2 isSpace3 s) as [pre E].
    exists pre, EmptyString. now rewrite append_nil_r.
Qed.

(** Unicode white space is removed at both ends; a byte sequence that is
    no white-space rune is kept. *)
Lemma TrimSpace_unicode :
  TrimSpace (Samples.nbsp ++ " gpu:1" ++ Samples.ideographicSpace ++ Samples.nbsp)
  = "gpu:1" /\
  TrimSpace (Samples.leadByte ++ " gpu:1 " ++ Samples.leadByte)
  = Samples.leadByte ++ " gpu:1 " ++ Samples.leadByte /\
  @parseGresGpuCount Fragment.runtime ("gpu:2,gpu:1" ++ Samples.nbsp) = 3%float.
Proof. repeat split; reflexivity. Qed.

Lemma substring_absent (c : ascii) (t s : string) :
  substring t s -> hasByte c s = false -> hasByte c t = false.
Proof.
  intros (p & q & ->) H. rewrite !hasByte_app in H.
  apply orb_false_iff in H. destruct H as [_ H].
  apply orb_false_iff in H. tauto.
Qed.

Lemma TrimSpace_absent (c : ascii) (s : string) :
  hasByte c s = false -> hasByte c (TrimSpace s) = false.
Proof. apply substring_absent, substring_TrimSpace. Qed.

(** A byte below 128 that is not white space is part of no white-space
    rune. *)
Lemma isSpace2_high (c1 c2 : ascii) :
  isSpace2 c1 c2 = true ->
  (128 <= nat_of_ascii c1)%nat /\ (128 <= nat_of_ascii c2)%nat.
Proof.
  unfold isSpace2.
  repeat rewrite ?andb_true_iff, ?orb_true_iff, ?Nat.eqb_eq, ?Nat.leb_le. lia.
Qed.

Lemma isSpace3_high (c1 c2 c3 : ascii) :
  isSpace3 c1 c2 c3 = true ->
  (128 <= nat_of_ascii c1)%nat /\ (128 <= nat_of_ascii c2)%nat /\
  (128 <= nat_of_ascii c3)%nat.
Proof.
  unfold isSpace3.
  repeat rewrite ?andb_true_iff, ?orb_true_iff, ?Nat.eqb_eq, ?Nat.leb_le. lia.
Qed.

Lemma not_true_false (b : bool) : (b = true -> False) -> b = false.
Proof. destruct b; [intros H; destruct (H eq_refl)|reflexivity]. Qed.

Lemma untrimmed_left (c : ascii) :
  (nat_of_ascii c < 128)%nat -> isSpace c = false ->
  untrimmed isSpace isSpace2 isSpace3 c.
Proof.
  intros Hc Hs. split; [exact Hs|]. split.
  - intros x. split; apply not_true_false; intros H;
      apply isSpace2_high in H; lia.
  - intros x y. repeat split; apply not_true_false; intros H;
      apply isSpace3_high in H; lia.
Qed.

Lemma untrimmed_right (c : ascii) :
  (nat_of_ascii c < 128)%nat -> isSpace c = false ->
  untrimmed isSpace (fun c1 c2 => isSpace2 c2 c1)
            (fun c1 c2 c3 => isSpace3 c3 c2 c1) c.
Proof.
  intros Hc Hs. split; [exact Hs|]. split.
  - intros x. split; apply not_true_false; intros H;
      apply isSpace2_high in H; lia.
  - intros x y. repeat split; apply not_true_false; intros H;
      apply isSpace3_high in H; lia.
Qed.

Lemma TrimLeftSpace_app (a : string) (c : ascii) (b : string) :
  (nat_of_ascii c < 128)%nat -> isSpace c = false ->
  TrimLeftSpace (a ++ String c b) = TrimLeftSpace a ++ String c b.
Proof.
  intros Hc Hs. apply trimRunes_app, untrimmed_left; assumption.
Qed.

Lemma TrimRightSpace_app (a : string) (c : ascii) (b : string) :
  (nat_of_ascii c < 128)%nat -> isSpace c = false ->
  TrimRightSpace (a ++ String c b) = a ++ String c (TrimRightSpace b).
Proof.
  intros Hc Hs. unfold TrimRightSpace.
  rewrite reverse_app. cbn [reverse]. rewrite append_assoc. cbn [append].
  rewrite trimRunes_app by (apply untrimmed_right; assumption).
  rewrite reverse_app. cbn [reverse].
  rewrite reverse_involutive, append_assoc. reflexivity.
Qed.

Lemma substring_Split (sep : ascii) (s p : string) :
  In p (Split s sep) -> substring p s.
Proof.
  revert p. induction s as [|c s IH]; simpl; intros p Hp.
  - destruct Hp as [<-|[]]. apply substring_refl.
  - destruct (Ascii.eqb c sep).
    + destruct Hp as [<-|Hp].
      * exists EmptyString, (String c s). reflexivity.
      * apply substring_tail, IH, Hp.
    + destruct (Split s sep) as [|q qs] eqn:E.
      * destruct Hp as [<-|[]].
        exists EmptyString, s. reflexivity.
      * destruct Hp as [<-|Hp].
        -- (* the first part of [s], extended by [c] on the left; by
              construction it is a prefix of [s] *)
           assert (Hq : exists suf, s = q ++ suf).
           { clear IH. revert q qs E.
             induction s as [|d s IHs]; simpl; intros q qs E.
             - inversion E. exists EmptyString. reflexivity.
             - destruct (Ascii.eqb d sep).
               + inversion E. exists (String d s). reflexivity.
               + destruct (Split s sep) as [|q' qs'] eqn:E'.
                 * inversion E. exists s. reflexivity.
                 * inversion E; subst.
                   destruct (IHs q' qs eq_refl) as [suf Hs].
                   exists suf. simpl. now rewrite Hs at 1. }
           destruct Hq as [suf Hs].
           exists EmptyString, suf. simpl. now rewrite Hs at 1.
        -- apply substring_tail, IH. right. exact Hp.
Qed.

Lemma last_In {A} (l : list A) (d : A) : l <> [] -> In (List.last l d) l.
Proof.
  induction l as [|a l IH]; intros H; [congruence|].
  destruct l as [|b l]; [left; reflexivity|].
  right. apply IH. discriminate.
Qed.

Lemma prefixes_In (t suf : string) : In t (prefixes (t ++ suf)).
Proof.
  induction t as [|c t IH]; simpl.
  - destruct suf; left; reflexivity.
  - right. apply in_map, IH.
Qed.

(** [substrings] lists every contiguous piece. *)
Lemma substrings_complete (t s : string) :
  substring t s -> In t (substrings s).
Proof.
  intros (pre & suf & ->).
  induction pre as [|c pre IH]; cbn [append substrings].
  - assert (H : forall u, In t (prefixes u) -> In t (substrings u)).
    { intros [|d u] H; cbn [substrings]; apply in_or_app; left; exact H. }
    apply H, prefixes_In.
  - apply in_or_app. right. exact IH.
Qed.

End StringFacts.

(** ** float64 arithmetic *)

Section FloatFacts.

Lemma le_zero_spec (x : float) :
  F64.le F64.zero x = F64.sf_nonneg (Prim2SF x).
Proof.
  unfold F64.le, F64.zero. rewrite FloatAxioms.leb_spec.
  change (Prim2SF 0%float) with (S754_zero false).
  destruct (Prim2SF x) as [s|s| |s m e]; try destruct s; reflexivity.
Qed.

Lemma shr_1_nonneg (mrs : shr_record) :
  0 <= shr_m mrs -> 0 <= shr_m (shr_1 mrs).
Proof.
  destruct mrs as [m r s]. simpl.
  destruct m as [|p|p]; simpl; try lia; destruct p; simpl; lia.
Qed.

Lemma iter_shr_1_nonneg (p : positive) (mrs : shr_record) :
  0 <= shr_m mrs -> 0 <= shr_m (iter_pos shr_1 p mrs).
Proof.
  revert mrs. induction p as [p IH|p IH|]; intros mrs H; simpl.
  - apply IH, IH, shr_1_nonneg, H.
  - apply IH, IH, H.
  - apply shr_1_nonneg, H.
Qed.

Lemma shr_fexp_nonneg (m e : Z) (l : location) :
  0 <= m -> 0 <= shr_m (fst (shr_fexp prec emax m e l)).
Proof.
  intros H. unfold shr_fexp, shr.
  assert (H0 : 0 <= shr_m (shr_record_of_loc m l)).
  { destruct l as [|[]]; simpl; exact H. }
  destruct (fexp prec emax (Zdigits2 m + e) - e); simpl;
    [exact H0|apply iter_shr_1_nonneg, H0|exact H0].
Qed.

Lemma round_nearest_even_nonneg (m : Z) (l : location) :
  0 <= m -> 0 <= round_nearest_even m l.
Proof.
  intros H. destruct l as [|[]]; simpl; try lia.
  destruct (Z.even m); lia.
Qed.

(** Rounding keeps the sign it is given. *)
Lemma binary_round_aux_nonneg (mx ex : Z) (lx : location) :
  0 <= mx ->
  F64.sf_nonneg (binary_round_aux prec emax false mx ex lx) = true.
Proof.
  intros H. unfold binary_round_aux.
  pose proof (shr_fexp_nonneg mx ex lx H) as H1.
  destruct (shr_fexp prec emax mx ex lx) as [mrs' e'].
  simpl in H1.
  pose proof (shr_fexp_nonneg
                (round_nearest_even (shr_m mrs') (loc_of_shr_record mrs'))
                e' loc_Exact
                (round_nearest_even_nonneg _ _ H1)) as H2.
  destruct (shr_fexp prec emax _ e' loc_Exact) as [mrs'' e''].
  simpl in H2.
  destruct (shr_m mrs'') as [|p|p]; [reflexivity| |lia].
  destruct (e'' <=? emax - prec); reflexivity.
Qed.

Lemma binary_normalize_nonneg (m e : Z) :
  0 <= m -> F64.sf_nonneg (binary_normalize prec emax m e false) = true.
Proof.
  intros H. destruct m as [|p|p]; [reflexivity| |lia].
  unfold binary_normalize, binary_round.
  destruct (shl_align p e _) as [mz ez].
  apply binary_round_aux_nonneg. lia.
Qed.

Lemma SFadd_nonneg (x y : spec_float) :
  F64.sf_nonneg x = true -> F64.sf_nonneg y = true ->
  F64.sf_nonneg (SF64add x y) = true.
Proof.
  destruct x as [sx|sx| |sx mx ex], y as [sy|sy| |sy my ey];
    try destruct sx; try destruct sy; intros Hx Hy; simpl in Hx, Hy;
    try discriminate; try reflexivity.
  unfold SF64add, SFadd. apply binary_normalize_nonneg.
  unfold cond_Zopp. lia.
Qed.

(** Adding two float64 values that are [>= 0] gives a value [>= 0]. *)
Lemma add_nonneg (x y : float) :
  F64.le F64.zero x = true -> F64.le F64.zero y = true ->
  F64.le F64.zero (PrimFloat.add x y) = true.
Proof.
  rewrite !le_zero_spec, FloatAxioms.add_spec. apply SFadd_nonneg.
Qed.

Lemma sum_nonneg_from (vs : list float) (acc : float) :
  F64.le F64.zero acc = true ->
  Forall (fun v => F64.le F64.zero v = true) vs ->
  F64.le F64.zero (fold_left PrimFloat.add vs acc) = true.
Proof.
  revert acc. induction vs as [|v vs IH]; intros acc Ha Hv; simpl.
  - exact Ha.
  - inversion Hv; subst. apply IH; [apply add_nonneg; assumption|assumption].
Qed.

Lemma sum_nonneg (vs : list float) :
  Forall (fun v => F64.le F64.zero v = true) vs ->
  F64.le F64.zero (F64.sum vs) = true.
Proof. apply sum_nonneg_from. reflexivity. Qed.

(** float64 addition is commutative. *)
Lemma SFadd_comm (x y : spec_float) : SF64add x y = SF64add y x.
Proof.
  destruct x as [sx|sx| |sx mx ex], y as [sy|sy| |sy my ey];
    try destruct sx; try destruct sy; try reflexivity;
    unfold SF64add, SFadd; rewrite (Z.min_comm ex ey), Z.add_comm;
    reflexivity.
Qed.

Lemma add_comm (x y : float) : PrimFloat.add x y = PrimFloat.add y x.
Proof. apply Prim2SF_inj. rewrite !FloatAxioms.add_spec. apply SFadd_comm. Qed.

(** [0 + x] is [x], except that [0 + (-0)] is [+0]. *)
Lemma SFadd_zero_l (x : spec_float) :
  SF64add (S754_zero false) x =
  match x with S754_zero true => S754_zero false | _ => x end.
Proof. destruct x as [s|s| |s m e]; try destruct s; reflexivity. Qed.

Lemma SFadd_zero_l_not_negzero (x : spec_float) :
  F64.sf_not_negzero (SF64add (S754_zero false) x) = true.
Proof. destruct x as [s|s| |s m e]; try destruct s; reflexivity. Qed.

(** [x + (-0)] is [x]; [x + (+0)] is [x] unless [x] is [-0]. *)
Lemma SFadd_zero_r (x : spec_float) (s : bool) :
  F64.sf_not_negzero x = true -> SF64add x (S754_zero s) = x.
Proof.
  destruct x as [sx|sx| |sx mx ex]; try destruct sx; destruct s;
    simpl; intros H; try discriminate; reflexivity.
Qed.

(** The accumulation of two values does not depend on their order. *)
Lemma sum_two_comm (x y : float) : F64.sum [x; y] = F64.sum [y; x].
Proof.
  unfold F64.sum, F64.zero. simpl. apply Prim2SF_inj.
  rewrite !FloatAxioms.add_spec.
  change (Prim2SF 0%float) with (S754_zero false).
  pose proof (SFadd_zero_l_not_negzero (Prim2SF x)) as Nx.
  pose proof (SFadd_zero_l_not_negzero (Prim2SF y)) as Ny.
  rewrite !SFadd_zero_l in *.
  destruct (Prim2SF x) as [sx|sx| |sx mx ex] eqn:Ex.
  - (* x is a zero *)
    replace (match S754_zero sx with S754_zero true => S754_zero false
                                | _ => S754_zero sx end)
      with (S754_zero false) by (destruct sx; reflexivity).
    rewrite SFadd_zero_l.
    rewrite (SFadd_zero_r _ sx) by exact Ny.
    destruct (Prim2SF y) as [sy|sy| |sy my ey]; try destruct sy; reflexivity.
  - destruct (Prim2SF y) as [sy|sy| |sy my ey] eqn:Ey.
    + replace (match S754_zero sy with S754_zero true => S754_zero false
                                  | _ => S754_zero sy end)
        with (S754_zero false) by (destruct sy; reflexivity).
      rewrite SFadd_zero_l. rewrite (SFadd_zero_r _ sy) by reflexivity.
      reflexivity.
    + apply SFadd_comm.
    + apply SFadd_comm.
    + apply SFadd_comm.
  - destruct (Prim2SF y) as [sy|sy| |sy my ey]; try destruct sy; reflexivity.
  - destruct (Prim2SF y) as [sy|sy| |sy my ey] eqn:Ey.
    + replace (match S754_zero sy with S754_zero true => S754_zero false
                                  | _ => S754_zero sy end)
        with (S754_zero false) by (destruct sy; reflexivity).
      rewrite SFadd_zero_l. rewrite (SFadd_zero_r _ sy) by reflexivity.
      reflexivity.
    + apply SFadd_comm.
    + apply SFadd_comm.
    + apply SFadd_comm.
Qed.

(** *** Addition is exact on small integers

    A non-negative integer below [2^53] is a binary64 value, and the
    binary64 sum of two of them is their integer sum as long as it stays
    below [2^53]. *)

Lemma digits_shl (k : nat) (m : positive) :
  Zpos (digits2_pos (F64.shl k m)) = Zpos (digits2_pos m) + Z.of_nat k.
Proof.
induction k as [|k IH]; [cbn; lia|].
change (F64.shl (S k) m) with (xO (F64.shl k m)). cbn [digits2_pos].
rewrite Pos2Z.inj_succ, IH. lia.
Qed.

Lemma shl_add (j k : nat) (m : positive) : F64.shl (j + k) m = F64.shl j (F64.shl k m).
Proof. unfold F64.shl. apply Nat.iter_add. Qed.

Lemma Pos_iter_shl (p m : positive) : Pos.iter xO m p = F64.shl (Pos.to_nat p) m.
Proof. unfold F64.shl. rewrite Pos2Nat.inj_iter. reflexivity. Qed.

Lemma iter_pos_nat {A} (f : A -> A) (p : positive) (x : A) :
  SpecFloat.iter_pos f p x = Nat.iter (Pos.to_nat p) f x.
Proof.
revert x. induction p as [p IH|p IH|]; intros x; cbn [SpecFloat.iter_pos].
- rewrite !IH, Pos2Nat.inj_xI, <- Nat.iter_add, <- Nat.iter_succ_r.
  f_equal. lia.
- rewrite !IH, Pos2Nat.inj_xO, <- Nat.iter_add. f_equal. lia.
- reflexivity.
Qed.

Lemma shr_shl (j : nat) (m : positive) :
  Nat.iter j shr_1 (Build_shr_record (Zpos (F64.shl j m)) false false)
  = Build_shr_record (Zpos m) false false.
Proof.
induction j as [|j IH]; [reflexivity|].
rewrite Nat.iter_succ_r. change (F64.shl (S j) m) with (xO (F64.shl j m)).
cbn [shr_1 orb]. exact IH.
Qed.

Lemma shl_plus (k : nat) (a b : positive) :
  (F64.shl k a + F64.shl k b = F64.shl k (a + b))%positive.
Proof.
induction k as [|k IH]; [reflexivity|].
change (F64.shl (S k) ?m) with (xO (F64.shl k m)).
cbn. rewrite IH. reflexivity.
Qed.

Lemma digits_bound (v : positive) :
  Zpos v < 2 ^ 53 -> Zpos (digits2_pos v) <= 53.
Proof.
intros H.
assert (G : forall p, 2 ^ (Zpos (digits2_pos p)) <= 2 * Zpos p).
{ induction p as [p IH|p IH|]; cbn [digits2_pos].
  - rewrite Pos2Z.inj_succ, Z.pow_succ_r by lia. lia.
  - rewrite Pos2Z.inj_succ, Z.pow_succ_r by lia. lia.
  - cbn. lia. }
specialize (G v).
destruct (Z_le_gt_dec (Zpos (digits2_pos v)) 53) as [L|L]; [exact L|].
assert (2 ^ 54 <= 2 ^ Zpos (digits2_pos v)) by (apply Z.pow_le_mono_r; lia).
lia.
Qed.

Lemma fexp_small (e : Z) : -1021 <= e -> fexp prec emax e = e - 53.
Proof. intros H. unfold fexp, emin, prec, emax. lia. Qed.

Lemma shl_align_shl (m : positive) (e e' : Z) :
  e' <= e -> shl_align m e e' = (F64.shl (Z.to_nat (e - e')) m, e').
Proof.
intros H. unfold shl_align.
destruct (e' - e) as [|p|p] eqn:E; try lia.
- replace (e - e') with 0 by lia. cbn. f_equal. lia.
- rewrite Pos_iter_shl. f_equal. f_equal. lia.
Qed.

(** A mantissa of exactly 53 bits is left as it is by the alignment to
    the format. *)
Lemma shr_fexp_53 (cm : positive) (e : Z) :
  Zpos (digits2_pos cm) = 53 -> -1074 <= e ->
  shr_fexp prec emax (Zpos cm) e loc_Exact
  = (Build_shr_record (Zpos cm) false false, e).
Proof.
intros Hd He. unfold shr_fexp. cbn [Zdigits2 shr_record_of_loc].
rewrite Hd.
replace (fexp prec emax (53 + e) - e) with 0
  by (unfold fexp, emin, prec, emax; lia).
reflexivity.
Qed.

Lemma round_aux_53 (mx : Z) (ex : Z) (cm : positive) (e : Z) :
  Zpos (digits2_pos cm) = 53 -> -1074 <= e <= 971 ->
  shr_fexp prec emax mx ex loc_Exact
  = (Build_shr_record (Zpos cm) false false, e) ->
  binary_round_aux prec emax false mx ex loc_Exact = S754_finite false cm e.
Proof.
intros Hd He H. unfold binary_round_aux. rewrite H.
cbn [shr_m loc_of_shr_record round_nearest_even].
rewrite (shr_fexp_53 cm e Hd) by lia. cbn [shr_m].
replace (e <=? emax - prec) with true
  by (symmetry; apply Z.leb_le; unfold emax, prec; lia).
reflexivity.
Qed.

(** Rounding a value of at most 53 bits held with [k] extra low zero
    bits gives the canonical float of the value: nothing is lost. *)
Lemma binary_round_shl (v : positive) (k : nat) :
  Zpos (digits2_pos v) <= 53 ->
  binary_round prec emax false (F64.shl k v) (- Z.of_nat k) = F64.canon v.
Proof.
intros Hd. unfold binary_round, F64.canon.
set (d := Zpos (digits2_pos v)) in *.
assert (Hd1 : 1 <= d) by (unfold d; lia).
rewrite digits_shl. fold d.
replace (d + Z.of_nat k + - Z.of_nat k) with d by lia.
rewrite fexp_small by lia.
assert (Hn : Pos.to_nat (digits2_pos v) = Z.to_nat d) by (unfold d; lia).
rewrite Hn.
destruct (Z_le_gt_dec (d - 53) (- Z.of_nat k)) as [L|L].
- (* fewer than 53 bits in all: shift left *)
  rewrite shl_align_shl by exact L.
  rewrite <- shl_add.
  replace (Z.to_nat (- Z.of_nat k - (d - 53)) + k)%nat with (53 - Z.to_nat d)%nat by lia.
  apply round_aux_53.
  + rewrite digits_shl. fold d. lia.
  + lia.
  + apply shr_fexp_53; [rewrite digits_shl; fold d; lia|lia].
- (* more than 53 bits: the low bits are zeros and are shifted out *)
  unfold shl_align.
  destruct (d - 53 - - Z.of_nat k) as [|p|p] eqn:E; try lia.
  set (j := Pos.to_nat p).
  assert (Hj : (k = j + (53 - Z.to_nat d))%nat) by (unfold j; lia).
  apply round_aux_53.
  + rewrite digits_shl. fold d. lia.
  + lia.
  + unfold shr_fexp. cbn [Zdigits2 shr_record_of_loc].
    rewrite digits_shl. fold d.
    replace (d + Z.of_nat k + - Z.of_nat k) with d by lia.
    rewrite fexp_small by lia. rewrite E.
    unfold shr. rewrite iter_pos_nat. fold j.
    rewrite Hj at 1. rewrite shl_add, shr_shl. f_equal. lia.
Qed.

Lemma normalize_canon (n : Z) :
  0 <= n < 2 ^ 53 ->
  binary_normalize prec emax n 0 false = F64.sf_of_Z n.
Proof.
intros H. destruct n as [|v|v]; [reflexivity| |lia].
cbn [binary_normalize F64.sf_of_Z].
apply (binary_round_shl v 0). apply digits_bound. lia.
Qed.

Lemma SFadd_canon (a b : positive) :
  Zpos a + Zpos b < 2 ^ 53 ->
  SF64add (F64.canon a) (F64.canon b) = F64.canon (a + b).
Proof.
intros H.
assert (Ha : Zpos (digits2_pos a) <= 53) by (apply digits_bound; lia).
assert (Hb : Zpos (digits2_pos b) <= 53) by (apply digits_bound; lia).
unfold SF64add, SFadd, F64.canon.
set (da := Zpos (digits2_pos a)) in *. set (db := Zpos (digits2_pos b)) in *.
assert (Ha1 : 1 <= da) by (unfold da; lia).
assert (Hb1 : 1 <= db) by (unfold db; lia).
set (ez := Z.min (da - 53) (db - 53)).
rewrite !shl_align_shl by (unfold ez; lia).
cbn [fst cond_Zopp]. rewrite <- !shl_add.
assert (Na : Pos.to_nat (digits2_pos a) = Z.to_nat da) by (unfold da; lia).
assert (Nb : Pos.to_nat (digits2_pos b) = Z.to_nat db) by (unfold db; lia).
rewrite Na, Nb.
replace (Z.to_nat (da - 53 - ez) + (53 - Z.to_nat da))%nat with (Z.to_nat (- ez))
  by (unfold ez; lia).
replace (Z.to_nat (db - 53 - ez) + (53 - Z.to_nat db))%nat with (Z.to_nat (- ez))
  by (unfold ez; lia).
rewrite <- Pos2Z.inj_add, shl_plus. cbn [binary_normalize].
replace ez with (- Z.of_nat (Z.to_nat (- ez))) at 2 by (unfold ez; lia).
rewrite binary_round_shl.
- fold (F64.canon (a + b)). unfold F64.canon. reflexivity.
- apply digits_bound. lia.
Qed.

Lemma SFadd_value (a b : Z) :
  0 <= a -> 0 <= b -> a + b < 2 ^ 53 ->
  SF64add (F64.sf_of_Z a) (F64.sf_of_Z b) = F64.sf_of_Z (a + b).
Proof.
intros Ha Hb H.
destruct a as [|a|a], b as [|b|b]; try lia; try reflexivity.
cbn [F64.sf_of_Z Z.add]. apply SFadd_canon. lia.
Qed.

Lemma Prim2SF_of_Z (n : Z) :
  0 <= n < 2 ^ 53 -> Prim2SF (F64.of_Z n) = F64.sf_of_Z n.
Proof.
intros H. unfold F64.of_Z.
replace (n <? 0) with false by (symmetry; apply Z.ltb_ge; lia).
rewrite of_uint63_spec, Uint63.of_Z_spec.
rewrite Z.mod_small.
- apply normalize_canon, H.
- change wB with (2 ^ 63). assert (2 ^ 53 < 2 ^ 63) by (apply Z.pow_lt_mono_r; lia). lia.
Qed.

(** float64 addition of small non-negative integers is exact. *)
Lemma add_of_Z (a b : Z) :
  0 <= a -> 0 <= b -> a + b < 2 ^ 53 ->
  PrimFloat.add (F64.of_Z a) (F64.of_Z b) = F64.of_Z (a + b).
Proof.
intros Ha Hb H. apply Prim2SF_inj.
rewrite FloatAxioms.add_spec, !Prim2SF_of_Z by lia.
apply SFadd_value; assumption.
Qed.

Lemma Zsum_nonneg (ns : list Z) :
  Forall (fun n => 0 <= n) ns -> 0 <= F64.Zsum ns.
Proof.
induction 1 as [|n ns Hn _ IH]; cbn [F64.Zsum fold_right]; [lia|].
fold (F64.Zsum ns). lia.
Qed.

Lemma Zsum_Permutation (ns ns' : list Z) :
  Permutation ns ns' -> F64.Zsum ns = F64.Zsum ns'.
Proof.
induction 1 as [|n ns ns' _ IH|n m ns|ns ns' ns'' _ IH1 _ IH2];
  unfold F64.Zsum in *; cbn [fold_right]; lia.
Qed.

Lemma fold_add_of_Z (ns : list Z) (a : Z) :
  0 <= a -> Forall (fun n => 0 <= n) ns -> a + F64.Zsum ns < 2 ^ 53 ->
  fold_left PrimFloat.add (map F64.of_Z ns) (F64.of_Z a)
  = F64.of_Z (a + F64.Zsum ns).
Proof.
intros Ha Hns. revert a Ha.
induction Hns as [|n ns Hn Hns IH]; intros a Ha Hb.
- cbn. f_equal. lia.
- cbn [map fold_left]. cbn [F64.Zsum fold_right] in Hb |- *.
  fold (F64.Zsum ns) in Hb |- *.
  pose proof (Zsum_nonneg ns Hns) as Hs.
  rewrite add_of_Z by lia.
  rewrite IH by lia. f_equal. lia.
Qed.

(** The accumulation of small non-negative integers is their sum. *)
Lemma sum_of_Z (ns : list Z) :
  Forall (fun n => 0 <= n) ns -> F64.Zsum ns < 2 ^ 53 ->
  F64.sum (map F64.of_Z ns) = F64.of_Z (F64.Zsum ns).
Proof.
intros Hns Hb. unfold F64.sum.
change F64.zero with (F64.of_Z 0).
rewrite fold_add_of_Z by (assumption || lia). reflexivity.
Qed.

End FloatFacts.

(** ** The parser terminates: two activations are enough *)

Section ParserFacts.
Context {go : GoRuntime}.

Lemma parseGres_token (n : nat) (gres : string) :
  hasByte "=" gres = false -> hasByte "," gres = false ->
  parseGres (S n) gres = Some (parseToken gres).
Proof.
  intros He Hc. unfold parseToken. simpl.
  destruct (isSentinel gres); [reflexivity|].
  rewrite !Contains_byte, He, Hc. reflexivity.
Qed.

Lemma fold_parts (n : nat) (parts : list string) (acc : float) :
  (forall p, In p parts -> hasByte "=" p = false /\ hasByte "," p = false) ->
  fold_left
    (fun total part =>
       match total, parseGres (S n) (TrimSpace part) with
       | Some t, Some c => Some (PrimFloat.add t c)
       | _, _ => None
       end) parts (Some acc)
  = Some (fold_left
            (fun total part => PrimFloat.add total (parseToken (TrimSpace part)))
            parts acc).
Proof.
  revert acc. induction parts as [|p parts IH]; intros acc H; cbn [fold_left].
  - reflexivity.
  - destruct (H p (or_introl eq_refl)) as [He Hc].
    rewrite parseGres_token by (apply TrimSpace_absent; assumption).
    apply IH. intros q Hq. apply H. right. exact Hq.
Qed.

(** The parts of a legacy list hold neither ['='] nor [',']. *)
Lemma legacy_parts (gres : string) :
  hasByte "=" gres = false ->
  forall p, In p (Split gres ",") ->
            hasByte "=" p = false /\ hasByte "," p = false.
Proof.
  intros He p Hp. split.
  - apply (Split_absent "=" "," gres); [right; exact He|exact Hp].
  - apply (Split_absent "," "," gres); [left; reflexivity|exact Hp].
Qed.

Lemma parseGres_two (k : nat) (gres : string) :
  parseGres (S (S k)) gres =
  Some (if isSentinel gres then F64.zero
        else if Contains gres "=" then tresLoop (Split gres ",")
        else if Contains gres "," then
          fold_left (fun total part =>
                       PrimFloat.add total (parseToken (TrimSpace part)))
                    (Split gres ",") F64.zero
        else singleGres gres).
Proof.
  cbn [parseGres].
  destruct (isSentinel gres); [reflexivity|].
  destruct (Contains gres "=") eqn:He; [reflexivity|].
  destruct (Contains gres ","); [|reflexivity].
  apply fold_parts. apply legacy_parts.
  rewrite <- Contains_byte. exact He.
Qed.

(** [parseGres] with two or more activations allowed returns, and the
    value does not depend on the allowance. *)
Lemma parseGres_fuel (n : nat) (gres : string) :
  parseGres (S (S n)) gres = Some (parseGresGpuCount gres).
Proof.
  unfold parseGresGpuCount. rewrite (parseGres_two O), (parseGres_two n).
  reflexivity.
Qed.

Lemma parseGresGpuCount_token (gres : string) :
  hasByte "=" gres = false -> hasByte "," gres = false ->
  parseGresGpuCount gres = parseToken gres.
Proof.
  intros He Hc. unfold parseGresGpuCount.
  rewrite parseGres_token by assumption. reflexivity.
Qed.

Lemma fold_tokens (parts : list string) (acc : float) :
  (forall p, In p parts -> hasByte "=" p = false /\ hasByte "," p = false) ->
  fold_left (fun total part =>
               PrimFloat.add total (parseToken (TrimSpace part))) parts acc
  = fold_left (fun total part =>
                 PrimFloat.add total (parseGresGpuCount (TrimSpace part)))
              parts acc.
Proof.
  revert acc. induction parts as [|p parts IH]; intros acc H; cbn [fold_left].
  - reflexivity.
  - destruct (H p (or_introl eq_refl)) as [H1 H2].
    rewrite parseGresGpuCount_token by (apply TrimSpace_absent; assumption).
    apply IH. intros q Hq. apply H. right. exact Hq.
Qed.

(** The equation of the source: the four cases of [parseGresGpuCount],
    with the recursive call on the parts of a legacy list. *)
Lemma parseGresGpuCount_eq (gres : string) :
  parseGresGpuCount gres =
  if isSentinel gres then F64.zero
  else if Contains gres "=" then tresLoop (Split gres ",")
  else if Contains gres "," then
    fold_left (fun total part =>
                 PrimFloat.add total (parseGresGpuCount (TrimSpace part)))
              (Split gres ",") F64.zero
  else singleGres gres.
Proof.
  unfold parseGresGpuCount at 1. rewrite (parseGres_two O).
  destruct (isSentinel gres); [reflexivity|].
  destruct (Contains gres "=") eqn:He; [reflexivity|].
  destruct (Contains gres ","); [|reflexivity].
  apply fold_tokens. apply legacy_parts.
  rewrite <- Contains_byte. exact He.
Qed.

(** *** What the result is made of

    The result is built from [0], from values [ParseFloat] returns on
    pieces of the input, and from float64 additions. *)

Section Closure.
Variable P : float -> Prop.
Variable s : string.
Hypothesis P_zero : P F64.zero.
Hypothesis P_add : forall x y, P x -> P y -> P (PrimFloat.add x y).
Hypothesis P_parse :
  forall t v, substring t s -> ParseFloat t = Some v -> P v.

Lemma tresLoop_closed (parts : list string) :
  (forall p, In p parts -> substring p s) -> P (tresLoop parts).
Proof.
  induction parts as [|p parts IH]; intros H; cbn [tresLoop].
  - exact P_zero.
  - assert (IH' : P (tresLoop parts)).
    { apply IH. intros q Hq. apply H. right. exact Hq. }
    destruct (HasPrefix (TrimSpace p) "gres/gpu"); [|exact IH'].
    destruct (negb (Index (TrimSpace p) "=" =? -1)
              && (Index (TrimSpace p) "=" <? len (TrimSpace p) - 1));
      [|exact IH'].
    destruct (ParseFloat (slice_from (TrimSpace p) (Index (TrimSpace p) "=" + 1)))
      as [count|] eqn:E; [|exact IH'].
    apply (P_parse _ _ (substring_trans _ _ _ (substring_drop _ _)
             (substring_trans _ _ _ (substring_TrimSpace p)
                (H p (or_introl eq_refl)))) E).
Qed.

Lemma singleGres_closed (gres : string) :
  substring gres s -> P (singleGres gres).
Proof.
  intros H. unfold singleGres.
  set (g := stripIndex gres).
  assert (Hg : substring g s).
  { unfold g, stripIndex. destruct (negb (Index gres "(" =? -1)); [|exact H].
    eapply substring_trans; [apply substring_take|exact H]. }
  destruct (negb (Contains (ToLower g) "gpu")); [exact P_zero|].
  destruct (Z.of_nat (List.length (Split g ":")) <? 2); [exact P_zero|].
  destruct (ParseFloat (List.last (Split g ":") EmptyString)) as [count|] eqn:E;
    [|exact P_zero].
  refine (P_parse _ _ _ E).
  eapply substring_trans; [|exact Hg].
  apply (substring_Split ":"). apply last_In.
  destruct (Split_cons g ":") as (q & qs & ->). discriminate.
Qed.

Lemma parseToken_closed (gres : string) :
  substring gres s -> P (parseToken gres).
Proof.
  intros H. unfold parseToken.
  destruct (isSentinel gres); [exact P_zero|apply singleGres_closed, H].
Qed.

Lemma parseGresGpuCount_closed : P (parseGresGpuCount s).
Proof.
  unfold parseGresGpuCount. rewrite (parseGres_two O).
  destruct (isSentinel s); [exact P_zero|].
  destruct (Contains s "=").
  { apply tresLoop_closed. intros p Hp. apply (substring_Split _ _ _ Hp). }
  destruct (Contains s ","); [|apply singleGres_closed, substring_refl].
  assert (G : forall parts acc,
             (forall p, In p parts -> substring p s) -> P acc ->
             P (fold_left (fun total part =>
                  PrimFloat.add total (parseToken (TrimSpace part))) parts acc)).
  { induction parts as [|p parts IH]; intros acc H Ha; cbn [fold_left].
    - exact Ha.
    - apply IH; [intros q Hq; apply H; right; exact Hq|].
      apply P_add; [exact Ha|]. apply parseToken_closed.
      eapply substring_trans; [apply substring_TrimSpace|].
      apply H. left. reflexivity. }
  apply G; [|exact P_zero].
  intros p Hp. apply (substring_Split _ _ _ Hp).
Qed.

End Closure.

(** A property of every piece of [s] can be checked on the list of its
    pieces. *)
Lemma substrings_check (f : string -> bool) (s : string) :
  forallb f (substrings s) = true ->
  forall t, substring t s -> f t = true.
Proof.
  intros H t Ht. rewrite forallb_forall in H.
  apply H, substrings_complete, Ht.
Qed.

End ParserFacts.

(** ** C6: the parser is total and never fails; the sign of its result *)

(** The quantity parsed from the sign-carrying count ["gpu:-1"] is negative:
    the parser returns whatever number the count field spells. *)
Lemma parseGresGpuCount_negative_count :
  F64.le F64.zero (@parseGresGpuCount Fragment.runtime "gpu:-1") = false.
Proof. vm_compute. reflexivity. Qed.

(** C6 (amended).  For every Go runtime and every input [s]:
    - [parseGresGpuCount s] returns: its recursion needs at most two nested
      activations, and more allowance does not change the value;
    - its type has no error component, and when no piece of [s] is accepted
      by [ParseFloat] the result is [0] (malformed tokens count as zero);
    - the sentinels (the empty string, [N/A] and [(null)]) yield [0];
    - the result is [>= 0] provided every piece of [s] that [ParseFloat]
      accepts is [>= 0].  Without that proviso it need not be, see
      [parseGresGpuCount_negative_count]. *)
Theorem parseGresGpuCount_total_sentinels_sign (go : GoRuntime) (s : string) :
  (forall n, parseGres (S (S n)) s = Some (parseGresGpuCount s)) /\
  ((forall t, substring t s -> ParseFloat t = None) ->
   parseGresGpuCount s = F64.zero) /\
  (parseGresGpuCount EmptyString = F64.zero /\
   parseGresGpuCount "N/A" = F64.zero /\
   parseGresGpuCount "(null)" = F64.zero) /\
  ((forall t v, substring t s -> ParseFloat t = Some v ->
                F64.le F64.zero v = true) ->
   F64.le F64.zero (parseGresGpuCount s) = true).
Proof.
  split; [|split; [|split]].
  - intros n. apply parseGres_fuel.
  - intros H.
    apply (parseGresGpuCount_closed (fun x => x = F64.zero) s).
    + reflexivity.
    + intros x y -> ->. reflexivity.
    + intros t v Ht E. rewrite (H t Ht) in E. discriminate.
  - repeat split; reflexivity.
  - intros H.
    apply (parseGresGpuCount_closed (fun x => F64.le F64.zero x = true) s).
    + reflexivity.
    + apply add_nonneg.
    + exact H.
Qed.

Lemma parseGresGpuCount_total_sentinels_sign_witness :
  F64.le F64.zero (@parseGresGpuCount Fragment.runtime "gpu:2,gpu:tesla:1") = true.
Proof.
  apply (proj2 (proj2 (proj2
    (parseGresGpuCount_total_sentinels_sign Fragment.runtime "gpu:2,gpu:tesla:1")))).
  intros t v Ht E.
  pose proof (substrings_check
    (fun t => match Fragment.ParseFloat t with
              | Some v => F64.le F64.zero v
              | None => true
              end) "gpu:2,gpu:tesla:1" eq_refl t Ht) as H.
  simpl in H. change (@ParseFloat Fragment.runtime t) with (Fragment.ParseFloat t) in E.
  rewrite E in H. exact H.
Defined.

(** ** C5: the TRES form *)

Section TresFacts.
Context {go : GoRuntime}.

Lemma find_byte_nil (c : ascii) : find EmptyString (String c EmptyString) = None.
Proof. reflexivity. Qed.

Lemma find_lt (c : ascii) (s : string) (i : nat) :
  find s (String c EmptyString) = Some i -> (i < String.length s)%nat.
Proof.
  revert i. induction s as [|b s IH]; intros i; cbn [find HasPrefix].
  - discriminate.
  - rewrite HasPrefix_nil, andb_true_r.
    destruct (Ascii.eqb c b).
    + intros [= <-]. simpl. lia.
    + destruct (find s (String c EmptyString)) as [j|]; [|discriminate].
      intros [= <-]. specialize (IH j eq_refl). simpl. lia.
Qed.

(** A prefix free of [c] lies before the first [c]. *)
Lemma HasPrefix_take (c : ascii) (pre s : string) (i : nat) :
  hasByte c pre = false ->
  find s (String c EmptyString) = Some i ->
  HasPrefix (take i s) pre = HasPrefix s pre.
Proof.
  revert s i. induction pre as [|a pre IH]; intros s i Hp Hf.
  - now rewrite !HasPrefix_nil.
  - cbn [hasByte] in Hp. apply orb_false_iff in Hp. destruct Hp as [Hac Hp].
    destruct s as [|b s]; [discriminate|].
    cbn [find HasPrefix] in Hf. rewrite HasPrefix_nil, andb_true_r in Hf.
    destruct (Ascii.eqb c b) eqn:Hcb.
    + injection Hf as <-. apply Ascii.eqb_eq in Hcb. subst b.
      cbn [take HasPrefix]. rewrite Hac. reflexivity.
    + destruct (find s (String c EmptyString)) as [j|] eqn:Hj; [|discriminate].
      injection Hf as <-. cbn [take HasPrefix].
      rewrite (IH s j Hp Hj). reflexivity.
Qed.

Lemma drop_nil_iff (n : nat) (s : string) :
  (String.length s <= n)%nat -> drop n s = EmptyString.
Proof.
  revert s. induction n as [|n IH]; intros [|b s] H; simpl in *;
    try reflexivity; try lia.
  apply IH. lia.
Qed.

(** On one item, the body of the source's loop and the spec's reading
    agree. *)
Lemma tresLoop_firstMatch (parts : list string) :
  ParseFloat EmptyString = None ->
  tresLoop parts =
  TresSpec.firstMatch (map (fun item => TresSpec.keyValue (TrimSpace item)) parts).
Proof.
  intros Hempty. induction parts as [|p parts IH]; cbn [tresLoop map TresSpec.firstMatch].
  - reflexivity.
  - rewrite IH. set (q := TrimSpace p). unfold TresSpec.keyValue, Index.
    destruct (find q "=") as [i|] eqn:Hf; cbn [TresSpec.isGpuPair].
    + rewrite (HasPrefix_take "=" "gres/gpu" q i eq_refl Hf).
      destruct (HasPrefix q "gres/gpu"); [|reflexivity].
      pose proof (find_lt _ _ _ Hf) as Hlt.
      replace (negb (Z.of_nat i =? -1)) with true
        by (symmetry; apply negb_true_iff, Z.eqb_neq; lia).
      cbn [andb]. unfold len, slice_from.
      replace (Z.to_nat (Z.of_nat i + 1)) with (S i) by lia.
      destruct (Z.of_nat i <? Z.of_nat (String.length q) - 1) eqn:Hlast.
      * reflexivity.
      * apply Z.ltb_ge in Hlast.
        rewrite (drop_nil_iff (S i) q) by lia.
        rewrite Hempty. reflexivity.
    + destruct (HasPrefix q "gres/gpu"); reflexivity.
Qed.

Lemma firstMatch_filter (kvs : list (option (string * string))) :
  TresSpec.firstMatch kvs = TresSpec.firstMatch (filter TresSpec.isGpuPair kvs).
Proof.
  induction kvs as [|kv kvs IH]; cbn [filter TresSpec.firstMatch]; [reflexivity|].
  destruct (TresSpec.isGpuPair kv) eqn:E; [|exact IH].
  cbn [TresSpec.firstMatch]. rewrite E, IH. reflexivity.
Qed.

Lemma parseGresGpuCount_tres (s : string) :
  Contains s "=" = true ->
  parseGresGpuCount s = tresLoop (Split s ",").
Proof.
  intros H. rewrite parseGresGpuCount_eq, H.
  destruct (isSentinel s) eqn:E; [|reflexivity].
  unfold isSentinel in E.
  apply orb_true_iff in E. destruct E as [E|E];
    [apply orb_true_iff in E; destruct E as [E|E]|];
    apply String.eqb_eq in E; subst s; discriminate.
Qed.

End TresFacts.

(** C5.  For every Go runtime in which the empty string is not a number
    (as for [strconv.ParseFloat]) and every input [s] that contains ['=']:
    - [parseGresGpuCount s] is the value of the first pair, among the
      comma-separated [key=value] pairs of [s], whose key begins with
      [gres/gpu] (so also [gres/gpu:tesla]) and whose value parses as a
      floating-point quantity;
    - pairs with other keys are ignored: dropping them leaves the result
      unchanged;
    - the result is [0] when no key begins with [gres/gpu].
    In particular ["cpu=4,mem=1024M,gres/gpu=2"] parses to [2] and
    ["cpu=8"] to [0]. *)
Theorem parseGresGpuCount_tres_first_match (go : GoRuntime) :
  ParseFloat EmptyString = None ->
  (forall s, Contains s "=" = true ->
     parseGresGpuCount s = TresSpec.firstMatch (TresSpec.pairs s) /\
     parseGresGpuCount s =
       TresSpec.firstMatch (filter TresSpec.isGpuPair (TresSpec.pairs s)) /\
     (filter TresSpec.isGpuPair (TresSpec.pairs s) = [] ->
      parseGresGpuCount s = F64.zero)) /\
  (ParseFloat "2" = Some 2%float ->
   parseGresGpuCount "cpu=4,mem=1024M,gres/gpu=2" = 2%float) /\
  parseGresGpuCount "cpu=8" = 0%float.
Proof.
  intros Hempty.
  assert (H : forall s, Contains s "=" = true ->
                parseGresGpuCount s = TresSpec.firstMatch (TresSpec.pairs s)).
  { intros s Hs. rewrite (parseGresGpuCount_tres s Hs).
    apply tresLoop_firstMatch, Hempty. }
  split; [|split].
  - intros s Hs. split; [exact (H s Hs)|]. split.
    + rewrite (H s Hs). apply firstMatch_filter.
    + intros Hnone. rewrite (H s Hs), firstMatch_filter, Hnone. reflexivity.
  - intros Htwo. rewrite (H "cpu=4,mem=1024M,gres/gpu=2" eq_refl).
    cbv -[ParseFloat]. rewrite Htwo. reflexivity.
  - rewrite (H "cpu=8" eq_refl). reflexivity.
Qed.

Lemma parseGresGpuCount_tres_first_match_witness :
  @parseGresGpuCount Fragment.runtime "cpu=4,mem=1024M,gres/gpu=2" = 2%float /\
  @parseGresGpuCount Fragment.runtime "billing=8,cpu=8,gres/gpu=4,mem=32G,node=1"
  = @TresSpec.firstMatch Fragment.runtime
      [Some ("gres/gpu", "4")].
Proof.
  pose proof (parseGresGpuCount_tres_first_match Fragment.runtime eq_refl)
    as (Hall & Htwo & _).
  split.
  - exact (Htwo eq_refl).
  - exact (proj1 (proj2
      (Hall "billing=8,cpu=8,gres/gpu=4,mem=32G,node=1" eq_refl))).
Defined.

(** ** The fetchers, step by step *)

Section FetchFacts.
Context {go : GoRuntime}.

Lemma sinfoFetchRawBytes_eq (s : State) :
  sinfoFetchRawBytes s = (sinfoOutput s, afterSinfo s).
Proof. reflexivity. Qed.

Lemma sacctFetchRawBytes_eq (s : State) :
  sacctFetchRawBytes s = (sacctOutput s, afterSacct s).
Proof. reflexivity. Qed.

Lemma logEach_eq (fmt : string) (errs : list string) (s : State) :
  logEach fmt errs s = (tt, set_logs (errorRecords fmt errs ++ logs s) s).
Proof.
  revert s. induction errs as [|e errs IH]; intros s.
  - destruct s. reflexivity.
  - cbn [logEach]. unfold bind. cbn [slogError modify].
    rewrite IH. unfold errorRecords. cbn [map rev].
    rewrite <- app_assoc. destruct s. reflexivity.
Qed.

End FetchFacts.

Section FetchCases.
Context {go : GoRuntime}.

Lemma fold_add_map {A} (g : A -> float) (l : list A) (acc : float) :
  fold_left (fun total x => PrimFloat.add total (g x)) l acc
  = fold_left PrimFloat.add (map g l) acc.
Proof.
  revert acc. induction l as [|x l IH]; intros acc; simpl; [reflexivity|].
  apply IH.
Qed.

Lemma length_pos_nonnil {A} (l : list A) :
  (0 <? Z.of_nat (List.length l)) = negb (match l with [] => true | _ => false end).
Proof. destruct l; reflexivity. Qed.

Lemma GpuJsonFetcher_fetchTotalGpus_outcome (s : State) r s' :
  GpuJsonFetcher.fetchTotalGpus s = (r, s') <-> JsonTotal s r s'.
Proof.
  unfold GpuJsonFetcher.fetchTotalGpus, try_, bind, ret.
  rewrite sinfoFetchRawBytes_eq.
  split.
  - destruct (sinfoOutput s) as [raw|e] eqn:Hout.
    2:{ intros [= <- <-]. now constructor. }
    destruct (UnmarshalSinfo raw) as [resp|e] eqn:Hdec.
    2:{ cbn. intros [= <- <-].
        replace (set_logs _ _) with
          (logged [mkLogEntry LevelError "Unmarshaling sinfo GPU metrics: %q" e] 0
                  (afterSinfo s))
          by (unfold logged, set_logs; cbn; now rewrite Z.add_0_r).
        now apply JsonTotal_decode with raw. }
    rewrite length_pos_nonnil.
    destruct (sinfo_Errors resp) as [|e1 errs] eqn:Herr; cbn [negb].
    + rewrite fold_add_map. intros [= <- <-].
      now apply JsonTotal_ok with raw.
    + rewrite logEach_eq. cbn [counterAdd modify]. intros [= <- <-].
      rewrite <- Herr.
      replace (set_errorCounter _ _) with
        (logged (errorRecords "sinfo API error response: %q" (sinfo_Errors resp))
                (Z.of_nat (List.length (sinfo_Errors resp)))
                (afterSinfo s))
        by (rewrite Herr; reflexivity).
      replace e1 with (List.hd EmptyString (sinfo_Errors resp))
        by (rewrite Herr; reflexivity).
      apply JsonTotal_upstream with raw; [assumption..|].
      rewrite Herr. discriminate.
  - intros H. destruct H as [e H|raw e H1 H2|raw resp H1 H2 H3|raw resp H1 H2 H3].
    + rewrite H. reflexivity.
    + rewrite H1, H2. cbn. unfold logged, set_logs. cbn.
      now rewrite Z.add_0_r.
    + rewrite H1, H2, length_pos_nonnil.
      destruct (sinfo_Errors resp) as [|e1 errs] eqn:Herr; [congruence|].
      cbn [negb]. rewrite logEach_eq. reflexivity.
    + rewrite H1, H2, H3. cbn. rewrite fold_add_map. reflexivity.
Qed.

Lemma GpuJsonFetcher_fetchAllocatedGpus_outcome (s : State) r s' :
  GpuJsonFetcher.fetchAllocatedGpus s = (r, s') <-> JsonAlloc s r s'.
Proof.
  unfold GpuJsonFetcher.fetchAllocatedGpus, try_, bind, ret.
  rewrite sacctFetchRawBytes_eq.
  split.
  - destruct (sacctOutput s) as [raw|e] eqn:Hout.
    2:{ intros [= <- <-]. now constructor. }
    destruct (UnmarshalSacct raw) as [resp|e] eqn:Hdec.
    2:{ cbn. intros [= <- <-].
        replace (set_logs _ _) with
          (logged [mkLogEntry LevelError "Unmarshaling sacct GPU metrics: %q" e] 0
                  (afterSacct s))
          by (unfold logged, set_logs; cbn; now rewrite Z.add_0_r).
        now apply JsonAlloc_decode with raw. }
    rewrite length_pos_nonnil.
    destruct (sacct_Errors resp) as [|e1 errs] eqn:Herr; cbn [negb].
    + rewrite fold_add_map. intros [= <- <-].
      now apply JsonAlloc_ok with raw.
    + rewrite logEach_eq. cbn [counterAdd modify]. intros [= <- <-].
      rewrite <- Herr.
      replace (set_errorCounter _ _) with
        (logged (errorRecords "sacct API error response: %q" (sacct_Errors resp))
                (Z.of_nat (List.length (sacct_Errors resp)))
                (afterSacct s))
        by (rewrite Herr; reflexivity).
      replace e1 with (List.hd EmptyString (sacct_Errors resp))
        by (rewrite Herr; reflexivity).
      apply JsonAlloc_upstream with raw; [assumption..|].
      rewrite Herr. discriminate.
  - intros H. destruct H as [e H|raw e H1 H2|raw resp H1 H2 H3|raw resp H1 H2 H3].
    + rewrite H. reflexivity.
    + rewrite H1, H2. cbn. unfold logged, set_logs. cbn.
      now rewrite Z.add_0_r.
    + rewrite H1, H2, length_pos_nonnil.
      destruct (sacct_Errors resp) as [|e1 errs] eqn:Herr; [congruence|].
      cbn [negb]. rewrite logEach_eq. reflexivity.
    + rewrite H1, H2, H3. cbn. rewrite fold_add_map. reflexivity.
Qed.

Lemma len_zero (s : string) : (len s =? 0) = String.eqb s EmptyString.
Proof. destruct s; reflexivity. Qed.

Lemma GpuCliFallbackFetcher_fetchTotalGpus_outcome (s : State) r s' :
  GpuCliFallbackFetcher.fetchTotalGpus s = (r, s') <-> CliTotal s r s'.
Proof.
  unfold GpuCliFallbackFetcher.fetchTotalGpus, try_, bind, ret.
  rewrite sinfoFetchRawBytes_eq.
  split.
  - destruct (sinfoOutput s) as [raw|e] eqn:Hout.
    2:{ intros [= <- <-]. now constructor. }
    rewrite len_zero.
    destruct (String.eqb_spec (TrimSpace raw) EmptyString) as [Hb|Hb].
    { intros [= <- <-]. now apply (CliTotal_blank s raw). }
    destruct (ReadAll (TrimSpace raw)) as [records|e] eqn:Hcsv.
    + intros [= <- <-]. now apply (CliTotal_ok s raw).
    + cbn. intros [= <- <-]. now apply (CliTotal_malformed s raw).
  - intros H. destruct H as [e H|raw H1 H2|raw e H1 H2 H3|raw records H1 H2 H3].
    + rewrite H. reflexivity.
    + rewrite H1, len_zero, H2. reflexivity.
    + rewrite H1, len_zero. apply String.eqb_neq in H2. rewrite H2, H3.
      reflexivity.
    + rewrite H1, len_zero. apply String.eqb_neq in H2. rewrite H2, H3.
      reflexivity.
Qed.

Lemma GpuCliFallbackFetcher_fetchAllocatedGpus_outcome (s : State) r s' :
  GpuCliFallbackFetcher.fetchAllocatedGpus s = (r, s') <-> CliAlloc s r s'.
Proof.
  unfold GpuCliFallbackFetcher.fetchAllocatedGpus, try_, bind, ret.
  rewrite sacctFetchRawBytes_eq.
  split.
  - destruct (sacctOutput s) as [raw|e] eqn:Hout.
    2:{ intros [= <- <-]. now constructor. }
    rewrite len_zero.
    destruct (String.eqb_spec (TrimSpace raw) EmptyString) as [Hb|Hb].
    { intros [= <- <-]. now apply (CliAlloc_blank s raw). }
    intros [= <- <-]. now apply (CliAlloc_ok s raw).
  - intros H. destruct H as [e H|raw H1 H2|raw H1 H2].
    + rewrite H. reflexivity.
    + rewrite H1, len_zero, H2. reflexivity.
    + rewrite H1, len_zero. apply String.eqb_neq in H2. rewrite H2.
      reflexivity.
Qed.

(** The composition of the two steps, for any pair of step functions
    and the relations that describe them. *)
Lemma fetch_outcome
      (ftotal falloc : M (result float))
      (total alloc : State -> result float -> State -> Prop) :
  (forall s r s', ftotal s = (r, s') <-> total s r s') ->
  (forall s r s', falloc s = (r, s') <-> alloc s r s') ->
  forall s r s',
    (totalGpus <-? ftotal ;; allocGpus <-? falloc ;;
     ret (Ok (deriveMetrics totalGpus allocGpus)))%go s = (r, s')
    <-> Fetch total alloc s r s'.
Proof.
  intros Ht Ha s r s'. unfold try_, bind, ret. split.
  - destruct (ftotal s) as [[totalGpus|e] s1] eqn:E1.
    + destruct (falloc s1) as [[allocGpus|e] s2] eqn:E2.
      * intros [= <- <-].
        apply (Fetch_ok total alloc s totalGpus s1 allocGpus s2); [apply Ht, E1|apply Ha, E2].
      * intros [= <- <-].
        apply (Fetch_alloc_failed total alloc s totalGpus s1 e s2); [apply Ht, E1|apply Ha, E2].
    + intros [= <- <-]. apply Fetch_total_failed, Ht, E1.
  - intros H. destruct H as [e s1 H|totalGpus s1 e s2 H1 H2|totalGpus s1 allocGpus s2 H1 H2].
    + apply Ht in H. rewrite H. reflexivity.
    + apply Ht in H1. apply Ha in H2. rewrite H1, H2. reflexivity.
    + apply Ht in H1. apply Ha in H2. rewrite H1, H2. reflexivity.
Qed.

Lemma GpuJsonFetcher_fetch_outcome (s : State) r s' :
  GpuJsonFetcher.fetch s = (r, s') <-> Fetch JsonTotal JsonAlloc s r s'.
Proof.
  apply fetch_outcome.
  - apply GpuJsonFetcher_fetchTotalGpus_outcome.
  - apply GpuJsonFetcher_fetchAllocatedGpus_outcome.
Qed.

Lemma GpuCliFallbackFetcher_fetch_outcome (s : State) r s' :
  GpuCliFallbackFetcher.fetch s = (r, s') <-> Fetch CliTotal CliAlloc s r s'.
Proof.
  apply fetch_outcome.
  - apply GpuCliFallbackFetcher_fetchTotalGpus_outcome.
  - apply GpuCliFallbackFetcher_fetchAllocatedGpus_outcome.
Qed.

End FetchCases.

(** ** [FetchMetrics]: the throttled cache *)

Section CacheFacts.
Context {go : GoRuntime}.

Lemma cacheHit_lock (s : State) : cacheHit (lock s) = cacheHit s.
Proof. reflexivity. Qed.

Lemma cacheHit_Some (s : State) (m : GpuMetrics) :
  cacheHit s = Some m <->
  gpuCache.cache (cache s) = Some m /\
  F64.lt (GoTime.Seconds (GoTime.Sub (now s) (gpuCache.t (cache s))))
         (gpuCache.limit (cache s)) = true.
Proof.
  unfold cacheHit. destruct (gpuCache.cache (cache s)) as [m'|].
  - destruct (F64.lt _ _); split.
    + intros [= ->]. split; reflexivity.
    + intros [[= ->] _]. reflexivity.
    + discriminate.
    + intros [_ H]. discriminate.
  - split; [discriminate|intros [H _]; discriminate].
Qed.

Lemma unlock_lock (s : State) :
  gpuCache.Mutex (cache s) = false -> unlock (lock s) = s.
Proof.
  destruct s as [n l tr si sa ec [mu t0 li ca du]]. simpl.
  intros ->. reflexivity.
Qed.

(** [FetchMetrics] blocks when the mutex is held, and otherwise returns
    with one of the outcomes of [Called]. *)
Lemma FetchMetricsWith_blocked (fetch : M (result GpuMetrics)) (s : State) :
  gpuCache.Mutex (cache s) = true -> FetchMetricsWith fetch s = None.
Proof. intros H. unfold FetchMetricsWith. rewrite H. reflexivity. Qed.

Lemma locked_eq (fetch : M (result GpuMetrics)) (s : State) :
  locked fetch s =
  match cacheHit s with
  | Some m => (Ok m, s)
  | None =>
      match fetch s with
      | (Ok m, s2) =>
          (Ok m, set_cache (gpuCache.mk (gpuCache.Mutex (cache s2)) (now s2)
                              (gpuCache.limit (cache s2)) (Some m)
                              (GoTime.Sub (now s2) (now s))) s2)
      | (Err e, s2) => (Err e, s2)
      end
  end.
Proof.
  unfold locked, bind, get, try_, ret, Now, Since, modify, bind, ret.
  destruct (cacheHit s); [reflexivity|].
  destruct (fetch s) as [[m|e] s2]; reflexivity.
Qed.

Lemma FetchMetricsWith_outcome (fetch : M (result GpuMetrics)) (s : State) r s' :
  FetchMetricsWith fetch s = Some (r, s') <->
  gpuCache.Mutex (cache s) = false /\ Called fetch s r s'.
Proof.
  unfold FetchMetricsWith.
  destruct (gpuCache.Mutex (cache s)) eqn:Hm.
  { split; [discriminate|intros [H _]; discriminate]. }
  fold (lock s). rewrite locked_eq, cacheHit_lock.
  split.
  - intros H. split; [reflexivity|]. revert H.
    destruct (cacheHit s) as [m|] eqn:Hh.
    + change (snd (Unlock (lock s))) with (unlock (lock s)).
      rewrite (unlock_lock s Hm). intros [= <- <-]. now constructor.
    + destruct (fetch (lock s)) as [[m|e] s2] eqn:Hf.
      * intros [= <- <-]. now apply (Called_refreshed fetch s m s2).
      * intros [= <- <-]. now apply (Called_failed fetch s e s2).
  - intros [_ H]. destruct H as [m H|e s2 H1 H2|m s2 H1 H2].
    + rewrite H. change (snd (Unlock (lock s))) with (unlock (lock s)).
      rewrite (unlock_lock s Hm). reflexivity.
    + rewrite H1, H2. reflexivity.
    + rewrite H1, H2. reflexivity.
Qed.

Lemma JsonTotal_cache s r s' : JsonTotal s r s' -> cache s' = cache s.
Proof. intros []; reflexivity. Qed.
Lemma JsonAlloc_cache s r s' : JsonAlloc s r s' -> cache s' = cache s.
Proof. intros []; reflexivity. Qed.
Lemma CliTotal_cache s r s' : CliTotal s r s' -> cache s' = cache s.
Proof. intros []; reflexivity. Qed.
Lemma CliAlloc_cache s r s' : CliAlloc s r s' -> cache s' = cache s.
Proof. intros []; reflexivity. Qed.

Lemma Fetch_cache total alloc :
  (forall s r s', total s r s' -> cache s' = cache s) ->
  (forall s r s', alloc s r s' -> cache s' = cache s) ->
  forall s r s', Fetch total alloc s r s' -> cache s' = cache s.
Proof.
  intros Ht Ha s r s' [e s1 H|tg s1 e s2 H1 H2|tg s1 ag s2 H1 H2].
  - exact (Ht _ _ _ H).
  - rewrite (Ha _ _ _ H2). exact (Ht _ _ _ H1).
  - rewrite (Ha _ _ _ H2). exact (Ht _ _ _ H1).
Qed.

(** No fetch writes to the cache. *)
Lemma fetch_cache (f : GpuCollector.GpuFetcher) (s : State) r s' :
  GpuCollector.fetch f s = (r, s') -> cache s' = cache s.
Proof.
  destruct f; cbn [GpuCollector.fetch]; intros H.
  - apply GpuJsonFetcher_fetch_outcome in H. revert H.
    apply Fetch_cache; [apply JsonTotal_cache|apply JsonAlloc_cache].
  - apply GpuCliFallbackFetcher_fetch_outcome in H. revert H.
    apply Fetch_cache; [apply CliTotal_cache|apply CliAlloc_cache].
Qed.

Lemma FetchMetrics_outcome (f : GpuCollector.GpuFetcher) (s : State) r s' :
  GpuCollector.FetchMetrics f s = Some (r, s') <->
  gpuCache.Mutex (cache s) = false /\ Called (GpuCollector.fetch f) s r s'.
Proof. destruct f; apply FetchMetricsWith_outcome. Qed.

(** After a call that returned a snapshot, the mutex is free and the
    cache holds that snapshot. *)
Lemma Called_ok_cache (f : GpuCollector.GpuFetcher) (s : State) m s' :
  gpuCache.Mutex (cache s) = false ->
  Called (GpuCollector.fetch f) s (Ok m) s' ->
  gpuCache.Mutex (cache s') = false /\ gpuCache.cache (cache s') = Some m.
Proof.
  intros Hm H. inversion H; subst.
  - split; [exact Hm|]. now apply cacheHit_Some in H1.
  - split; reflexivity.
Qed.

(** After a call that failed, the cache is the one before the call. *)
Lemma Called_failed_cache (f : GpuCollector.GpuFetcher) (s : State) e s' :
  gpuCache.Mutex (cache s) = false ->
  Called (GpuCollector.fetch f) s (Err e) s' ->
  cache s' = cache s.
Proof.
  intros Hm H. inversion H; subst.
  match goal with H : GpuCollector.fetch f _ = _ |- _ =>
    apply fetch_cache in H; rename H into Hc end.
  unfold unlock. cbn. rewrite Hc. cbn.
  destruct (cache s) as [mu t0 li ca du]. cbn in *. subst mu. reflexivity.
Qed.

End CacheFacts.

(** ** C1: a call within the TTL is served from the cache *)

(** C1.  For either fetcher variant and every state in which the mutex is
    free:
    - if a snapshot [m] is cached and the seconds elapsed since it was
      stored are strictly below [limit], [FetchMetrics] returns [m] and
      leaves the whole state as it was: no scraper is invoked ([trace] and
      both [invocations] counters are those of before);
    - hence, after a call that returned [m], a second call made at any
      clock reading [later] still within the TTL of the stored snapshot
      returns the same [m], again without touching the state. *)
Theorem FetchMetrics_cache_hit (go : GoRuntime) (f : GpuCollector.GpuFetcher) :
  (forall s m,
     gpuCache.Mutex (cache s) = false ->
     gpuCache.cache (cache s) = Some m ->
     F64.lt (GoTime.Seconds (GoTime.Sub (now s) (gpuCache.t (cache s))))
            (gpuCache.limit (cache s)) = true ->
     GpuCollector.FetchMetrics f s = Some (Ok m, s)) /\
  (forall s m s1 later,
     GpuCollector.FetchMetrics f s = Some (Ok m, s1) ->
     F64.lt (GoTime.Seconds (GoTime.Sub later (gpuCache.t (cache s1))))
            (gpuCache.limit (cache s1)) = true ->
     GpuCollector.FetchMetrics f (at_time later s1) = Some (Ok m, at_time later s1) /\
     trace (at_time later s1) = trace s1 /\
     invocations (sinfoScraper (at_time later s1)) = invocations (sinfoScraper s1) /\
     invocations (sacctScraper (at_time later s1)) = invocations (sacctScraper s1)).
Proof.
  assert (Hit : forall s m,
     gpuCache.Mutex (cache s) = false ->
     gpuCache.cache (cache s) = Some m ->
     F64.lt (GoTime.Seconds (GoTime.Sub (now s) (gpuCache.t (cache s))))
            (gpuCache.limit (cache s)) = true ->
     GpuCollector.FetchMetrics f s = Some (Ok m, s)).
  { intros s m Hm Hc Ht. apply FetchMetrics_outcome. split; [exact Hm|].
    constructor. apply cacheHit_Some. split; assumption. }
  split; [exact Hit|].
  intros s m s1 later H Ht.
  apply FetchMetrics_outcome in H. destruct H as [Hm H].
  destruct (Called_ok_cache f s m s1 Hm H) as [Hm1 Hc1].
  split; [|repeat split].
  apply Hit; assumption.
Qed.

Lemma FetchMetrics_cache_hit_witness :
  exists m s1,
    @GpuCollector.FetchMetrics Fragment.runtime GpuCollector.JsonFetcher
      Samples.jsonState = Some (Ok m, s1) /\
    @GpuCollector.FetchMetrics Fragment.runtime GpuCollector.JsonFetcher
      (at_time (now s1 + 9999999999) s1)
    = Some (Ok m, at_time (now s1 + 9999999999) s1).
Proof.
  destruct (@GpuCollector.FetchMetrics Fragment.runtime GpuCollector.JsonFetcher
              Samples.jsonState) as [[[m|e] s1]|] eqn:E;
    try (vm_compute in E; discriminate).
  exists m, s1. split; [reflexivity|].
  apply (proj2 (FetchMetrics_cache_hit Fragment.runtime GpuCollector.JsonFetcher)
               Samples.jsonState m s1 (now s1 + 9999999999) E).
  vm_compute in E. injection E as <- <-. vm_compute. reflexivity.
Defined.

(** ** C2: a failed refresh leaves the cache alone *)

Section RefreshFacts.
Context {go : GoRuntime}.

Lemma JsonTotal_sinfo s r s' :
  JsonTotal s r s' -> sinfoScraper s' = sinfoScraper (afterSinfo s).
Proof. intros []; reflexivity. Qed.
Lemma CliTotal_sinfo s r s' :
  CliTotal s r s' -> sinfoScraper s' = sinfoScraper (afterSinfo s).
Proof. intros []; reflexivity. Qed.
Lemma JsonAlloc_sinfo s r s' : JsonAlloc s r s' -> sinfoScraper s' = sinfoScraper s.
Proof. intros []; reflexivity. Qed.
Lemma CliAlloc_sinfo s r s' : CliAlloc s r s' -> sinfoScraper s' = sinfoScraper s.
Proof. intros []; reflexivity. Qed.

Lemma Fetch_sinfo total alloc :
  (forall s r s', total s r s' -> sinfoScraper s' = sinfoScraper (afterSinfo s)) ->
  (forall s r s', alloc s r s' -> sinfoScraper s' = sinfoScraper s) ->
  forall s r s', Fetch total alloc s r s' ->
                 sinfoScraper s' = sinfoScraper (afterSinfo s).
Proof.
  intros Ht Ha s r s' [e s1 H|tg s1 e s2 H1 H2|tg s1 ag s2 H1 H2].
  - exact (Ht _ _ _ H).
  - rewrite (Ha _ _ _ H2). exact (Ht _ _ _ H1).
  - rewrite (Ha _ _ _ H2). exact (Ht _ _ _ H1).
Qed.

(** Every fetch runs the [sinfo] command exactly once, first. *)
Lemma fetch_sinfo (f : GpuCollector.GpuFetcher) (s : State) r s' :
  GpuCollector.fetch f s = (r, s') ->
  sinfoScraper s' = sinfoScraper (afterSinfo s).
Proof.
  destruct f; cbn [GpuCollector.fetch]; intros H.
  - apply GpuJsonFetcher_fetch_outcome in H. revert H.
    apply Fetch_sinfo; [apply JsonTotal_sinfo|apply JsonAlloc_sinfo].
  - apply GpuCliFallbackFetcher_fetch_outcome in H. revert H.
    apply Fetch_sinfo; [apply CliTotal_sinfo|apply CliAlloc_sinfo].
Qed.

(** A call that finds the mutex free returns. *)
Lemma FetchMetrics_returns (f : GpuCollector.GpuFetcher) (s : State) :
  gpuCache.Mutex (cache s) = false ->
  exists r s', GpuCollector.FetchMetrics f s = Some (r, s').
Proof.
  intros Hm. destruct f; cbn [GpuCollector.FetchMetrics];
    unfold GpuJsonFetcher.FetchMetrics, GpuCliFallbackFetcher.FetchMetrics,
           FetchMetricsWith; rewrite Hm;
    match goal with |- context [locked ?c ?x] =>
      destruct (locked c x) as [r s2] end; eauto.
Qed.

(** A call that misses the cache runs the [sinfo] command once. *)
Lemma Called_miss_sinfo (f : GpuCollector.GpuFetcher) (s : State) r s' :
  cacheHit s = None ->
  Called (GpuCollector.fetch f) s r s' ->
  sinfoScraper s' = sinfoScraper (afterSinfo s).
Proof.
  intros Hmiss H. inversion H; subst.
  - congruence.
  - match goal with H : GpuCollector.fetch f _ = _ |- _ =>
      apply fetch_sinfo in H; rename H into Hs end.
    exact Hs.
  - match goal with H : GpuCollector.fetch f _ = _ |- _ =>
      apply fetch_sinfo in H; rename H into Hs end.
    exact Hs.
Qed.

End RefreshFacts.

(** C2.  For either fetcher variant: when [FetchMetrics] returns the error
    [e],
    - the call had missed the cache and [e] is the error of the underlying
      fetch, handed on unchanged;
    - the cache entry after the call is the one before it: snapshot,
      timestamp, TTL and fetch duration are untouched and the mutex is free
      again, so a snapshot that was there survives;
    - nothing of the failure is remembered: at every later clock reading
      the cache test gives what it would have given without the failed
      call;
    - whenever that test misses, the next call runs the [sinfo] command
      again, that is, it attempts a refresh;
    - and it always misses while no snapshot is stored. *)
Theorem FetchMetrics_failure_keeps_cache
        (go : GoRuntime) (f : GpuCollector.GpuFetcher) (s : State) (e : error) (s' : State) :
  GpuCollector.FetchMetrics f s = Some (Err e, s') ->
  (cacheHit s = None /\
   exists s2, GpuCollector.fetch f (lock s) = (Err e, s2)) /\
  cache s' = cache s /\
  (forall later, cacheHit (at_time later s') = cacheHit (at_time later s)) /\
  (forall later,
     cacheHit (at_time later s') = None ->
     exists r s'',
       GpuCollector.FetchMetrics f (at_time later s') = Some (r, s'') /\
       invocations (sinfoScraper s'') = S (invocations (sinfoScraper s'))) /\
  (gpuCache.cache (cache s) = None ->
   forall later, cacheHit (at_time later s') = None).
Proof.
  intros H. apply FetchMetrics_outcome in H. destruct H as [Hm H].
  pose proof (Called_failed_cache f s e s' Hm H) as Hc.
  split; [|split; [exact Hc|split; [|split]]].
  - inversion H; subst. split; [assumption|eauto].
  - intros later. unfold cacheHit, at_time. cbn. rewrite Hc. reflexivity.
  - intros later Hmiss.
    assert (Hm' : gpuCache.Mutex (cache (at_time later s')) = false).
    { cbn. rewrite Hc. exact Hm. }
    destruct (FetchMetrics_returns f _ Hm') as (r & s'' & E).
    exists r, s''. split; [exact E|].
    apply FetchMetrics_outcome in E. destruct E as [_ E].
    rewrite (Called_miss_sinfo f _ r s'' Hmiss E). reflexivity.
  - intros Hnone later. unfold cacheHit, at_time. cbn. rewrite Hc, Hnone.
    reflexivity.
Qed.

Lemma FetchMetrics_failure_keeps_cache_witness :
  exists s',
    @GpuCollector.FetchMetrics Fragment.runtime GpuCollector.JsonFetcher
      Samples.staleFailing = Some (Err "exit status 1", s') /\
    cache s' = cache Samples.staleFailing /\
    gpuCache.cache (cache s') = Some (deriveMetrics 12%float 3%float).
Proof.
  eexists.
  assert (E : @GpuCollector.FetchMetrics Fragment.runtime GpuCollector.JsonFetcher
      Samples.staleFailing
    = Some (Err "exit status 1",
            mkState 20000000005 [] [(Sinfo, 5)]
              (mkScraper (fun _ => mkScrapeResult (Err "exit status 1") 5) 1 5)
              (Samples.prints EmptyString 5) 0
              (cache Samples.staleFailing))) by reflexivity.
  split; [exact E|]. split; [|reflexivity].
  exact (proj1 (proj2 (FetchMetrics_failure_keeps_cache
                         Fragment.runtime GpuCollector.JsonFetcher _ _ _ E))).
Defined.

(** ** C3: the derived fields *)

Section DerivedFacts.
Context {go : GoRuntime}.

Lemma deriveMetrics_derived (totalGpus allocGpus : float) :
  derived (deriveMetrics totalGpus allocGpus).
Proof. split; reflexivity. Qed.

Lemma Fetch_derive total alloc s m s' :
  Fetch total alloc s (Ok m) s' ->
  exists totalGpus allocGpus, m = deriveMetrics totalGpus allocGpus.
Proof. intros H. inversion H; subst. eauto. Qed.

Lemma fetch_derive (f : GpuCollector.GpuFetcher) s m s' :
  GpuCollector.fetch f s = (Ok m, s') ->
  m = deriveMetrics (Total m) (Alloc m).
Proof.
  intros H.
  assert (E : exists totalGpus allocGpus, m = deriveMetrics totalGpus allocGpus).
  { destruct f; cbn [GpuCollector.fetch] in H.
    - apply GpuJsonFetcher_fetch_outcome in H. exact (Fetch_derive _ _ _ _ _ H).
    - apply GpuCliFallbackFetcher_fetch_outcome in H. exact (Fetch_derive _ _ _ _ _ H). }
  destruct E as (tg & ag & ->). reflexivity.
Qed.

End DerivedFacts.

(** C3.  For either fetcher variant:
    - a snapshot [m] produced by a successful [fetch] is
      [deriveMetrics (Total m) (Alloc m)], the one function both variants
      apply to their accumulated totals, so [Idle = Total - Alloc] and
      [Utilization = Alloc / Total] when [Total > 0], else [0];
    - the same holds of every snapshot [FetchMetrics] returns, cached or
      fresh, as long as the cache was filled by [FetchMetrics] itself
      ([cacheDerived] is kept by every call and holds of an empty cache). *)
Theorem fetch_derived_fields (go : GoRuntime) (f : GpuCollector.GpuFetcher) :
  (forall s m s',
     GpuCollector.fetch f s = (Ok m, s') ->
     m = deriveMetrics (Total m) (Alloc m) /\
     Idle m = PrimFloat.sub (Total m) (Alloc m) /\
     Utilization m = (if F64.gt (Total m) F64.zero
                      then PrimFloat.div (Alloc m) (Total m)
                      else F64.zero)) /\
  (forall s r s',
     cacheDerived s ->
     GpuCollector.FetchMetrics f s = Some (r, s') ->
     cacheDerived s' /\ (forall m, r = Ok m -> derived m)).
Proof.
  split.
  - intros s m s' H. pose proof (fetch_derive f s m s' H) as E.
    split; [exact E|]. rewrite E. apply deriveMetrics_derived.
  - intros s r s' Hinv H.
    apply FetchMetrics_outcome in H. destruct H as [Hm H].
    inversion H; subst.
    + split; [exact Hinv|]. intros m' [= <-].
      apply Hinv. match goal with H : cacheHit _ = Some _ |- _ =>
        apply cacheHit_Some in H; exact (proj1 H) end.
    + split; [|discriminate].
      intros m Hc. apply Hinv.
      rewrite <- (Called_failed_cache f s e _ Hm H). exact Hc.
    + match goal with H : GpuCollector.fetch f _ = _ |- _ =>
        apply fetch_derive in H; rename H into E end.
      split.
      * intros m' [= <-]. rewrite E. apply deriveMetrics_derived.
      * intros m' [= <-]. rewrite E. apply deriveMetrics_derived.
Qed.

Lemma fetch_derived_fields_witness :
  exists s',
    @GpuCollector.fetch Fragment.runtime GpuCollector.CliFallbackFetcher
       Samples.cliState
    = (Ok (mkGpuMetrics 3%float 9%float 12%float 0.25%float), s') /\
    9%float = PrimFloat.sub 12%float 3%float /\
    0.25%float = PrimFloat.div 3%float 12%float.
Proof.
  eexists.
  assert (E : @GpuCollector.fetch Fragment.runtime GpuCollector.CliFallbackFetcher
                Samples.cliState
              = (Ok (mkGpuMetrics 3%float 9%float 12%float 0.25%float),
                 afterSacct (afterSinfo Samples.cliState))) by reflexivity.
  split; [exact E|].
  exact (proj2 (proj1 (fetch_derived_fields Fragment.runtime
                         GpuCollector.CliFallbackFetcher) _ _ _ E)).
Defined.

(** ** C4: the totals are sums; no order between them is enforced *)

Section TotalsFacts.
Context {go : GoRuntime}.

Lemma fold_nonneg {A} (f : float -> A -> float) (P : A -> Prop)
      (l : list A) (acc : float) :
  (forall a x, nonneg a -> P x -> nonneg (f a x)) ->
  nonneg acc -> Forall P l -> nonneg (fold_left f l acc).
Proof.
  intros Hf. revert acc.
  induction l as [|x l IH]; intros acc Ha H; cbn [fold_left].
  - exact Ha.
  - inversion H; subst. apply IH; [apply Hf; assumption|assumption].
Qed.

Lemma sumNodes_nonneg (nodes : list sinfoGpuNode) :
  Forall (fun node => nonneg (parseGresGpuCount (Gres node))) nodes ->
  nonneg (sumNodes nodes).
Proof.
  intros H. apply sum_nonneg. apply Forall_map. exact H.
Qed.

Lemma sumJobs_nonneg (jobs : list sacctGpuJob) :
  Forall (fun job => nonneg (parseGresGpuCount (AllocGRES job))) jobs ->
  nonneg (sumJobs jobs).
Proof.
  intros H. apply sum_nonneg. apply Forall_map. exact H.
Qed.

Lemma sumRecords_nonneg (records : list (list string)) :
  Forall (fun record => nonneg (recordCount record)) records ->
  nonneg (sumRecords records).
Proof.
  apply fold_nonneg; [|reflexivity].
  intros a r Ha Hr. unfold GpuCliFallbackFetcher.addRecord.
  destruct (Z.of_nat (List.length r) <? 2); [exact Ha|].
  apply add_nonneg; assumption.
Qed.

Lemma sumLines_nonneg (out : bytes) :
  Forall (fun line => nonneg (lineCount line)) (Split out newline) ->
  nonneg (sumLines out).
Proof.
  apply fold_nonneg; [|reflexivity].
  intros a l Ha Hl. unfold GpuCliFallbackFetcher.addLine.
  destruct (len (TrimSpace l) =? 0); [exact Ha|].
  apply add_nonneg; assumption.
Qed.

End TotalsFacts.

(** One node offering one GPU and one job holding two: the fetch succeeds
    with [Total = 1] and [Alloc = 2], so [Total >= Alloc] is false. *)
Lemma fetch_alloc_above_total :
  fst (@GpuJsonFetcher.fetch Fragment.runtime Samples.oversubscribed)
  = Ok (mkGpuMetrics 2%float (-1)%float 1%float 2%float) /\
  F64.ge 1%float 2%float = false.
Proof. split; reflexivity. Qed.

(** C4 (amended).  For a snapshot [m] produced by a successful fetch:
    - in JSON mode, [Total m] is the float64 sum, in order, of the counts
      parsed from the [gres] fields of the decoded [sinfo] nodes, and
      [Alloc m] the sum of those parsed from the [allocated_gres] fields of
      the decoded [sacct] jobs;
    - in CLI fallback mode, [Total m] is the sum over the CSV records of
      [sinfo] with at least two fields (none when the output is blank) and
      [Alloc m] the sum over the non-blank lines of [sacct];
    - [Total m >= 0] when every count that enters it is [>= 0], and
      likewise [Alloc m >= 0].
    No order between [Total m] and [Alloc m] is established by the code:
    see [fetch_alloc_above_total]. *)
Theorem fetch_totals_are_sums (go : GoRuntime) :
  (forall s m s',
     GpuJsonFetcher.fetch s = (Ok m, s') ->
     exists raw1 resp1 raw2 resp2,
       sinfoOutput s = Ok raw1 /\ UnmarshalSinfo raw1 = Ok resp1 /\
       sacctOutput s = Ok raw2 /\ UnmarshalSacct raw2 = Ok resp2 /\
       Total m = sumNodes (Nodes resp1) /\
       Alloc m = sumJobs (Jobs resp2) /\
       (Forall (fun node => nonneg (parseGresGpuCount (Gres node))) (Nodes resp1) ->
        nonneg (Total m)) /\
       (Forall (fun job => nonneg (parseGresGpuCount (AllocGRES job))) (Jobs resp2) ->
        nonneg (Alloc m))) /\
  (forall s m s',
     GpuCliFallbackFetcher.fetch s = (Ok m, s') ->
     exists raw1 records raw2,
       sinfoOutput s = Ok raw1 /\
       (TrimSpace raw1 = EmptyString /\ records = [] \/
        TrimSpace raw1 <> EmptyString /\ ReadAll (TrimSpace raw1) = Ok records) /\
       sacctOutput s = Ok raw2 /\
       Total m = sumRecords records /\
       Alloc m = sumLines (TrimSpace raw2) /\
       (Forall (fun record => nonneg (recordCount record)) records ->
        nonneg (Total m)) /\
       (Forall (fun line => nonneg (lineCount line))
               (Split (TrimSpace raw2) newline) ->
        nonneg (Alloc m))).
Proof.
  split.
  - intros s m s' H. apply GpuJsonFetcher_fetch_outcome in H.
    inversion H as [| |tg s1 ag s2 Ht Ha]; subst.
    inversion Ht as [| | |raw1 resp1 H1 H2 H3]; subst.
    inversion Ha as [| | |raw2 resp2 H4 H5 H6]; subst.
    exists raw1, resp1, raw2, resp2. cbn [Total Alloc deriveMetrics].
    split; [exact H1|]. split; [exact H2|]. split; [exact H4|].
    split; [exact H5|]. split; [reflexivity|]. split; [reflexivity|].
    split; [apply sumNodes_nonneg|apply sumJobs_nonneg].
  - intros s m s' H. apply GpuCliFallbackFetcher_fetch_outcome in H.
    inversion H as [| |tg s1 ag s2 Ht Ha]; subst.
    inversion Ht as [|raw1 H1 H2| |raw1 records H1 H2 H3]; subst;
      inversion Ha as [|raw2 H4 H5|raw2 H4 H5]; subst;
      cbn [Total Alloc deriveMetrics].
    + exists raw1, [], raw2. rewrite H5.
      split; [exact H1|]. split; [left; split; [exact H2|reflexivity]|].
      split; [exact H4|]. split; [reflexivity|]. split; [reflexivity|].
      split; intros _; reflexivity.
    + exists raw1, [], raw2.
      split; [exact H1|]. split; [left; split; [exact H2|reflexivity]|].
      split; [exact H4|]. split; [reflexivity|]. split; [reflexivity|].
      split; [intros _; reflexivity|apply sumLines_nonneg].
    + exists raw1, records, raw2. rewrite H5.
      split; [exact H1|]. split; [right; split; [exact H2|exact H3]|].
      split; [exact H4|]. split; [reflexivity|]. split; [reflexivity|].
      split; [apply sumRecords_nonneg|intros _; reflexivity].
    + exists raw1, records, raw2.
      split; [exact H1|]. split; [right; split; [exact H2|exact H3]|].
      split; [exact H4|]. split; [reflexivity|]. split; [reflexivity|].
      split; [apply sumRecords_nonneg|apply sumLines_nonneg].
Qed.

Lemma fetch_totals_are_sums_witness :
  exists s',
    @GpuJsonFetcher.fetch Fragment.runtime Samples.jsonState
    = (Ok (mkGpuMetrics 3%float 9%float 12%float 0.25%float), s') /\
    12%float = F64.sum [4%float; 8%float; 0%float] /\
    3%float = F64.sum [2%float; 1%float].
Proof.
  eexists.
  assert (E : @GpuJsonFetcher.fetch Fragment.runtime Samples.jsonState
              = (Ok (mkGpuMetrics 3%float 9%float 12%float 0.25%float),
                 afterSacct (afterSinfo Samples.jsonState))) by reflexivity.
  split; [exact E|].
  destruct (proj1 (fetch_totals_are_sums Fragment.runtime) _ _ _ E)
    as (raw1 & resp1 & raw2 & resp2 & H1 & H2 & H3 & H4 & H5 & H6 & _).
  injection H1 as <-. injection H3 as <-.
  vm_compute in H2. injection H2 as <-.
  vm_compute in H4. injection H4 as <-.
  split; [exact H5|exact H6].
Defined.

(** ** C8: what a failed fetch logs and counts *)

Section FailureFacts.
Context {go : GoRuntime}.













End FailureFacts.

Section FailureSurfaces.
Context {go : GoRuntime}.





End FailureSurfaces.




(** ** C10: what [ScrapeDuration] reports *)

Section DurationFacts.
Context {go : GoRuntime}.

Lemma JsonTotal_trace s r s' : JsonTotal s r s' -> trace s' = trace (afterSinfo s).
Proof. intros []; reflexivity. Qed.
Lemma CliTotal_trace s r s' : CliTotal s r s' -> trace s' = trace (afterSinfo s).
Proof. intros []; reflexivity. Qed.
Lemma JsonAlloc_trace s r s' : JsonAlloc s r s' -> trace s' = trace (afterSacct s).
Proof. intros []; reflexivity. Qed.
Lemma CliAlloc_trace s r s' : CliAlloc s r s' -> trace s' = trace (afterSacct s).
Proof. intros []; reflexivity. Qed.

(** The invocations a fetch adds to the trace: [sinfo], then possibly
    [sacct]. *)
Lemma Fetch_trace total alloc :
  (forall s r s', total s r s' -> trace s' = trace (afterSinfo s)) ->
  (forall s r s', alloc s r s' -> trace s' = trace (afterSacct s)) ->
  forall s r s',
    Fetch total alloc s r s' ->
    trace s' = trace (afterSinfo s) \/
    exists d, trace s' = (Sacct, d) :: trace (afterSinfo s).
Proof.
  intros Ht Ha s r s' [e s1 H|tg s1 e s2 H1 H2|tg s1 ag s2 H1 H2].
  - left. exact (Ht _ _ _ H).
  - right. rewrite (Ha _ _ _ H2). cbn. rewrite (Ht _ _ _ H1). eauto.
  - right. rewrite (Ha _ _ _ H2). cbn. rewrite (Ht _ _ _ H1). eauto.
Qed.

Lemma fetch_trace (f : GpuCollector.GpuFetcher) s r s' :
  GpuCollector.fetch f s = (r, s') ->
  trace s' = trace (afterSinfo s) \/
  exists d, trace s' = (Sacct, d) :: trace (afterSinfo s).
Proof.
  destruct f; cbn [GpuCollector.fetch]; intros H.
  - apply GpuJsonFetcher_fetch_outcome in H. revert H.
    apply Fetch_trace; [apply JsonTotal_trace|apply JsonAlloc_trace].
  - apply GpuCliFallbackFetcher_fetch_outcome in H. revert H.
    apply Fetch_trace; [apply CliTotal_trace|apply CliAlloc_trace].
Qed.

Lemma ScrapeDuration_eq (f : GpuCollector.GpuFetcher) (s : State) :
  GpuCollector.ScrapeDuration f s = lastDuration (sinfoScraper s).
Proof. destruct f; reflexivity. Qed.

(** After a call that missed the cache, the duration reported is that of
    the [sinfo] run the call made. *)
Lemma Called_miss_duration (f : GpuCollector.GpuFetcher) s r s' :
  cacheHit s = None ->
  Called (GpuCollector.fetch f) s r s' ->
  lastDuration (sinfoScraper s') =
    took (script (sinfoScraper s) (invocations (sinfoScraper s))) /\
  lastCall Sinfo (trace s') = Some (lastDuration (sinfoScraper s')).
Proof.
  intros Hmiss H.
  rewrite (Called_miss_sinfo f s r s' Hmiss H). split; [reflexivity|].
  assert (Ht : trace s' = trace (afterSinfo s) \/
               exists d, trace s' = (Sacct, d) :: trace (afterSinfo s)).
  { inversion H; subst; [congruence| |];
      match goal with H : GpuCollector.fetch f _ = _ |- _ =>
        apply fetch_trace in H; exact H end. }
  destruct Ht as [->|[d ->]]; reflexivity.
Qed.

End DurationFacts.

(** After a complete fetch in which [sinfo] took one second and [sacct],
    run after it, two seconds, [ScrapeDuration] is one second. *)
Lemma ScrapeDuration_not_most_recent :
  exists r s',
    @GpuCollector.FetchMetrics Fragment.runtime GpuCollector.JsonFetcher
       Samples.jsonState = Some (r, s') /\
    mostRecentCall (trace s') = Some 2000000000 /\
    GpuCollector.ScrapeDuration GpuCollector.JsonFetcher s' = 1000000000.
Proof.
  eexists. eexists. split; [reflexivity|]. split; reflexivity.
Qed.

(** C10 (amended).  For both fetcher variants [ScrapeDuration] is the
    [Duration] of the [sinfo] scraper, that is, the wall time of the most
    recent run of the [sinfo] command:
    - after a call of [FetchMetrics] that missed the cache, it is the time
      taken by the [sinfo] run of that call, whether or not [sacct] ran
      after it;
    - a call served from the cache changes nothing;
    - so along any sequence of calls it stays the duration of the latest
      [sinfo] invocation in the trace ([tracksSinfo] is kept by every
      call).
    The [sacct] scraper's duration is never reported. *)
Theorem ScrapeDuration_is_last_sinfo
        (go : GoRuntime) (f : GpuCollector.GpuFetcher) :
  (forall s,
     GpuCollector.ScrapeDuration f s = SlurmByteScraper.Duration (sinfoScraper s)) /\
  (forall s r s',
     GpuCollector.FetchMetrics f s = Some (r, s') ->
     cacheHit s = None ->
     GpuCollector.ScrapeDuration f s' =
       took (script (sinfoScraper s) (invocations (sinfoScraper s))) /\
     lastCall Sinfo (trace s') = Some (GpuCollector.ScrapeDuration f s')) /\
  (forall s r s' m,
     GpuCollector.FetchMetrics f s = Some (r, s') ->
     cacheHit s = Some m -> s' = s) /\
  (forall s r s',
     tracksSinfo s ->
     GpuCollector.FetchMetrics f s = Some (r, s') ->
     tracksSinfo s').
Proof.
  split; [|split; [|split]].
  - apply ScrapeDuration_eq.
  - intros s r s' H Hmiss. apply FetchMetrics_outcome in H.
    destruct H as [_ H]. rewrite ScrapeDuration_eq.
    exact (Called_miss_duration f s r s' Hmiss H).
  - intros s r s' m H Hhit. apply FetchMetrics_outcome in H.
    destruct H as [_ H]. inversion H; subst; congruence.
  - intros s r s' Hinv H. apply FetchMetrics_outcome in H.
    destruct H as [_ H].
    destruct (cacheHit s) as [m|] eqn:Hh.
    + inversion H; subst; try congruence. exact Hinv.
    + destruct (Called_miss_duration f s r s' Hh H) as [_ Hl].
      intros d Hd. unfold SlurmByteScraper.Duration. congruence.
Qed.

Lemma ScrapeDuration_is_last_sinfo_witness :
  exists r s',
    @GpuCollector.FetchMetrics Fragment.runtime GpuCollector.CliFallbackFetcher
       Samples.cliState = Some (r, s') /\
    GpuCollector.ScrapeDuration GpuCollector.CliFallbackFetcher s' = 1000000000 /\
    lastCall Sinfo (trace s') = Some 1000000000.
Proof.
  eexists. eexists.
  assert (E : @GpuCollector.FetchMetrics Fragment.runtime
                GpuCollector.CliFallbackFetcher Samples.cliState
              = Some (Ok (mkGpuMetrics 3%float 9%float 12%float 0.25%float),
                      store (mkGpuMetrics 3%float 9%float 12%float 0.25%float) 1000
                            (afterSacct (afterSinfo (lock Samples.cliState)))))
    by reflexivity.
  split; [exact E|].
  exact (proj1 (proj2 (ScrapeDuration_is_last_sinfo
                         Fragment.runtime GpuCollector.CliFallbackFetcher))
               _ _ _ E eq_refl).
Defined.

(** ** C7: letter case and order of the terms *)

Section SplitFacts.

Lemma Split_none (sep : ascii) (s : string) :
  hasByte sep s = false -> Split s sep = [s].
Proof.
induction s as [|c s IH]; cbn [Split hasByte]; intros H; [reflexivity|].
apply orb_false_iff in H. destruct H as [Hc Hs].
rewrite Hc, (IH Hs). reflexivity.
Qed.

(** Splitting at a separator that joins two strings: the parts of the
    first, then the parts of the second. *)
Lemma Split_app_sep (sep : ascii) (a b : string) :
  Split (a ++ String sep b) sep = (Split a sep ++ Split b sep)%list.
Proof.
induction a as [|c a IH]; cbn [append Split].
- rewrite Ascii.eqb_refl. reflexivity.
- rewrite IH. destruct (Ascii.eqb c sep); [reflexivity|].
  destruct (Split_cons a sep) as (p & ps & ->). reflexivity.
Qed.

Lemma Split_Join (sep : ascii) (ts : list string) :
  ts <> [] -> (forall t, In t ts -> hasByte sep t = false) ->
  Split (Join ts sep) sep = ts.
Proof.
induction ts as [|p ts IH]; intros Hne H; [congruence|].
destruct ts as [|q ts].
- cbn [Join]. apply Split_none, H. left. reflexivity.
- change (Join (p :: q :: ts) sep) with (p ++ String sep (Join (q :: ts) sep)).
  rewrite Split_app_sep, Split_none by (apply H; left; reflexivity).
  rewrite IH; [reflexivity|discriminate|].
  intros t Ht. apply H. right. exact Ht.
Qed.

Lemma hasByte_Join (c sep : ascii) (ts : list string) :
  Ascii.eqb sep c = false ->
  (forall t, In t ts -> hasByte c t = false) ->
  hasByte c (Join ts sep) = false.
Proof.
intros Hsep. induction ts as [|p ts IH]; intros H; [reflexivity|].
destruct ts as [|q ts].
- apply H. left. reflexivity.
- change (Join (p :: q :: ts) sep) with (p ++ String sep (Join (q :: ts) sep)).
  rewrite hasByte_app. cbn [hasByte]. rewrite Hsep.
  rewrite (H p (or_introl eq_refl)), IH; [reflexivity|].
  intros t Ht. apply H. right. exact Ht.
Qed.

Lemma hasByte_Join_sep (sep : ascii) (p q : string) (ts : list string) :
  hasByte sep (Join (p :: q :: ts) sep) = true.
Proof.
change (Join (p :: q :: ts) sep) with (p ++ String sep (Join (q :: ts) sep)).
rewrite hasByte_app. cbn [hasByte]. rewrite Ascii.eqb_refl.
apply orb_true_r.
Qed.

Lemma isSentinel_plain (s : string) :
  isSentinel s = true ->
  hasByte "," s = false /\ hasByte "=" s = false /\ hasByte ":" s = false.
Proof.
unfold isSentinel. intros H.
apply orb_true_iff in H. destruct H as [H|H];
  [apply orb_true_iff in H; destruct H as [H|H]|];
  apply String.eqb_eq in H; subst s; repeat split; reflexivity.
Qed.

End SplitFacts.

Section MarkerFacts.
Context {go : GoRuntime}.

Lemma find_byte_none (c : ascii) (s : string) :
  find s (String c EmptyString) = None <-> hasByte c s = false.
Proof.
induction s as [|b s IH]; cbn [find HasPrefix hasByte].
- tauto.
- rewrite HasPrefix_nil, andb_true_r, (Ascii.eqb_sym c b).
  destruct (Ascii.eqb b c); cbn [orb].
  + split; discriminate.
  + rewrite <- IH. destruct (find s (String c EmptyString)); cbn;
      split; congruence.
Qed.

Lemma stripIndex_find (g : string) :
  stripIndex g = match find g "(" with Some i => take i g | None => g end.
Proof.
unfold stripIndex, Index, slice_to.
destruct (find g "(") as [i|].
- replace (Z.of_nat i =? -1) with false by (symmetry; apply Z.eqb_neq; lia).
  cbn [negb]. rewrite Nat2Z.id. reflexivity.
- reflexivity.
Qed.

Lemma take_app_l (i : nat) (a b : string) :
  (i <= String.length a)%nat -> take i (a ++ b) = take i a.
Proof.
revert i. induction a as [|c a IH]; intros [|i] H; cbn in *;
  try reflexivity; try lia.
rewrite IH by lia. reflexivity.
Qed.

Lemma take_app_r (j : nat) (a b : string) :
  take (String.length a + j) (a ++ b) = a ++ take j b.
Proof.
induction a as [|c a IH]; cbn; [reflexivity|]. rewrite IH. reflexivity.
Qed.

Lemma find_app_l (c : ascii) (a b : string) (i : nat) :
  find a (String c EmptyString) = Some i ->
  find (a ++ b) (String c EmptyString) = Some i.
Proof.
revert i. induction a as [|d a IH]; intros i; cbn [append find HasPrefix].
- discriminate.
- rewrite !HasPrefix_nil, !andb_true_r.
  destruct (Ascii.eqb c d); [tauto|].
  destruct (find a (String c EmptyString)) as [j|]; [|discriminate].
  rewrite (IH j eq_refl). tauto.
Qed.

Lemma find_app_r (c : ascii) (a b : string) :
  hasByte c a = false ->
  find (a ++ b) (String c EmptyString)
  = option_map (Nat.add (String.length a)) (find b (String c EmptyString)).
Proof.
induction a as [|d a IH]; cbn [append find HasPrefix hasByte String.length];
  intros H.
- destruct (find b (String c EmptyString)); reflexivity.
- apply orb_false_iff in H. destruct H as [Hd Ha].
  rewrite HasPrefix_nil, andb_true_r, (Ascii.eqb_sym c d), Hd.
  rewrite (IH Ha). destruct (find b (String c EmptyString)); reflexivity.
Qed.

(** Cutting the index annotation off a concatenation. *)
Lemma stripIndex_app_l (a b : string) :
  hasByte "(" a = true -> stripIndex (a ++ b) = stripIndex a.
Proof.
intros H. rewrite !stripIndex_find.
destruct (find a "(") as [i|] eqn:E.
- rewrite (find_app_l _ _ b _ E). apply take_app_l.
  apply find_lt in E. lia.
- apply find_byte_none in E. congruence.
Qed.

Lemma stripIndex_app_r (a b : string) :
  hasByte "(" a = false -> stripIndex (a ++ b) = a ++ stripIndex b.
Proof.
intros H. rewrite !stripIndex_find, (find_app_r _ _ _ H).
destruct (find b "(") as [j|]; cbn [option_map]; [apply take_app_r|reflexivity].
Qed.

Lemma ToLower_app (a b : string) : ToLower (a ++ b) = ToLower a ++ ToLower b.
Proof.
induction a as [|c a IH]; cbn; [reflexivity|]. rewrite IH. reflexivity.
Qed.

Lemma HasPrefix_app (sub b : string) : HasPrefix (sub ++ b) sub = true.
Proof.
induction sub as [|c sub IH]; cbn.
- apply HasPrefix_nil.
- rewrite Ascii.eqb_refl. exact IH.
Qed.

Lemma Contains_app_r (a b sub : string) :
  Contains b sub = true -> Contains (a ++ b) sub = true.
Proof.
intros H. induction a as [|c a IH]; cbn [append Contains]; [exact H|].
rewrite IH. apply orb_true_r.
Qed.

Lemma Contains_mid (a b sub : string) : Contains (a ++ sub ++ b) sub = true.
Proof.
apply Contains_app_r. destruct (sub ++ b) eqn:E; cbn [Contains];
  rewrite <- E, HasPrefix_app; reflexivity.
Qed.

Lemma last_app {A} (l1 l2 : list A) (d : A) :
  l2 <> [] -> List.last (l1 ++ l2) d = List.last l2 d.
Proof.
intros H. induction l1 as [|a l1 IH]; [reflexivity|].
cbn [app]. destruct (l1 ++ l2)%list eqn:E.
- apply app_eq_nil in E. destruct E. congruence.
- exact IH.
Qed.

(** A marker: three letters that lower-case to [gpu]. *)
Lemma marker_shape (m : string) :
  ToLower m = "gpu" ->
  exists c1 c2 c3,
    m = String c1 (String c2 (String c3 EmptyString)) /\
    lowerByte c1 = "g"%char /\ lowerByte c2 = "p"%char /\ lowerByte c3 = "u"%char.
Proof.
destruct m as [|c1 [|c2 [|c3 [|c4 m]]]]; cbn; try discriminate.
intros [= H1 H2 H3]. eauto 10.
Qed.

Lemma lowerByte_letter (c : ascii) :
  lowerByte c = "g"%char \/ lowerByte c = "p"%char \/ lowerByte c = "u"%char ->
  isSpace c = false /\ Ascii.eqb c "(" = false.
Proof.
destruct c as [[] [] [] [] [] [] [] []]; cbv;
  intros [H|[H|H]]; try discriminate H; split; reflexivity.
Qed.

Lemma lowerByte_letter_low (c : ascii) :
  lowerByte c = "g"%char \/ lowerByte c = "p"%char \/ lowerByte c = "u"%char ->
  (nat_of_ascii c < 128)%nat.
Proof.
intros H. apply Nat.ltb_lt. revert H.
destruct c as [[] [] [] [] [] [] [] []]; cbv;
  intros [H|[H|H]]; try discriminate H; reflexivity.
Qed.

Lemma lowerByte_letter_sep (c : ascii) :
  lowerByte c = "g"%char \/ lowerByte c = "p"%char \/ lowerByte c = "u"%char ->
  Ascii.eqb c "," = false /\ Ascii.eqb c "=" = false.
Proof.
destruct c as [[] [] [] [] [] [] [] []]; cbv;
  intros [H|[H|H]]; try discriminate H; split; reflexivity.
Qed.

Lemma marker_no_sep (m : string) :
  ToLower m = "gpu" -> hasByte "," m = false /\ hasByte "=" m = false.
Proof.
intros H. destruct (marker_shape m H) as (c1 & c2 & c3 & -> & H1 & H2 & H3).
cbn [hasByte].
destruct (lowerByte_letter_sep c1 (or_introl H1)) as [-> ->].
destruct (lowerByte_letter_sep c2 (or_intror (or_introl H2))) as [-> ->].
destruct (lowerByte_letter_sep c3 (or_intror (or_intror H3))) as [-> ->].
split; reflexivity.
Qed.

Lemma marker_no_paren (m : string) :
  ToLower m = "gpu" -> hasByte "(" m = false.
Proof.
intros H. destruct (marker_shape m H) as (c1 & c2 & c3 & -> & H1 & H2 & H3).
cbn [hasByte].
rewrite (proj2 (lowerByte_letter c1 (or_introl H1))).
rewrite (proj2 (lowerByte_letter c2 (or_intror (or_introl H2)))).
rewrite (proj2 (lowerByte_letter c3 (or_intror (or_intror H3)))).
reflexivity.
Qed.

End MarkerFacts.

Section TokenCase.
Context {go : GoRuntime}.

(** Trimming a term around its marker. *)
Lemma TrimSpace_marker (pre m rest : string) :
  ToLower m = "gpu" ->
  TrimSpace (pre ++ m ++ ":" ++ rest)
  = TrimLeftSpace pre ++ m ++ ":" ++ TrimRightSpace rest.
Proof.
intros H. destruct (marker_shape m H) as (c1 & c2 & c3 & -> & H1 & H2 & H3).
unfold TrimSpace. cbn [append].
rewrite TrimLeftSpace_app
  by (try apply lowerByte_letter_low; try apply (lowerByte_letter c1); tauto).
change (TrimLeftSpace pre ++ String c1 (String c2 (String c3 (String ":" rest))))
  with (TrimLeftSpace pre ++ (String c1 (String c2 (String c3 EmptyString)))
                          ++ String ":" rest).
rewrite <- append_assoc, TrimRightSpace_app by (cbv; reflexivity || lia).
rewrite append_assoc. reflexivity.
Qed.

(** The quantity of a term with a marker: nothing when the index
    annotation starts before the marker, and otherwise the number after
    the last colon, whatever the letter case of the marker. *)
Lemma parseToken_marker (pre m rest : string) :
  ToLower m = "gpu" ->
  parseToken (pre ++ m ++ ":" ++ rest) =
  if hasByte "(" pre then singleGres pre
  else match ParseFloat (List.last (Split (stripIndex rest) ":") EmptyString) with
       | Some count => count
       | None => F64.zero
       end.
Proof.
intros H. unfold parseToken.
destruct (isSentinel (pre ++ m ++ ":" ++ rest)) eqn:Es.
{ apply isSentinel_plain in Es. destruct Es as (_ & _ & Es).
  rewrite !hasByte_app in Es. cbn in Es.
  rewrite !orb_true_r in Es. discriminate. }
destruct (hasByte "(" pre) eqn:Hp.
- unfold singleGres. rewrite (stripIndex_app_l _ _ Hp). reflexivity.
- unfold singleGres.
  rewrite (stripIndex_app_r _ _ Hp), (stripIndex_app_r _ _ (marker_no_paren m H)).
  rewrite (stripIndex_app_r ":" rest eq_refl).
  rewrite !ToLower_app, H, Contains_mid. cbn [negb].
  change (pre ++ m ++ ":" ++ stripIndex rest)
    with (pre ++ m ++ String ":" (stripIndex rest)).
  rewrite <- append_assoc, Split_app_sep.
  destruct (Split_cons (pre ++ m) ":") as (p & ps & ->).
  destruct (Split_cons (stripIndex rest) ":") as (q & qs & Eq).
  rewrite Eq.
  replace (Z.of_nat (List.length ((p :: ps) ++ q :: qs)) <? 2) with false
    by (symmetry; apply Z.ltb_ge; rewrite length_app; cbn; lia).
  rewrite last_app by discriminate. reflexivity.
Qed.

Lemma parseToken_marker_case (pre m m' rest : string) :
  ToLower m = "gpu" -> ToLower m' = "gpu" ->
  parseToken (pre ++ m ++ ":" ++ rest) = parseToken (pre ++ m' ++ ":" ++ rest).
Proof.
intros H H'. rewrite (parseToken_marker pre m rest H).
rewrite (parseToken_marker pre m' rest H'). reflexivity.
Qed.

Lemma termCount_marker_case (t t' : string) :
  markerCase t t' -> termCount t = termCount t' /\ parseToken t = parseToken t'.
Proof.
intros [->|(pre & m & m' & rest & -> & -> & H & H')]; [split; reflexivity|].
split; [|apply parseToken_marker_case; assumption].
unfold termCount. rewrite (TrimSpace_marker pre m rest H).
rewrite (TrimSpace_marker pre m' rest H').
apply parseToken_marker_case; assumption.
Qed.

(** A legacy list of two or more terms parses to the float64 sum, from
    left to right, of the quantities of its terms. *)
Lemma parseGresGpuCount_Join (p q : string) (ts : list string) :
  legacyTerms (p :: q :: ts) ->
  parseGresGpuCount (Join (p :: q :: ts) ",")
  = F64.sum (map termCount (p :: q :: ts)).
Proof.
intros H. unfold parseGresGpuCount. rewrite (parseGres_two O).
set (s := Join (p :: q :: ts) ",").
assert (Hcomma : hasByte "," s = true) by apply hasByte_Join_sep.
assert (Heq : hasByte "=" s = false).
{ apply hasByte_Join; [reflexivity|]. intros t Ht. apply (H t Ht). }
destruct (isSentinel s) eqn:Es.
{ apply isSentinel_plain in Es. destruct Es as [Es _]. congruence. }
rewrite !Contains_byte, Heq, Hcomma.
unfold s. rewrite Split_Join; [|discriminate|intros t Ht; apply (H t Ht)].
unfold F64.sum. rewrite <- fold_add_map. reflexivity.
Qed.

Lemma parseGresGpuCount_single (t : string) :
  legacyTerms [t] -> parseGresGpuCount t = parseToken t.
Proof.
intros H. destruct (H t (or_introl eq_refl)) as [Hc He].
apply parseGresGpuCount_token; assumption.
Qed.

End TokenCase.

Section LegacyLists.
Context {go : GoRuntime}.

Lemma markerCase_legacy (t t' : string) :
  markerCase t t' ->
  hasByte "," t = false /\ hasByte "=" t = false ->
  hasByte "," t' = false /\ hasByte "=" t' = false.
Proof.
intros [->|(pre & m & m' & rest & -> & -> & H & H')]; [tauto|].
destruct (marker_no_sep m H) as [Hc He].
destruct (marker_no_sep m' H') as [Hc' He'].
rewrite !hasByte_app, Hc, He, Hc', He'. tauto.
Qed.

Lemma Forall2_markerCase_legacy (ts ts' : list string) :
  Forall2 markerCase ts ts' -> legacyTerms ts -> legacyTerms ts'.
Proof.
intros H. induction H as [|t t' ts ts' Ht Hts IH]; intros L u Hu.
- destruct Hu.
- destruct Hu as [<-|Hu].
  + apply (markerCase_legacy t t' Ht). apply L. left. reflexivity.
  + apply IH; [|exact Hu]. intros v Hv. apply L. right. exact Hv.
Qed.

Lemma Forall2_markerCase_counts (ts ts' : list string) :
  Forall2 markerCase ts ts' -> map termCount ts = map termCount ts'.
Proof.
intros H. induction H as [|t t' ts ts' Ht Hts IH]; [reflexivity|].
cbn [map]. rewrite IH, (proj1 (termCount_marker_case t t' Ht)). reflexivity.
Qed.

(** The letter case of the markers does not matter in a legacy list. *)
Lemma legacy_case_insensitive (ts ts' : list string) :
  legacyTerms ts -> Forall2 markerCase ts ts' ->
  parseGresGpuCount (Join ts ",") = parseGresGpuCount (Join ts' ",").
Proof.
intros L H. pose proof (Forall2_markerCase_legacy ts ts' H L) as L'.
pose proof (Forall2_markerCase_counts ts ts' H) as E.
destruct H as [|t t' ts ts' Ht Hts]; [reflexivity|].
destruct Hts as [|u u' ts ts' Hu Hts].
- cbn [Join]. rewrite (parseGresGpuCount_single t L).
  rewrite (parseGresGpuCount_single t' L').
  exact (proj2 (termCount_marker_case t t' Ht)).
- rewrite (parseGresGpuCount_Join t u ts L).
  rewrite (parseGresGpuCount_Join t' u' ts' L'). rewrite E. reflexivity.
Qed.

(** The two terms of a legacy list can be exchanged. *)
Lemma legacy_swap (t1 t2 : string) :
  legacyTerms [t1; t2] ->
  parseGresGpuCount (Join [t1; t2] ",") = parseGresGpuCount (Join [t2; t1] ",").
Proof.
intros L.
assert (L' : legacyTerms [t2; t1]).
{ intros t [<-|[<-|[]]]; apply L; cbn; tauto. }
rewrite (parseGresGpuCount_Join t1 t2 [] L).
rewrite (parseGresGpuCount_Join t2 t1 [] L').
apply sum_two_comm.
Qed.

(** A legacy list whose terms hold small non-negative integers parses to
    the sum of the integers. *)
Lemma legacy_integer_sum (q : string -> Z) (t u : string) (ts : list string) :
  legacyTerms (t :: u :: ts) ->
  (forall v, In v (t :: u :: ts) -> 0 <= q v /\ termCount v = F64.of_Z (q v)) ->
  F64.Zsum (map q (t :: u :: ts)) < 2 ^ 53 ->
  parseGresGpuCount (Join (t :: u :: ts) ",")
  = F64.of_Z (F64.Zsum (map q (t :: u :: ts))).
Proof.
intros L Hq Hb. rewrite (parseGresGpuCount_Join t u ts L).
replace (map termCount (t :: u :: ts))
  with (map F64.of_Z (map q (t :: u :: ts))).
- apply sum_of_Z; [|exact Hb].
  apply Forall_forall. intros n Hn. apply in_map_iff in Hn.
  destruct Hn as (v & <- & Hv). apply (Hq v Hv).
- rewrite map_map. apply map_ext_in. intros v Hv. symmetry. apply (Hq v Hv).
Qed.

(** The terms of such a list can be written in any order. *)
Lemma legacy_integer_order (q : string -> Z) (ts ts' : list string) :
  legacyTerms ts -> Permutation ts ts' ->
  (forall v, In v ts -> 0 <= q v /\ termCount v = F64.of_Z (q v)) ->
  F64.Zsum (map q ts) < 2 ^ 53 ->
  parseGresGpuCount (Join ts ",") = parseGresGpuCount (Join ts' ",").
Proof.
intros L P Hq Hb.
assert (L' : legacyTerms ts').
{ intros v Hv. apply L. apply (Permutation_in v (Permutation_sym P) Hv). }
assert (Hq' : forall v, In v ts' -> 0 <= q v /\ termCount v = F64.of_Z (q v)).
{ intros v Hv. apply Hq. apply (Permutation_in v (Permutation_sym P) Hv). }
assert (E : F64.Zsum (map q ts) = F64.Zsum (map q ts'))
  by (apply Zsum_Permutation, Permutation_map, P).
destruct ts as [|t [|u ts]].
- apply Permutation_nil in P. subst ts'. reflexivity.
- apply Permutation_length_1_inv in P. subst ts'. reflexivity.
- destruct ts' as [|t' [|u' ts']];
    try (apply Permutation_length in P; discriminate P).
  rewrite (legacy_integer_sum q t u ts L Hq Hb).
  rewrite (legacy_integer_sum q t' u' ts' L' Hq') by (rewrite <- E; exact Hb).
  rewrite E. reflexivity.
Qed.

End LegacyLists.

(** Two lists of the same TRES terms in different order parse to different
    quantities, since the first [gres/gpu] key wins; and the key is
    matched in lower case only. *)
Lemma tres_order_and_case_matter :
  @parseGresGpuCount Fragment.runtime
     (Join ["gres/gpu=2"; "gres/gpu:tesla=1"] ",") = 2%float /\
  @parseGresGpuCount Fragment.runtime
     (Join ["gres/gpu:tesla=1"; "gres/gpu=2"] ",") = 1%float /\
  PrimFloat.eqb 2%float 1%float = false /\
  @parseGresGpuCount Fragment.runtime "gres/gpu=2" = 2%float /\
  @parseGresGpuCount Fragment.runtime "gres/GPU=2" = 0%float.
Proof. repeat split; reflexivity. Qed.

(** With three terms the float64 sum of a legacy list can depend on the
    order of the terms. *)
Lemma legacy_sum_order_matters :
  PrimFloat.eqb
    (@parseGresGpuCount Fragment.runtime (Join ["gpu:0.1"; "gpu:0.2"; "gpu:0.3"] ","))
    (@parseGresGpuCount Fragment.runtime (Join ["gpu:0.3"; "gpu:0.2"; "gpu:0.1"] ","))
  = false.
Proof. reflexivity. Qed.

(** C7 (amended).  For legacy GRES lists, that is comma-separated terms
    without ['=']:
    - a list of two or more terms parses to the float64 sum, from left to
      right, of the quantities of its trimmed terms;
    - changing the letter case of a [gpu] marker (the resource name in
      front of a [':']) in any of the terms does not change the result;
    - exchanging the two terms of a two-term list does not change the
      result;
    - when the terms hold non-negative integers whose sum is below [2^53],
      a list of two or more terms parses to exactly that sum, and the
      terms can be written in any order;
    - with one and two as [ParseFloat] reads them,
      ["gpu:2,gpu:tesla:1"] and ["gpu:tesla:1,gpu:2"] both parse to [3].
    In the TRES form neither holds ([tres_order_and_case_matter]), and
    with three or more terms that are not integers the float64 sum may
    depend on the order ([legacy_sum_order_matters]). *)
Theorem legacy_case_and_order (go : GoRuntime) :
  (forall p q ts,
     legacyTerms (p :: q :: ts) ->
     parseGresGpuCount (Join (p :: q :: ts) ",")
     = F64.sum (map termCount (p :: q :: ts))) /\
  (forall ts ts',
     legacyTerms ts -> Forall2 markerCase ts ts' ->
     parseGresGpuCount (Join ts ",") = parseGresGpuCount (Join ts' ",")) /\
  (forall t1 t2,
     legacyTerms [t1; t2] ->
     parseGresGpuCount (Join [t1; t2] ",") = parseGresGpuCount (Join [t2; t1] ",")) /\
  (forall (n : string -> Z) ts ts',
     legacyTerms ts -> Permutation ts ts' ->
     (forall t, In t ts -> 0 <= n t /\ termCount t = F64.of_Z (n t)) ->
     F64.Zsum (map n ts) < 2 ^ 53 ->
     parseGresGpuCount (Join ts ",") = parseGresGpuCount (Join ts' ",") /\
     ((2 <= List.length ts)%nat ->
      parseGresGpuCount (Join ts ",") = F64.of_Z (F64.Zsum (map n ts)))) /\
  (ParseFloat "1" = Some 1%float -> ParseFloat "2" = Some 2%float ->
   parseGresGpuCount "gpu:2,gpu:tesla:1" = 3%float /\
   parseGresGpuCount "gpu:tesla:1,gpu:2" = 3%float).
Proof.
split; [|split; [|split; [|split]]].
- apply parseGresGpuCount_Join.
- apply legacy_case_insensitive.
- apply legacy_swap.
- intros n ts ts' L P Hn Hb. split.
  + exact (legacy_integer_order n ts ts' L P Hn Hb).
  + intros Hlen. destruct ts as [|t [|u ts]]; cbn in Hlen; try lia.
    exact (legacy_integer_sum n t u ts L Hn Hb).
- intros H1 H2.
  assert (L : legacyTerms ["gpu:2"; "gpu:tesla:1"]).
  { intros t [<-|[<-|[]]]; split; reflexivity. }
  assert (E : parseGresGpuCount "gpu:2,gpu:tesla:1" = 3%float).
  { change "gpu:2,gpu:tesla:1" with (Join ["gpu:2"; "gpu:tesla:1"] ",").
    rewrite (parseGresGpuCount_Join _ _ _ L).
    cbv -[ParseFloat PrimFloat.add]. rewrite H1, H2. reflexivity. }
  split; [exact E|].
  change "gpu:tesla:1,gpu:2" with (Join ["gpu:tesla:1"; "gpu:2"] ",").
  rewrite <- (legacy_swap _ _ L). exact E.
Qed.

Lemma legacy_case_and_order_witness :
  @parseGresGpuCount Fragment.runtime "gpu:2,gpu:tesla:1" = 3%float /\
  @parseGresGpuCount Fragment.runtime "gpu:tesla:1,gpu:2" = 3%float /\
  @parseGresGpuCount Fragment.runtime (Join ["GPU:2"; "gpu:Tesla:1(IDX:0)"] ",")
  = @parseGresGpuCount Fragment.runtime (Join ["gpu:2"; "Gpu:Tesla:1(IDX:0)"] ",") /\
  @parseGresGpuCount Fragment.runtime
     (Join ["gpu:1"; "gpu:a100:2(IDX:0-1)"; " gpu:4"] ",")
  = @parseGresGpuCount Fragment.runtime
     (Join [" gpu:4"; "gpu:1"; "gpu:a100:2(IDX:0-1)"] ",") /\
  @parseGresGpuCount Fragment.runtime
     (Join ["gpu:1"; "gpu:a100:2(IDX:0-1)"; " gpu:4"] ",") = 7%float.
Proof.
pose proof (legacy_case_and_order Fragment.runtime) as (_ & Hcase & _ & Hint & Hex).
destruct (Hex eq_refl eq_refl) as [E1 E2].
split; [exact E1|]. split; [exact E2|]. split.
- apply Hcase.
  + intros t [<-|[<-|[]]]; split; reflexivity.
  + constructor.
    * right. exists EmptyString, "GPU", "gpu", "2". repeat split; reflexivity.
    * constructor; [|constructor].
      right. exists EmptyString, "gpu", "Gpu", "Tesla:1(IDX:0)".
      repeat split; reflexivity.
- set (n := fun t : string =>
              if String.eqb t "gpu:1" then 1
              else if String.eqb t "gpu:a100:2(IDX:0-1)" then 2 else 4).
  assert (L : legacyTerms ["gpu:1"; "gpu:a100:2(IDX:0-1)"; " gpu:4"]).
  { intros t [<-|[<-|[<-|[]]]]; split; reflexivity. }
  assert (P : Permutation ["gpu:1"; "gpu:a100:2(IDX:0-1)"; " gpu:4"]
                          [" gpu:4"; "gpu:1"; "gpu:a100:2(IDX:0-1)"]).
  { apply Permutation_sym.
    apply (Permutation_cons_app ["gpu:1"; "gpu:a100:2(IDX:0-1)"] []).
    rewrite app_nil_r. apply Permutation_refl. }
  assert (Hn : forall t, In t ["gpu:1"; "gpu:a100:2(IDX:0-1)"; " gpu:4"] ->
                 0 <= n t /\ @termCount Fragment.runtime t = F64.of_Z (n t)).
  { intros t [<-|[<-|[<-|[]]]]; split; solve [vm_compute; congruence | reflexivity]. }
  assert (Hb : F64.Zsum (map n ["gpu:1"; "gpu:a100:2(IDX:0-1)"; " gpu:4"]) < 2 ^ 53)
    by reflexivity.
  destruct (Hint n _ _ L P Hn Hb) as [Eo Es].
  split; [exact Eo|]. rewrite Es by (cbn; lia). reflexivity.
Defined.

(** ** C9: concurrent callers *)

Section BackingFacts.
Context {go : GoRuntime}.

(** The outcome of a fetch depends on the state only through the two
    scrapers, and so do the scrapers it leaves behind. *)
Lemma fetch_ext (f : GpuCollector.GpuFetcher) (s s' : State) :
  sinfoScraper s = sinfoScraper s' -> sacctScraper s = sacctScraper s' ->
  fst (GpuCollector.fetch f s) = fst (GpuCollector.fetch f s') /\
  sinfoScraper (snd (GpuCollector.fetch f s))
    = sinfoScraper (snd (GpuCollector.fetch f s')) /\
  sacctScraper (snd (GpuCollector.fetch f s))
    = sacctScraper (snd (GpuCollector.fetch f s')).
Proof.
intros H1 H2.
assert (E1 : sinfoOutput s = sinfoOutput s') by (unfold sinfoOutput; now rewrite H1).
assert (E2 : sacctOutput (afterSinfo s) = sacctOutput (afterSinfo s'))
  by (unfold sacctOutput; cbn; now rewrite H2).
assert (A1 : sinfoScraper (afterSinfo s) = sinfoScraper (afterSinfo s'))
  by (cbn; now rewrite H1).
assert (A2 : sacctScraper (afterSacct (afterSinfo s))
             = sacctScraper (afterSacct (afterSinfo s')))
  by (cbn; now rewrite H2).
destruct f; cbn [GpuCollector.fetch].
- unfold GpuJsonFetcher.fetch, GpuJsonFetcher.fetchTotalGpus,
    GpuJsonFetcher.fetchAllocatedGpus, try_, bind, ret.
  rewrite !sinfoFetchRawBytes_eq, <- E1.
  destruct (sinfoOutput s) as [raw|e]; [|cbn; auto].
  destruct (UnmarshalSinfo raw) as [resp|e]; [|cbn; auto].
  destruct (0 <? Z.of_nat (List.length (sinfo_Errors resp))).
  { rewrite !logEach_eq. cbn. auto. }
  rewrite !sacctFetchRawBytes_eq, <- E2.
  destruct (sacctOutput (afterSinfo s)) as [raw2|e]; [|cbn; auto].
  destruct (UnmarshalSacct raw2) as [resp2|e]; [|cbn; auto].
  destruct (0 <? Z.of_nat (List.length (sacct_Errors resp2))).
  { rewrite !logEach_eq. cbn. auto. }
  cbn. auto.
- unfold GpuCliFallbackFetcher.fetch, GpuCliFallbackFetcher.fetchTotalGpus,
    GpuCliFallbackFetcher.fetchAllocatedGpus, try_, bind, ret.
  rewrite !sinfoFetchRawBytes_eq, <- E1.
  destruct (sinfoOutput s) as [raw|e]; [|cbn; auto].
  destruct (len (TrimSpace raw) =? 0).
  + rewrite !sacctFetchRawBytes_eq, <- E2.
    destruct (sacctOutput (afterSinfo s)) as [raw2|e]; [|cbn; auto].
    destruct (len (TrimSpace raw2) =? 0); cbn; auto.
  + destruct (ReadAll (TrimSpace raw)) as [records|e]; [|cbn; auto].
    rewrite !sacctFetchRawBytes_eq, <- E2.
    destruct (sacctOutput (afterSinfo s)) as [raw2|e]; [|cbn; auto].
    destruct (len (TrimSpace raw2) =? 0); cbn; auto.
Qed.

End BackingFacts.

Section StatusFacts.

Lemma setStatus_count (p : Status -> bool) (i : nat) (old new : Status)
      (gs : list Status) :
  nth_error gs i = Some old ->
  (List.length (filter p (setStatus i new gs)) + (if p old then 1 else 0)
   = List.length (filter p gs) + (if p new then 1 else 0))%nat.
Proof.
revert i. induction gs as [|g gs IH]; intros [|i] H; cbn in H; try discriminate.
- injection H as ->. cbn [setStatus filter].
  destruct (p old), (p new); cbn [List.length]; lia.
- cbn [setStatus filter]. specialize (IH i H).
  destruct (p g); cbn [List.length]; lia.
Qed.

Lemma setStatus_Forall (P : Status -> Prop) (i : nat) (st : Status)
      (gs : list Status) :
  Forall P gs -> P st -> Forall P (setStatus i st gs).
Proof.
intros H Hst. revert i. induction H as [|g gs Hg Hgs IH]; intros [|i];
  cbn [setStatus]; constructor; auto.
Qed.

Lemma nth_error_Forall (P : Status -> Prop) (i : nat) (st : Status)
      (gs : list Status) :
  Forall P gs -> nth_error gs i = Some st -> P st.
Proof.
intros H E. rewrite Forall_forall in H. apply H.
exact (nth_error_In gs i E).
Qed.

Lemma filter_repeat_Waiting (p : Status -> bool) (n : nat) :
  p Waiting = false -> filter p (repeat Waiting n) = [].
Proof.
intros H. induction n as [|n IH]; cbn [repeat filter]; [reflexivity|].
rewrite H. exact IH.
Qed.

Lemma filter_none (p : Status -> bool) (gs : list Status) :
  List.length (filter p gs) = O -> Forall (fun st => p st = false) gs.
Proof.
induction gs as [|g gs IH]; cbn [filter]; intros H; [constructor|].
destruct (p g) eqn:E; [discriminate|]. constructor; auto.
Qed.

Lemma filter_fetching_inside (gs : list Status) :
  (countFetching gs <= countInside gs)%nat.
Proof.
unfold countFetching, countInside.
induction gs as [|g gs IH]; cbn [filter]; [lia|].
destruct g; cbn [fetching inside List.length]; lia.
Qed.

End StatusFacts.

Section MutualExclusion.
Variable fetch : M (result GpuMetrics).

Lemma step_mutexInv (c : Config) (ev : Event) (c' : Config) :
  mutexInv c -> step fetch c ev c' -> mutexInv c'.
Proof.
unfold mutexInv. intros Inv H.
destruct H as [s gs i Hi Hm|s gs i m Hi Hh|s gs i Hi Hh
              |s gs i t0 e s2 Hi Hf|s gs i t0 m s2 Hi Hf|s gs d Hd];
  cbn [shared goroutines] in *.
- pose proof (setStatus_count inside i Waiting Holding gs Hi) as E.
  unfold countInside in *. rewrite Hm in Inv. cbn in *. lia.
- pose proof (setStatus_count inside i Holding (Returned (Ok m)) gs Hi) as E.
  unfold countInside in *. cbn in *.
  destruct (gpuCache.Mutex (cache s)); lia.
- pose proof (setStatus_count inside i Holding (Fetching (now s)) gs Hi) as E.
  unfold countInside in *. cbn in *. lia.
- pose proof (setStatus_count inside i (Fetching t0) (Returned (Err e)) gs Hi) as E.
  unfold countInside in *. cbn in *.
  destruct (gpuCache.Mutex (cache s)); lia.
- pose proof (setStatus_count inside i (Fetching t0) (Returned (Ok m)) gs Hi) as E.
  unfold countInside in *. cbn in *.
  destruct (gpuCache.Mutex (cache s)); lia.
- exact Inv.
Qed.

Lemma run_mutexInv (c : Config) (k : Z) (c' : Config) :
  mutexInv c -> run fetch c k c' -> mutexInv c'.
Proof.
intros Inv H. induction H as [|c k c1 ev c2 H IH Hs]; [exact Inv|].
exact (step_mutexInv c1 ev c2 (IH Inv) Hs).
Qed.

Lemma callers_mutexInv (n : nat) (s : State) :
  gpuCache.Mutex (cache s) = false -> mutexInv (callers n s).
Proof.
intros H. unfold mutexInv, callers, countInside. cbn [shared goroutines].
rewrite H, filter_repeat_Waiting; reflexivity.
Qed.

End MutualExclusion.

Section OneRefresh.
Context {go : GoRuntime}.
Variable f : GpuCollector.GpuFetcher.
Variable s0 : State.
Variable m : GpuMetrics.
Variable K : Z.

Hypothesis stale : staleFor K s0.
Hypothesis succeeds : fst (GpuCollector.fetch f s0) = Ok m.
Hypothesis window : withinTTL K (gpuCache.limit (cache s0)).

Lemma cacheHit_sameBacking (s : State) (k : Z) :
  sameBacking s0 s -> now s = now s0 + k -> 0 <= k <= K -> cacheHit s = None.
Proof.
intros (_ & _ & Hc & Ht & Hl) Hn Hk.
rewrite <- (stale k Hk). unfold cacheHit, at_time. cbn.
rewrite Hc, Ht, Hl, Hn. reflexivity.
Qed.

(** A fetch that succeeds has run both commands once. *)
Lemma fetch_ok_state (s : State) (m' : GpuMetrics) (s2 : State) :
  GpuCollector.fetch f s = (Ok m', s2) -> s2 = afterSacct (afterSinfo s).
Proof.
intros H. destruct f; cbn [GpuCollector.fetch] in H.
- apply GpuJsonFetcher_fetch_outcome in H.
  inversion H as [| |tg s1 ag s2' Ht Ha]; subst.
  inversion Ht; subst; inversion Ha; subst; reflexivity.
- apply GpuCliFallbackFetcher_fetch_outcome in H.
  inversion H as [| |tg s1 ag s2' Ht Ha]; subst.
  inversion Ht; subst; inversion Ha; subst; reflexivity.
Qed.

Lemma fetch_sameBacking (s : State) (r : result GpuMetrics) (s2 : State) :
  sameBacking s0 s -> GpuCollector.fetch f s = (r, s2) ->
  r = Ok m /\ s2 = afterSacct (afterSinfo s).
Proof.
intros (H1 & H2 & _) H.
destruct (fetch_ext f s s0 H1 H2) as (E & _).
rewrite H, succeeds in E. cbn in E. subst r.
split; [reflexivity|]. exact (fetch_ok_state s m s2 H).
Qed.

Lemma hit_afterRefresh (k : Z) (c : Config) :
  k <= K -> afterRefresh s0 m k c -> cacheHit (shared c) = Some m.
Proof.
intros Hk (Hc & Hl & Ht & _). apply cacheHit_Some. split; [exact Hc|].
rewrite Hl.
replace (GoTime.Sub (now (shared c)) (gpuCache.t (cache (shared c))))
  with (GoTime.Sub (now (shared c) - gpuCache.t (cache (shared c))) 0)
  by (unfold GoTime.Sub; now rewrite Z.sub_0_r).
apply window. lia.
Qed.

Lemma ticks_nonneg (c : Config) (ev : Event) (c' : Config) :
  step (GpuCollector.fetch f) c ev c' -> 0 <= ticks ev.
Proof. intros []; cbn; lia. Qed.

Lemma run_ticks_nonneg (c : Config) (k : Z) (c' : Config) :
  run (GpuCollector.fetch f) c k c' -> 0 <= k.
Proof.
intros H. induction H as [|c k c1 ev c2 H IH Hs]; [lia|].
pose proof (ticks_nonneg _ _ _ Hs). lia.
Qed.

(** One step keeps the run before the refresh, or completes the refresh,
    or keeps it after the refresh. *)
Lemma step_phases (k : Z) (c : Config) (ev : Event) (c' : Config) :
  0 <= k -> k + ticks ev <= K ->
  mutexInv c ->
  beforeRefresh s0 k c \/ afterRefresh s0 m k c ->
  step (GpuCollector.fetch f) c ev c' ->
  beforeRefresh s0 (k + ticks ev) c' \/ afterRefresh s0 m (k + ticks ev) c'.
Proof.
intros Hk0 HkK Hmx Inv H.
pose proof (ticks_nonneg _ _ _ H) as Hev.
destruct Inv as [(Hb & Hn & Hr)|Ha].
- (* before the refresh *)
  destruct H as [s gs i Hi Hm|s gs i m' Hi Hh|s gs i Hi Hh
                |s gs i t0 e s2 Hi Hf|s gs i t0 m' s2 Hi Hf|s gs d Hd];
    cbn [shared goroutines ticks] in *.
  + left. split; [exact Hb|]. split; [cbn; lia|]. now apply setStatus_Forall.
  + rewrite (cacheHit_sameBacking s k Hb Hn) in Hh by lia. discriminate.
  + left. split; [exact Hb|]. split; [cbn; lia|]. now apply setStatus_Forall.
  + destruct (fetch_sameBacking s _ _ Hb Hf) as [E _]. discriminate.
  + destruct (fetch_sameBacking s _ _ Hb Hf) as [E ->].
    injection E as ->. right.
    destruct Hb as (H1 & H2 & _ & _ & Hl).
    unfold afterRefresh, store. cbn. rewrite H1, H2, Hl.
    repeat split; try reflexivity; try lia.
    (* only the caller [i] was inside: the others are waiting *)
    pose proof (setStatus_count inside i (Fetching t0) (Returned (Ok m)) gs Hi) as E.
    unfold mutexInv, countInside in Hmx. cbn [shared goroutines] in Hmx.
    cbn [inside] in E.
    assert (Hout : Forall (fun st => inside st = false)
                          (setStatus i (Returned (Ok m)) gs)).
    { apply filter_none.
      destruct (gpuCache.Mutex (cache s)); lia. }
    assert (Hret : Forall (fun st => returned st = false \/ st = Returned (Ok m))
                          (setStatus i (Returned (Ok m)) gs)).
    { apply setStatus_Forall; [|tauto].
      eapply Forall_impl; [|exact Hr]. tauto. }
    rewrite Forall_forall in *. intros st Hin.
    specialize (Hout st Hin). specialize (Hret st Hin).
    destruct st; cbn in Hout, Hret; try discriminate; [auto|].
    destruct Hret as [Hx|Hx]; [discriminate|]. rewrite Hx. auto.
  + left. split; [exact Hb|]. split; [cbn; lia|exact Hr].
- (* after the refresh *)
  assert (Hhit : cacheHit (shared c) = Some m)
    by (apply (hit_afterRefresh k); [lia|exact Ha]).
  destruct Ha as (Hc & Hl & Ht & Hi1 & Hi2 & Hst).
  right.
  destruct H as [s gs i Hi Hm|s gs i m' Hi Hh|s gs i Hi Hh
                |s gs i t0 e s2 Hi Hf|s gs i t0 m' s2 Hi Hf|s gs d Hd];
    cbn [shared goroutines ticks] in *.
  + unfold afterRefresh. cbn.
    repeat split; try assumption; try lia.
    apply setStatus_Forall; [exact Hst|auto].
  + rewrite Hhit in Hh. injection Hh as <-.
    unfold afterRefresh. cbn.
    repeat split; try assumption; try lia.
    apply setStatus_Forall; [exact Hst|auto].
  + congruence.
  + destruct (nth_error_Forall _ _ _ _ Hst Hi) as [E|[E|E]]; discriminate.
  + destruct (nth_error_Forall _ _ _ _ Hst Hi) as [E|[E|E]]; discriminate.
  + unfold afterRefresh. cbn.
    repeat split; try assumption; lia.
Qed.

End OneRefresh.

Section OneRefreshRuns.
Context {go : GoRuntime}.
Variable f : GpuCollector.GpuFetcher.

Lemma setStatus_length (i : nat) (st : Status) (gs : list Status) :
  List.length (setStatus i st gs) = List.length gs.
Proof.
revert i. induction gs as [|g gs IH]; intros [|i]; cbn; auto.
Qed.

Lemma step_length (c : Config) (ev : Event) (c' : Config) :
  step (GpuCollector.fetch f) c ev c' ->
  List.length (goroutines c') = List.length (goroutines c).
Proof. intros []; cbn; try apply setStatus_length; reflexivity. Qed.

Lemma run_length (c : Config) (k : Z) (c' : Config) :
  run (GpuCollector.fetch f) c k c' ->
  List.length (goroutines c') = List.length (goroutines c).
Proof.
intros H. induction H as [|c k c1 ev c2 H IH Hs]; [reflexivity|].
rewrite (step_length _ _ _ Hs). exact IH.
Qed.

Lemma run_phases (s0 : State) (m : GpuMetrics) (K : Z) (n : nat)
      (k : Z) (c : Config) :
  staleFor K s0 ->
  fst (GpuCollector.fetch f s0) = Ok m ->
  withinTTL K (gpuCache.limit (cache s0)) ->
  gpuCache.Mutex (cache s0) = false ->
  run (GpuCollector.fetch f) (callers n s0) k c -> k <= K ->
  mutexInv c /\ (beforeRefresh s0 k c \/ afterRefresh s0 m k c).
Proof.
intros Hstale Hok Hwin Hm H.
remember (callers n s0) as c0 eqn:E0.
induction H as [c|c k c1 ev c2 H IH Hs]; intros HK; subst.
- split; [apply callers_mutexInv, Hm|]. left. split; [|split].
  + repeat split; reflexivity.
  + cbn. lia.
  + cbn. apply Forall_forall. intros st Hst.
    apply repeat_spec in Hst. subst st. reflexivity.
- pose proof (ticks_nonneg f _ _ _ Hs) as Hev.
  pose proof (run_ticks_nonneg f _ _ _ H) as Hk.
  destruct (IH eq_refl) as [Hmx Hph]; [lia|].
  split; [exact (step_mutexInv _ _ _ _ Hmx Hs)|].
  exact (step_phases f s0 m K Hstale Hok Hwin k _ _ _ Hk HK Hmx Hph Hs).
Qed.

(** One goroutine running alone takes the steps of [FetchMetrics]. *)
Lemma solo_run (s : State) (r : result GpuMetrics) (s' : State) :
  GpuCollector.FetchMetrics f s = Some (r, s') ->
  run (GpuCollector.fetch f) (callers 1 s) 0 (mkConfig s' [Returned r]).
Proof.
intros H. apply FetchMetrics_outcome in H. destruct H as [Hm H].
assert (L : run (GpuCollector.fetch f) (callers 1 s) 0
                (mkConfig (lock s) [Holding])).
{ apply (run_step _ _ 0 _ (EvLock 0) _ (run_nil _ _)).
  apply (step_lock _ s [Waiting] 0); [reflexivity|exact Hm]. }
destruct H as [m Hh|e s2 Hmiss Hf|m s2 Hmiss Hf].
- apply (run_step _ _ 0 _ (EvHit 0) _ L).
  rewrite <- (unlock_lock s Hm) at 2.
  apply (step_hit _ (lock s) [Holding] 0 m); [reflexivity|exact Hh].
- assert (L2 : run (GpuCollector.fetch f) (callers 1 s) 0
                   (mkConfig (lock s) [Fetching (now s)])).
  { apply (run_step _ _ 0 _ (EvMiss 0) _ L).
    apply (step_miss _ (lock s) [Holding] 0); [reflexivity|exact Hmiss]. }
  apply (run_step _ _ 0 _ (EvFetched 0) _ L2).
  apply (step_failed _ (lock s) [Fetching (now s)] 0 (now s) e s2);
    [reflexivity|exact Hf].
- assert (L2 : run (GpuCollector.fetch f) (callers 1 s) 0
                   (mkConfig (lock s) [Fetching (now s)])).
  { apply (run_step _ _ 0 _ (EvMiss 0) _ L).
    apply (step_miss _ (lock s) [Holding] 0); [reflexivity|exact Hmiss]. }
  apply (run_step _ _ 0 _ (EvFetched 0) _ L2).
  apply (step_fetched _ (lock s) [Fetching (now s)] 0 (now s) m s2);
    [reflexivity|exact Hf].
Qed.

End OneRefreshRuns.

Section FetchCounts.
Context {go : GoRuntime}.
Variable f : GpuCollector.GpuFetcher.

Lemma fetch_invocations (s : State) (r : result GpuMetrics) (s2 : State) :
  GpuCollector.fetch f s = (r, s2) ->
  invocations (sinfoScraper s2) = S (invocations (sinfoScraper s)).
Proof. intros H. rewrite (fetch_sinfo f s r s2 H). reflexivity. Qed.

(** A failed fetch leaves the cache entry as it was; so does the [Unlock]
    that follows. *)
Lemma step_failed_entry (c : Config) (i : nat) (c' : Config) (e : error) :
  step (GpuCollector.fetch f) c (EvFetched i) c' ->
  nth_error (goroutines c') i = Some (Returned (Err e)) ->
  gpuCache.cache (cache (shared c')) = gpuCache.cache (cache (shared c)) /\
  gpuCache.t (cache (shared c')) = gpuCache.t (cache (shared c)) /\
  gpuCache.limit (cache (shared c')) = gpuCache.limit (cache (shared c)).
Proof.
intros H Hi.
inversion H as [| | |s gs j t0 e' s2 Hj Hf|s gs j t0 m s2 Hj Hf|]; subst;
  cbn [shared goroutines] in *.
- unfold unlock. cbn. rewrite (fetch_cache f s _ s2 Hf). auto.
- exfalso. revert Hi. clear - Hj. revert i Hj.
  induction gs as [|g gs IH]; intros [|i] Hj Hi; cbn in *; try discriminate.
  eauto.
Qed.

(** Each fetch runs [sinfo] once: the callers that have returned an error
    have each run it, and no more runs were made than callers have
    returned. *)
Lemma step_counts (n0 : nat) (c : Config) (ev : Event) (c' : Config) :
  (n0 + countFailed (goroutines c) <= invocations (sinfoScraper (shared c))
   <= n0 + countReturned (goroutines c))%nat ->
  step (GpuCollector.fetch f) c ev c' ->
  (n0 + countFailed (goroutines c') <= invocations (sinfoScraper (shared c'))
   <= n0 + countReturned (goroutines c'))%nat.
Proof.
unfold countFailed, countReturned. intros Inv H.
destruct H as [s gs i Hi Hm|s gs i m' Hi Hh|s gs i Hi Hh
              |s gs i t0 e s2 Hi Hf|s gs i t0 m' s2 Hi Hf|s gs d Hd];
  cbn [shared goroutines] in *.
- pose proof (setStatus_count failed i Waiting Holding gs Hi) as E1.
  pose proof (setStatus_count returned i Waiting Holding gs Hi) as E2.
  cbn in *. lia.
- pose proof (setStatus_count failed i Holding (Returned (Ok m')) gs Hi) as E1.
  pose proof (setStatus_count returned i Holding (Returned (Ok m')) gs Hi) as E2.
  cbn in *. lia.
- pose proof (setStatus_count failed i Holding (Fetching (now s)) gs Hi) as E1.
  pose proof (setStatus_count returned i Holding (Fetching (now s)) gs Hi) as E2.
  cbn in *. lia.
- pose proof (setStatus_count failed i (Fetching t0) (Returned (Err e)) gs Hi) as E1.
  pose proof (setStatus_count returned i (Fetching t0) (Returned (Err e)) gs Hi) as E2.
  pose proof (fetch_invocations s _ s2 Hf) as E3.
  cbn in *. lia.
- pose proof (setStatus_count failed i (Fetching t0) (Returned (Ok m')) gs Hi) as E1.
  pose proof (setStatus_count returned i (Fetching t0) (Returned (Ok m')) gs Hi) as E2.
  pose proof (fetch_invocations s _ s2 Hf) as E3.
  cbn in *. lia.
- exact Inv.
Qed.

Lemma run_counts (n : nat) (s0 : State) (k : Z) (c : Config) :
  run (GpuCollector.fetch f) (callers n s0) k c ->
  (invocations (sinfoScraper s0) + countFailed (goroutines c)
   <= invocations (sinfoScraper (shared c))
   <= invocations (sinfoScraper s0) + countReturned (goroutines c))%nat.
Proof.
intros H. remember (callers n s0) as c0 eqn:E0.
induction H as [c|c k c1 ev c2 H IH Hs]; subst.
- unfold countFailed, countReturned. cbn [callers shared goroutines].
  rewrite !filter_repeat_Waiting by reflexivity. cbn. lia.
- exact (step_counts _ _ _ _ (IH eq_refl) Hs).
Qed.

Lemma filter_all (p : Status -> bool) (gs : list Status) :
  Forall (fun st => p st = true) gs -> filter p gs = gs.
Proof.
induction 1 as [|g gs Hg _ IH]; cbn [filter]; [reflexivity|].
rewrite Hg, IH. reflexivity.
Qed.

Lemma failed_returned (st : Status) : failed st = true -> returned st = true.
Proof. destruct st as [| | |[|]]; cbn; congruence. Qed.

End FetchCounts.

(** A refresh after the entry has expired, with two callers waiting, while
    the [sinfo] command fails: the first caller's refresh stores nothing,
    so the second caller, once it gets the mutex, finds the same expired
    entry and runs [sinfo] again.  Both return the error and [sinfo] has
    run twice. *)
Lemma failed_refresh_scrapes_again :
  exists m c,
    gpuCache.cache (cache Samples.staleFailing) = Some m /\
    cacheHit Samples.staleFailing = None /\
    run (@GpuCollector.fetch Fragment.runtime GpuCollector.JsonFetcher)
        (callers 2 Samples.staleFailing) 0 c /\
    goroutines c = [Returned (Err "exit status 1"); Returned (Err "exit status 1")] /\
    invocations (sinfoScraper Samples.staleFailing) = 0%nat /\
    invocations (sinfoScraper (shared c)) = 2%nat /\
    gpuCache.cache (cache (shared c)) = Some m.
Proof.
set (fetch := @GpuCollector.fetch Fragment.runtime GpuCollector.JsonFetcher).
set (e := "exit status 1" : error).
set (s1 := unlock (afterSinfo (lock Samples.staleFailing))).
set (s2 := unlock (afterSinfo (lock s1))).
exists (deriveMetrics 12%float 3%float), (mkConfig s2 [Returned (Err e); Returned (Err e)]).
split; [reflexivity|]. split; [reflexivity|]. split.
{ change 0 with (0 + ticks (EvLock 0) + ticks (EvMiss 0) + ticks (EvFetched 0)
                 + ticks (EvLock 1) + ticks (EvMiss 1) + ticks (EvFetched 1)).
  eapply run_step; [eapply run_step; [eapply run_step; [eapply run_step;
    [eapply run_step; [eapply run_step; [apply run_nil|]|]|]|]|]|].
  - apply (step_lock fetch Samples.staleFailing [Waiting; Waiting] 0); reflexivity.
  - apply (step_miss fetch (lock Samples.staleFailing) [Holding; Waiting] 0);
      reflexivity.
  - apply (step_failed fetch (lock Samples.staleFailing)
             [Fetching 20000000000; Waiting] 0 20000000000 e
             (afterSinfo (lock Samples.staleFailing))); reflexivity.
  - apply (step_lock fetch s1 [Returned (Err e); Waiting] 1); reflexivity.
  - apply (step_miss fetch (lock s1) [Returned (Err e); Holding] 1); reflexivity.
  - apply (step_failed fetch (lock s1)
             [Returned (Err e); Fetching 20000000005] 1 20000000005 e
             (afterSinfo (lock s1))); reflexivity. }
repeat split; reflexivity.
Qed.

(** C9.  For either fetcher variant and any number [n] of goroutines
    calling [FetchMetrics] on one fetcher whose mutex is free:
    - in every configuration an interleaving can reach, the mutex is held
      exactly when one goroutine is between [Lock] and [Unlock], so at most
      one fetch, hence at most one scraper invocation, is in flight;
    - [Lock] returns only when the mutex is free: a caller that arrives
      during a refresh waits;
    - if the entry of the cache, which may hold a snapshot, has expired and
      stays expired for the [K] nanoseconds the clock ticks in all, the
      refresh succeeds with snapshot [m], and the cache test still succeeds
      [K] nanoseconds after a store, then each scraper runs at most once
      during the whole run, and once all [n >= 1] callers have returned
      each scraper has run exactly once and every caller has received [m];
    - a refresh that fails stores nothing: the entry is the one of before,
      each caller that has returned an error has run [sinfo] itself, and
      when all [n] callers have returned an error [sinfo] has run [n]
      times; in no run does [sinfo] run more often than callers have
      returned;
    - a goroutine running alone takes exactly the steps of the sequential
      [FetchMetrics]. *)
Theorem single_flight (go : GoRuntime) (f : GpuCollector.GpuFetcher) :
  (forall s0 n k c,
     gpuCache.Mutex (cache s0) = false ->
     run (GpuCollector.fetch f) (callers n s0) k c ->
     mutexInv c /\ (countInside (goroutines c) <= 1)%nat /\
     (countFetching (goroutines c) <= 1)%nat) /\
  (forall c i c',
     step (GpuCollector.fetch f) c (EvLock i) c' ->
     gpuCache.Mutex (cache (shared c)) = false) /\
  (forall s0 m K n c,
     gpuCache.Mutex (cache s0) = false ->
     staleFor K s0 ->
     fst (GpuCollector.fetch f s0) = Ok m ->
     withinTTL K (gpuCache.limit (cache s0)) ->
     run (GpuCollector.fetch f) (callers n s0) K c ->
     (invocations (sinfoScraper (shared c)) <= S (invocations (sinfoScraper s0)))%nat /\
     (invocations (sacctScraper (shared c)) <= S (invocations (sacctScraper s0)))%nat /\
     (Forall (fun st => returned st = true) (goroutines c) -> (0 < n)%nat ->
      invocations (sinfoScraper (shared c)) = S (invocations (sinfoScraper s0)) /\
      invocations (sacctScraper (shared c)) = S (invocations (sacctScraper s0)) /\
      Forall (fun st => st = Returned (Ok m)) (goroutines c))) /\
  (forall c i c' e,
     step (GpuCollector.fetch f) c (EvFetched i) c' ->
     nth_error (goroutines c') i = Some (Returned (Err e)) ->
     gpuCache.cache (cache (shared c')) = gpuCache.cache (cache (shared c)) /\
     gpuCache.t (cache (shared c')) = gpuCache.t (cache (shared c)) /\
     gpuCache.limit (cache (shared c')) = gpuCache.limit (cache (shared c))) /\
  (forall s0 n k c,
     run (GpuCollector.fetch f) (callers n s0) k c ->
     (invocations (sinfoScraper s0) + countFailed (goroutines c)
      <= invocations (sinfoScraper (shared c))
      <= invocations (sinfoScraper s0) + countReturned (goroutines c))%nat /\
     (Forall (fun st => failed st = true) (goroutines c) ->
      invocations (sinfoScraper (shared c))
      = (invocations (sinfoScraper s0) + n)%nat)) /\
  (forall s r s',
     GpuCollector.FetchMetrics f s = Some (r, s') ->
     run (GpuCollector.fetch f) (callers 1 s) 0 (mkConfig s' [Returned r])).
Proof.
split; [|split; [|split; [|split; [|split]]]].
- intros s0 n k c Hm H.
  pose proof (run_mutexInv _ _ _ _ (callers_mutexInv n s0 Hm) H) as Inv.
  split; [exact Inv|].
  assert (Hle : (countInside (goroutines c) <= 1)%nat).
  { unfold mutexInv in Inv. rewrite Inv.
    destruct (gpuCache.Mutex (cache (shared c))); lia. }
  split; [exact Hle|].
  pose proof (filter_fetching_inside (goroutines c)). lia.
- intros c i c' H. inversion H; subst. assumption.
- intros s0 m K n c Hm Hstale Hok Hwin H.
  destruct (run_phases f s0 m K n K c Hstale Hok Hwin Hm H (Z.le_refl K))
    as [_ [(Hb & _ & Hr)|Ha]].
  + destruct Hb as (H1 & H2 & _). rewrite H1, H2.
    split; [lia|]. split; [lia|].
    intros Hall Hn. exfalso.
    pose proof (run_length f _ _ _ H) as Hlen.
    cbn in Hlen. rewrite repeat_length in Hlen.
    destruct (goroutines c) as [|st gs]; [cbn in Hlen; lia|].
    inversion Hall; subst. inversion Hr; subst. congruence.
  + destruct Ha as (_ & _ & _ & Hi1 & Hi2 & Hst).
    rewrite Hi1, Hi2. split; [lia|]. split; [lia|].
    intros Hall _. split; [reflexivity|]. split; [reflexivity|].
    rewrite Forall_forall in *. intros st Hin.
    specialize (Hall st Hin). destruct (Hst st Hin) as [E|[E|E]];
      subst st; try discriminate. reflexivity.
- intros c i c' e. apply step_failed_entry.
- intros s0 n k c H.
  pose proof (run_counts f n s0 k c H) as Hc.
  split; [exact Hc|].
  intros Hall.
  pose proof (run_length f _ _ _ H) as Hlen.
  cbn in Hlen. rewrite repeat_length in Hlen.
  unfold countFailed, countReturned in Hc.
  rewrite (filter_all failed _ Hall) in Hc.
  rewrite (filter_all returned (goroutines c)) in Hc
    by (eapply Forall_impl; [|exact Hall]; apply failed_returned).
  lia.
- apply solo_run.
Qed.

Lemma single_flight_witness :
  exists old c,
    gpuCache.cache (cache Samples.staleJson) = Some old /\
    cacheHit Samples.staleJson = None /\
    run (@GpuCollector.fetch Fragment.runtime GpuCollector.JsonFetcher)
        (callers 3 Samples.staleJson) 2 c /\
    invocations (sinfoScraper (shared c)) = 1%nat /\
    invocations (sacctScraper (shared c)) = 1%nat /\
    goroutines c
    = repeat (Returned (Ok (mkGpuMetrics 3%float 9%float 12%float 0.25%float))) 3.
Proof.
pose proof (proj1 (proj2 (proj2 (single_flight Fragment.runtime
                                   GpuCollector.JsonFetcher)))) as T.
set (fetch := @GpuCollector.fetch Fragment.runtime GpuCollector.JsonFetcher).
set (m := mkGpuMetrics 3%float 9%float 12%float 0.25%float).
set (sa := at_time 20000000001 (lock Samples.staleJson)).
set (s1 := store m 20000000001 (afterSacct (afterSinfo sa))).
set (sb := at_time 23000000002 (lock s1)).
set (s2 := unlock sb).
set (s3 := unlock (lock s2)).
assert (R : run fetch (callers 3 Samples.staleJson)
              (0 + ticks (EvLock 1) + ticks (EvTick 1) + ticks (EvMiss 1)
               + ticks (EvFetched 1)
               + ticks (EvLock 0) + ticks (EvTick 1) + ticks (EvHit 0)
               + ticks (EvLock 2) + ticks (EvHit 2))
              (mkConfig s3 [Returned (Ok m); Returned (Ok m); Returned (Ok m)])).
{ eapply run_step; [eapply run_step; [eapply run_step; [eapply run_step;
    [eapply run_step; [eapply run_step; [eapply run_step; [eapply run_step;
    [eapply run_step; [apply run_nil|]|]|]|]|]|]|]|]|].
  - apply (step_lock fetch Samples.staleJson [Waiting; Waiting; Waiting] 1);
      reflexivity.
  - apply (step_tick fetch (lock Samples.staleJson) [Waiting; Holding; Waiting] 1).
    lia.
  - apply (step_miss fetch sa [Waiting; Holding; Waiting] 1); reflexivity.
  - apply (step_fetched fetch sa [Waiting; Fetching 20000000001; Waiting] 1
             20000000001 m (afterSacct (afterSinfo sa))); reflexivity.
  - apply (step_lock fetch s1 [Waiting; Returned (Ok m); Waiting] 0); reflexivity.
  - apply (step_tick fetch (lock s1) [Holding; Returned (Ok m); Waiting] 1). lia.
  - apply (step_hit fetch sb [Holding; Returned (Ok m); Waiting] 0 m);
      reflexivity.
  - apply (step_lock fetch s2 [Returned (Ok m); Returned (Ok m); Waiting] 2);
      reflexivity.
  - apply (step_hit fetch (lock s2)
             [Returned (Ok m); Returned (Ok m); Holding] 2 m); reflexivity. }
exists (deriveMetrics 8%float 8%float),
       (mkConfig s3 [Returned (Ok m); Returned (Ok m); Returned (Ok m)]).
split; [reflexivity|]. split; [reflexivity|]. split; [exact R|].
assert (S : staleFor 2 Samples.staleJson).
{ intros d Hd.
  assert (E : d = 0 \/ d = 1 \/ d = 2) by lia.
  destruct E as [-> | [-> | ->]]; reflexivity. }
assert (W : withinTTL 2 (gpuCache.limit (cache Samples.staleJson))).
{ intros d Hd.
  assert (E : d = 0 \/ d = 1 \/ d = 2) by lia.
  destruct E as [-> | [-> | ->]]; reflexivity. }
destruct (T Samples.staleJson m 2 3%nat _ eq_refl S eq_refl W R)
  as (_ & _ & Hall).
destruct Hall as (H1 & H2 & _).
- repeat constructor.
- lia.
- split; [exact H1|]. split; [exact H2|reflexivity].
Defined.

(** * Further properties *)

(** *** Sums are never the negative zero *)

(** A shift by fewer bits than the mantissa has leaves a positive
    mantissa. *)
Lemma iter_shr_1_pos (k : nat) (m : positive) (r s : bool) :
  (Z.of_nat k < Zpos (digits2_pos m)) ->
  exists m', shr_m (Nat.iter k shr_1 (Build_shr_record (Zpos m) r s)) = Zpos m'.
Proof.
revert m r s. induction k as [|k IH]; intros m r s H.
- exists m. reflexivity.
- rewrite Nat.iter_succ_r.
  destruct m as [p|p|]; cbn [shr_1 digits2_pos] in *.
  + apply IH. lia.
  + apply IH. lia.
  + lia.
Qed.

Lemma shr_fexp_pos (m : positive) (e : Z) (l : location) :
  emin <= e ->
  exists m', shr_m (fst (shr_fexp prec emax (Zpos m) e l)) = Zpos m' /\
             emin <= snd (shr_fexp prec emax (Zpos m) e l).
Proof.
intros He. unfold shr_fexp, shr. cbn [Zdigits2].
set (rec := shr_record_of_loc (Zpos m) l).
assert (Hrec : exists r s, rec = Build_shr_record (Zpos m) r s).
{ unfold rec. destruct l as [|[]]; cbn; eauto. }
destruct Hrec as (r & s & ->).
destruct (fexp prec emax (Zpos (digits2_pos m) + e) - e) as [|p|p] eqn:E;
  cbn [fst snd].
- exists m. split; [reflexivity|exact He].
- rewrite iter_pos_nat.
  destruct (iter_shr_1_pos (Pos.to_nat p) m r s) as [m' Hm'].
  + unfold fexp, SpecFloat.emin, prec, emax in *. lia.
  + exists m'. split; [exact Hm'|lia].
- exists m. split; [reflexivity|exact He].
Qed.

(** Rounding a positive mantissa at an exponent the format has never
    gives a zero: no underflow. *)
Lemma binary_round_aux_not_zero (sx : bool) (m : positive) (e : Z) (l : location) :
  emin <= e ->
  F64.sf_not_negzero (binary_round_aux prec emax sx (Zpos m) e l) = true.
Proof.
intros He. unfold binary_round_aux.
destruct (shr_fexp_pos m e l He) as (m1 & H1 & He1).
destruct (shr_fexp prec emax (Zpos m) e l) as [mrs' e'].
cbn [fst snd] in H1, He1. rewrite H1.
assert (Hr : exists m2, round_nearest_even (Zpos m1) (loc_of_shr_record mrs') = Zpos m2).
{ destruct (loc_of_shr_record mrs') as [|[]]; cbn [round_nearest_even];
    try destruct (Z.even (Zpos m1)); cbn [Z.add]; eauto. }
destruct Hr as [m2 ->].
destruct (shr_fexp_pos m2 e' loc_Exact He1) as (m3 & H3 & _).
destruct (shr_fexp prec emax (Zpos m2) e' loc_Exact) as [mrs'' e''].
cbn [fst] in H3. rewrite H3.
destruct (e'' <=? emax - prec); reflexivity.
Qed.

Lemma binary_normalize_not_negzero (m e : Z) :
  emin <= e ->
  F64.sf_not_negzero (binary_normalize prec emax m e false) = true.
Proof.
intros He.
assert (G : forall s p,
  F64.sf_not_negzero (binary_round prec emax s p e) = true).
{ intros s p. unfold binary_round, shl_align.
  destruct (fexp prec emax (Zpos (digits2_pos p) + e) - e) as [|d|d] eqn:E;
    apply binary_round_aux_not_zero; trivial.
  unfold fexp, SpecFloat.emin, prec, emax in *. lia. }
destruct m as [|p|p]; cbn [binary_normalize]; [reflexivity|apply G|apply G].
Qed.

Lemma valid_emin (s : bool) (m : positive) (e : Z) :
  valid_binary (S754_finite s m e) = true -> emin <= e.
Proof.
cbn [valid_binary]. unfold bounded, canonical_mantissa, fexp, SpecFloat.emin, prec, emax.
intros H. apply andb_prop in H. destruct H as [H _].
apply Z.eqb_eq in H. lia.
Qed.

(** [x + y] is the negative zero only if [x] is. *)
Lemma SFadd_not_negzero (x y : spec_float) :
  valid_binary x = true -> valid_binary y = true ->
  F64.sf_not_negzero x = true ->
  F64.sf_not_negzero (SF64add x y) = true.
Proof.
intros Vx Vy Hx.
destruct x as [sx|sx| |sx mx ex], y as [sy|sy| |sy my ey];
  try destruct sx; try destruct sy; try discriminate Hx; try reflexivity.
all: unfold SF64add, SFadd; apply binary_normalize_not_negzero;
  apply valid_emin in Vx; apply valid_emin in Vy; lia.
Qed.

Lemma add_not_negzero (x y : float) :
  F64.sf_not_negzero (Prim2SF x) = true ->
  F64.sf_not_negzero (Prim2SF (PrimFloat.add x y)) = true.
Proof.
intros H. rewrite FloatAxioms.add_spec.
apply SFadd_not_negzero; [apply Prim2SF_valid|apply Prim2SF_valid|exact H].
Qed.

Lemma add_zero_r (x : float) :
  F64.sf_not_negzero (Prim2SF x) = true -> PrimFloat.add x F64.zero = x.
Proof.
intros H. apply Prim2SF_inj. rewrite FloatAxioms.add_spec.
change (Prim2SF F64.zero) with (S754_zero false).
apply SFadd_zero_r, H.
Qed.

(** Terms that are [+0] can be left out of an accumulation. *)
Lemma fold_add_skip_zero {A} (g : A -> float) (keep : A -> bool) (l : list A) (acc : float) :
  (forall x, In x l -> keep x = false -> g x = F64.zero) ->
  F64.sf_not_negzero (Prim2SF acc) = true ->
  fold_left PrimFloat.add (map g l) acc
  = fold_left PrimFloat.add (map g (filter keep l)) acc.
Proof.
revert acc. induction l as [|x l IH]; intros acc Hz Ha; [reflexivity|].
cbn [map filter fold_left].
destruct (keep x) eqn:K.
- cbn [map fold_left]. apply IH.
  + intros y Hy. apply Hz. right. exact Hy.
  + apply add_not_negzero, Ha.
- rewrite (Hz x (or_introl eq_refl) K), add_zero_r by exact Ha.
  apply IH; [|exact Ha]. intros y Hy. apply Hz. right. exact Hy.
Qed.

Lemma sum_skip_zero {A} (g : A -> float) (keep : A -> bool) (l : list A) :
  (forall x, In x l -> keep x = false -> g x = F64.zero) ->
  F64.sum (map g l) = F64.sum (map g (filter keep l)).
Proof. intros H. apply fold_add_skip_zero; [exact H|reflexivity]. Qed.

(** *** Comparing small integers *)

Lemma digits_lower (p : positive) : 2 ^ (Zpos (digits2_pos p) - 1) <= Zpos p.
Proof.
induction p as [p IH|p IH|]; cbn [digits2_pos].
- rewrite Pos2Z.inj_succ.
  replace (Z.succ (Zpos (digits2_pos p)) - 1) with (Z.succ (Zpos (digits2_pos p) - 1)) by lia.
  rewrite Z.pow_succ_r by lia. lia.
- rewrite Pos2Z.inj_succ.
  replace (Z.succ (Zpos (digits2_pos p)) - 1) with (Z.succ (Zpos (digits2_pos p) - 1)) by lia.
  rewrite Z.pow_succ_r by lia. lia.
- cbn. lia.
Qed.

Lemma digits_upper (p : positive) : Zpos p < 2 ^ Zpos (digits2_pos p).
Proof.
induction p as [p IH|p IH|]; cbn [digits2_pos].
- rewrite Pos2Z.inj_succ, Z.pow_succ_r by lia. lia.
- rewrite Pos2Z.inj_succ, Z.pow_succ_r by lia. lia.
- cbn. lia.
Qed.

Lemma digits_mono (a b : positive) :
  Zpos (digits2_pos a) < Zpos (digits2_pos b) -> Zpos a < Zpos b.
Proof.
intros H. pose proof (digits_upper a) as Ha. pose proof (digits_lower b) as Hb.
assert (2 ^ Zpos (digits2_pos a) <= 2 ^ (Zpos (digits2_pos b) - 1))
  by (apply Z.pow_le_mono_r; lia).
lia.
Qed.

Lemma shl_compare (k : nat) (a b : positive) :
  Pos.compare (F64.shl k a) (F64.shl k b) = Pos.compare a b.
Proof.
induction k as [|k IH]; [reflexivity|].
change (F64.shl (S k) ?m) with (xO (F64.shl k m)). exact IH.
Qed.

Lemma SFcompare_canon (a b : positive) :
  SFcompare (F64.canon a) (F64.canon b) = Some (Pos.compare a b).
Proof.
unfold F64.canon. cbn [SFcompare].
destruct (Z.compare_spec (Zpos (digits2_pos a) - 53) (Zpos (digits2_pos b) - 53))
  as [E|L|G].
- assert (E' : digits2_pos a = digits2_pos b) by lia.
  rewrite E'. change (Pos.compare_cont Eq) with Pos.compare.
  rewrite shl_compare. reflexivity.
- f_equal. symmetry. apply Pos.compare_lt_iff.
  pose proof (digits_mono a b). lia.
- f_equal. symmetry. apply Pos.compare_gt_iff.
  pose proof (digits_mono b a). lia.
Qed.

Lemma SFltb_of_Z (a b : Z) :
  0 <= a -> 0 <= b -> SFltb (F64.sf_of_Z a) (F64.sf_of_Z b) = (a <? b).
Proof.
intros Ha Hb. unfold SFltb.
destruct a as [|a|a], b as [|b|b]; try lia; try reflexivity.
cbn [F64.sf_of_Z]. rewrite SFcompare_canon.
unfold Z.ltb. cbn [Z.compare]. reflexivity.
Qed.

(** On integers below [2^53] the float64 comparison is the integer one. *)
Lemma lt_of_Z (a b : Z) :
  0 <= a < 2 ^ 53 -> 0 <= b < 2 ^ 53 ->
  F64.lt (F64.of_Z a) (F64.of_Z b) = (a <? b).
Proof.
intros Ha Hb. unfold F64.lt. rewrite FloatAxioms.ltb_spec.
rewrite !Prim2SF_of_Z by assumption. apply SFltb_of_Z; lia.
Qed.

Lemma of_Z_not_negzero (a : Z) :
  0 <= a < 2 ^ 53 -> F64.sf_not_negzero (Prim2SF (F64.of_Z a)) = true.
Proof.
intros H. rewrite Prim2SF_of_Z by exact H.
destruct a; reflexivity.
Qed.

(** *** Durations in seconds *)

(** A whole number of seconds is converted exactly. *)
Lemma Seconds_whole (k : Z) :
  0 <= k < 2 ^ 53 -> GoTime.Seconds (k * GoTime.Second) = F64.of_Z k.
Proof.
intros H. unfold GoTime.Seconds.
rewrite Z.quot_mul, Z.rem_mul by (unfold GoTime.Second; lia).
change (PrimFloat.div (F64.of_Z 0) 1e9%float) with F64.zero.
apply add_zero_r, of_Z_not_negzero, H.
Qed.

Lemma of_Z_nonneg (z : Z) :
  0 <= z -> F64.sf_nonneg (Prim2SF (F64.of_Z z)) = true.
Proof.
intros H. unfold F64.of_Z.
replace (z <? 0) with false by (symmetry; apply Z.ltb_ge; exact H).
rewrite of_uint63_spec. apply binary_normalize_nonneg.
apply Uint63.to_Z_bounded.
Qed.

(** A quotient of a value [>= 0] by a positive finite one is [>= 0]. *)
Lemma SFdiv_nonneg (x : spec_float) (my : positive) (ey : Z) :
  F64.sf_nonneg x = true ->
  F64.sf_nonneg (SF64div x (S754_finite false my ey)) = true.
Proof.
destruct x as [sx|sx| |sx mx ex]; try destruct sx; intros H;
  try discriminate H; try reflexivity.
unfold SF64div, SFdiv, SFdiv_core_binary.
set (m' := match _ - _ - _ with Z0 => Zpos mx | Zpos _ => _ | Zneg _ => 0 end).
assert (Hm : 0 <= m').
{ unfold m'. destruct (_ - _ - _); [lia| |lia]. apply Z.shiftl_nonneg. lia. }
pose proof (Z.div_pos m' (Zpos my) Hm eq_refl) as Hq.
unfold Z.div in Hq.
destruct (Z.div_eucl m' (Zpos my)) as [q r].
cbn [xorb]. apply binary_round_aux_nonneg. exact Hq.
Qed.

Lemma Seconds_nonneg (d : Duration) :
  0 <= d -> F64.sf_nonneg (Prim2SF (GoTime.Seconds d)) = true.
Proof.
intros H. unfold GoTime.Seconds.
rewrite FloatAxioms.add_spec. apply SFadd_nonneg.
- apply of_Z_nonneg. apply Z.quot_pos; [exact H|unfold GoTime.Second; lia].
- rewrite FloatAxioms.div_spec.
  change (Prim2SF 1e9%float) with (S754_finite false 8388608000000000 (-23)).
  apply SFdiv_nonneg, of_Z_nonneg.
  apply Z.rem_nonneg; [unfold GoTime.Second; lia|exact H].
Qed.

(** A value [>= 0] is not below a limit that is not above zero (a limit
    that is zero, negative or not a number). *)
Lemma lt_nonneg_limit (x limit : float) :
  F64.sf_nonneg (Prim2SF x) = true ->
  F64.lt F64.zero limit = false ->
  F64.lt x limit = false.
Proof.
unfold F64.lt, F64.zero. rewrite !FloatAxioms.ltb_spec.
change (Prim2SF 0%float) with (S754_zero false).
destruct (Prim2SF x) as [sx|sx| |sx mx ex], (Prim2SF limit) as [sl|sl| |sl ml el];
  try destruct sx; try destruct sl; cbn; intros H1 H2;
  try discriminate; try reflexivity.
Qed.

(** *** Differences and quotients of consistent totals *)

Lemma shl_val (k : nat) (m : positive) : Zpos (F64.shl k m) = Zpos m * 2 ^ Z.of_nat k.
Proof.
induction k as [|k IH]; [cbn; lia|].
change (F64.shl (S k) m) with (xO (F64.shl k m)).
rewrite Pos2Z.inj_xO, IH, Nat2Z.inj_succ, Z.pow_succ_r by lia. lia.
Qed.

(** The mantissa of a binary64 value has at most 53 bits, and exactly 53
    above the least exponent. *)
Lemma valid_digits (s : bool) (m : positive) (e : Z) :
  valid_binary (S754_finite s m e) = true ->
  Zpos (digits2_pos m) <= 53 /\ (emin < e -> Zpos (digits2_pos m) = 53).
Proof.
cbn [valid_binary]. unfold bounded, canonical_mantissa, fexp, SpecFloat.emin, prec, emax.
intros H. apply andb_prop in H. destruct H as [H _].
apply Z.eqb_eq in H. lia.
Qed.

(** A difference [x - y] of values with [0 <= y <= x < +Inf] is [>= 0]. *)
Lemma SFsub_nonneg (x y : spec_float) :
  valid_binary x = true -> valid_binary y = true ->
  F64.sf_nonneg y = true -> SFleb y x = true ->
  SFltb x (S754_infinity false) = true ->
  F64.sf_nonneg (SF64sub x y) = true.
Proof.
intros Vx Vy Hy Hle Hfin.
destruct x as [sx|sx| |sx mx ex], y as [sy|sy| |sy my ey];
  try destruct sx; try destruct sy;
  try discriminate Hy; try discriminate Hle; try discriminate Hfin;
  try reflexivity.
unfold SF64sub, SFsub. apply binary_normalize_nonneg.
cbn [cond_Zopp].
destruct (valid_digits _ _ _ Vx) as [Dx Dx'].
destruct (valid_digits _ _ _ Vy) as [Dy Dy'].
pose proof (valid_emin _ _ _ Vy) as Ey.
unfold SFleb in Hle. cbn [SFcompare] in Hle.
destruct (Z.compare_spec ey ex) as [E|L|G]; [| |discriminate Hle].
- subst ey. rewrite Z.min_id.
  rewrite !shl_align_shl by lia. cbn [fst].
  replace (Z.to_nat (ex - ex)) with O by lia.
  change (F64.shl 0 mx) with mx. change (F64.shl 0 my) with my.
  change (Pos.compare_cont Eq my mx) with (Pos.compare my mx) in Hle.
  destruct (Pos.compare_spec my mx) as [E|L|G]; try discriminate Hle; lia.
- replace (Z.min ex ey) with ey by lia.
  rewrite !shl_align_shl by lia. cbn [fst].
  replace (Z.to_nat (ey - ey)) with O by lia.
  change (F64.shl 0 my) with my.
  rewrite shl_val.
  pose proof (digits_lower mx) as Lx. pose proof (digits_upper my) as Uy.
  rewrite Dx' in Lx by (unfold SpecFloat.emin, prec, emax in *; lia).
  assert (2 ^ Zpos (digits2_pos my) <= 2 ^ 53) by (apply Z.pow_le_mono_r; lia).
  assert (2 ^ 1 <= 2 ^ Z.of_nat (Z.to_nat (ex - ey)))
    by (apply Z.pow_le_mono_r; lia).
  change (2 ^ (53 - 1)) with 4503599627370496 in Lx.
  change (2 ^ 53) with 9007199254740992 in *.
  change (2 ^ 1) with 2 in *.
  nia.
Qed.

Lemma sub_nonneg (x y : float) :
  F64.le F64.zero y = true -> F64.le y x = true ->
  F64.lt x PrimFloat.infinity = true ->
  F64.le F64.zero (PrimFloat.sub x y) = true.
Proof.
rewrite !le_zero_spec. unfold F64.le, F64.lt.
rewrite FloatAxioms.leb_spec, FloatAxioms.ltb_spec, FloatAxioms.sub_spec.
change (Prim2SF PrimFloat.infinity) with (S754_infinity false).
apply SFsub_nonneg; apply Prim2SF_valid.
Qed.

(** A quotient [y / x] of values with [0 <= y], [0 < x < +Inf] is [>= 0]. *)
Lemma div_nonneg (x y : float) :
  F64.le F64.zero y = true -> F64.gt x F64.zero = true ->
  F64.lt x PrimFloat.infinity = true ->
  F64.le F64.zero (PrimFloat.div y x) = true.
Proof.
rewrite !le_zero_spec. unfold F64.gt, F64.lt, F64.zero.
rewrite !FloatAxioms.ltb_spec, FloatAxioms.div_spec.
change (Prim2SF PrimFloat.infinity) with (S754_infinity false).
change (Prim2SF 0%float) with (S754_zero false).
intros Hy Hx Hfin.
destruct (Prim2SF x) as [sx|sx| |sx mx ex];
  try destruct sx; try discriminate Hx; try discriminate Hfin.
apply SFdiv_nonneg, Hy.
Qed.

(** *** Subtraction is exact on small integers *)

Lemma shl_minus (k : nat) (a b : positive) :
  (b < a)%positive ->
  Zpos (F64.shl k a) - Zpos (F64.shl k b) = Zpos (F64.shl k (a - b)).
Proof.
intros H. rewrite !shl_val. rewrite Pos2Z.inj_sub by exact H. lia.
Qed.

Lemma SFsub_canon (a b : positive) :
  Zpos a < 2 ^ 53 -> (b < a)%positive ->
  SF64sub (F64.canon a) (F64.canon b) = F64.canon (a - b).
Proof.
intros H Hlt.
assert (Ha : Zpos (digits2_pos a) <= 53) by (apply digits_bound; lia).
assert (Hb : Zpos (digits2_pos b) <= 53) by (apply digits_bound; lia).
unfold SF64sub, SFsub, F64.canon.
set (da := Zpos (digits2_pos a)) in *. set (db := Zpos (digits2_pos b)) in *.
assert (Ha1 : 1 <= da) by (unfold da; lia).
assert (Hb1 : 1 <= db) by (unfold db; lia).
set (ez := Z.min (da - 53) (db - 53)).
rewrite !shl_align_shl by (unfold ez; lia).
cbn [fst cond_Zopp]. rewrite <- !shl_add.
assert (Na : Pos.to_nat (digits2_pos a) = Z.to_nat da) by (unfold da; lia).
assert (Nb : Pos.to_nat (digits2_pos b) = Z.to_nat db) by (unfold db; lia).
rewrite Na, Nb.
replace (Z.to_nat (da - 53 - ez) + (53 - Z.to_nat da))%nat with (Z.to_nat (- ez))
  by (unfold ez; lia).
replace (Z.to_nat (db - 53 - ez) + (53 - Z.to_nat db))%nat with (Z.to_nat (- ez))
  by (unfold ez; lia).
rewrite (shl_minus _ a b Hlt). cbn [binary_normalize].
replace ez with (- Z.of_nat (Z.to_nat (- ez))) at 2 by (unfold ez; lia).
rewrite binary_round_shl.
- fold (F64.canon (a - b)). unfold F64.canon. reflexivity.
- apply digits_bound. lia.
Qed.

Lemma SFsub_canon_same (a : positive) :
  SF64sub (F64.canon a) (F64.canon a) = S754_zero false.
Proof.
unfold SF64sub, SFsub, F64.canon. cbn [cond_Zopp].
rewrite Z.min_id, Z.sub_diag. reflexivity.
Qed.

Lemma SFsub_value (a b : Z) :
  0 <= b <= a -> a < 2 ^ 53 ->
  SF64sub (F64.sf_of_Z a) (F64.sf_of_Z b) = F64.sf_of_Z (a - b).
Proof.
intros Hab H.
destruct a as [|a|a], b as [|b|b]; try lia; try reflexivity.
cbn [F64.sf_of_Z].
destruct (Pos.compare_spec b a) as [E|L|G].
- subst b. rewrite Z.sub_diag. apply SFsub_canon_same.
- rewrite <- Pos2Z.inj_sub by exact L. cbn [F64.sf_of_Z].
  apply SFsub_canon; [exact H|exact L].
- lia.
Qed.

(** float64 subtraction of small non-negative integers is exact. *)
Lemma sub_of_Z (a b : Z) :
  0 <= b <= a -> a < 2 ^ 53 ->
  PrimFloat.sub (F64.of_Z a) (F64.of_Z b) = F64.of_Z (a - b).
Proof.
intros Hab H. apply Prim2SF_inj.
rewrite FloatAxioms.sub_spec, !Prim2SF_of_Z by lia.
apply SFsub_value; assumption.
Qed.

(** ** More on the parser: annotations, type names, other resources *)

Section TokenFacts.
Context {go : GoRuntime}.

Lemma stripIndex_paren (r : string) : stripIndex ("(" ++ r) = EmptyString.
Proof.
rewrite stripIndex_find. cbn [append find HasPrefix Ascii.eqb Bool.eqb andb].
rewrite HasPrefix_nil. reflexivity.
Qed.

Lemma stripIndex_none (t : string) : hasByte "(" t = false -> stripIndex t = t.
Proof.
intros H. rewrite stripIndex_find.
apply find_byte_none in H. rewrite H. reflexivity.
Qed.

Lemma isSentinel_cases (s : string) :
  isSentinel s = true -> s = EmptyString \/ s = "N/A" \/ s = "(null)".
Proof.
unfold isSentinel. intros H.
apply orb_prop in H. destruct H as [H|H].
- apply orb_prop in H. destruct H as [H|H]; apply String.eqb_eq in H; auto.
- apply String.eqb_eq in H. auto.
Qed.

Lemma Contains_app_l (a b sub : string) :
  Contains a sub = true -> Contains (a ++ b) sub = true.
Proof.
assert (P : forall sub a b, HasPrefix a sub = true -> HasPrefix (a ++ b) sub = true).
{ clear. induction sub as [|c sub IH]; intros a b H; [apply HasPrefix_nil|].
  destruct a as [|d a]; [discriminate|]. cbn in *.
  apply andb_prop in H. destruct H as [H1 H2].
  rewrite H1. cbn. apply IH, H2. }
induction a as [|c a IH]; intros H.
- destruct sub; [destruct b; reflexivity|discriminate].
- cbn [Contains append] in *. apply orb_prop in H. destruct H as [H|H].
  + change (String c (a ++ b)) with (String c a ++ b).
    rewrite (P _ _ _ H). reflexivity.
  + rewrite (IH H). apply orb_true_r.
Qed.

(** A token whose name mentions a GPU counts what is written after its
    last [':']. *)
Lemma parseGresGpuCount_named (pre rest : string) :
  hasByte "(" pre = false -> hasByte "," pre = false -> hasByte "=" pre = false ->
  Contains (ToLower pre) "gpu" = true ->
  hasByte "," rest = false -> hasByte "=" rest = false ->
  parseGresGpuCount (pre ++ ":" ++ rest) = countField rest.
Proof.
intros Hp Hc He Hg Hc' He'.
rewrite parseGresGpuCount_token
  by (rewrite !hasByte_app; cbn; rewrite ?He, ?Hc, ?He', ?Hc'; reflexivity).
unfold parseToken.
destruct (isSentinel (pre ++ ":" ++ rest)) eqn:Es.
{ apply isSentinel_plain in Es. destruct Es as (_ & _ & Es).
  rewrite !hasByte_app in Es. cbn in Es. rewrite orb_true_r in Es. discriminate. }
unfold singleGres, countField.
rewrite (stripIndex_app_r _ _ Hp), (stripIndex_app_r ":" rest eq_refl).
rewrite ToLower_app, (Contains_app_l _ _ _ Hg). cbn [negb].
change (pre ++ ":" ++ stripIndex rest) with (pre ++ String ":" (stripIndex rest)).
rewrite Split_app_sep.
destruct (Split_cons pre ":") as (p & ps & ->).
destruct (Split_cons (stripIndex rest) ":") as (q & qs & Eq).
rewrite Eq.
replace (Z.of_nat (List.length ((p :: ps) ++ q :: qs)) <? 2) with false
  by (symmetry; apply Z.ltb_ge; rewrite length_app; cbn; lia).
rewrite last_app by discriminate. reflexivity.
Qed.

Lemma parseToken_other (u : string) :
  Contains (ToLower (stripIndex u)) "gpu" = false -> parseToken u = F64.zero.
Proof.
intros H. unfold parseToken, singleGres. rewrite H.
destruct (isSentinel u); reflexivity.
Qed.

End TokenFacts.

(** X1.  The index annotation of a token is ignored: a token [t] followed
    by ["("] and any text counts what [t] alone counts (neither holding
    [','] or ['='], and [t] holding no ["("]), as in [gpu:1(IDX:0)]. *)
Theorem index_annotation_ignored (go : GoRuntime) (t r : string) :
  hasByte "(" t = false -> hasByte "," t = false -> hasByte "=" t = false ->
  hasByte "," r = false -> hasByte "=" r = false ->
  parseGresGpuCount (t ++ "(" ++ r) = parseGresGpuCount t.
Proof.
intros Hp Hc He Hc' He'.
rewrite (parseGresGpuCount_token t He Hc).
rewrite parseGresGpuCount_token
  by (rewrite !hasByte_app; cbn; rewrite ?He, ?Hc, ?He', ?Hc'; reflexivity).
assert (S1 : stripIndex (t ++ "(" ++ r) = t).
{ rewrite (stripIndex_app_r _ _ Hp), stripIndex_paren. apply append_nil_r. }
assert (S2 : stripIndex t = t) by (apply stripIndex_none, Hp).
unfold parseToken, singleGres. rewrite S1, S2.
destruct (isSentinel (t ++ "(" ++ r)) eqn:E1, (isSentinel t) eqn:E2;
  try reflexivity.
- apply isSentinel_cases in E1. destruct E1 as [E1|[E1|E1]].
  + destruct t; discriminate E1.
  + apply (f_equal (hasByte "(")) in E1. rewrite !hasByte_app in E1.
    cbn in E1. rewrite orb_true_r in E1. discriminate E1.
  + destruct t as [|c t]; [discriminate E2|].
    injection E1 as -> _. discriminate Hp.
- apply isSentinel_cases in E2. destruct E2 as [-> | [-> | ->]];
    [reflexivity|reflexivity|discriminate Hp].
Qed.

Lemma index_annotation_ignored_witness :
  @parseGresGpuCount Fragment.runtime "gpu:a100:8(IDX:0-7)"
  = @parseGresGpuCount Fragment.runtime "gpu:a100:8".
Proof.
apply (index_annotation_ignored Fragment.runtime "gpu:a100:8" "IDX:0-7)");
  reflexivity.
Defined.

(** X2.  The fields between the resource name and the count are ignored:
    [NAME:TYPE:COUNT] counts what [NAME:COUNT] counts, namely the number
    written after the last [':'], for a name that mentions [gpu] in any
    letter case. *)
Theorem type_name_ignored (go : GoRuntime) (name ty count : string) :
  hasByte "(" name = false -> hasByte "," name = false ->
  hasByte "=" name = false -> Contains (ToLower name) "gpu" = true ->
  hasByte "(" ty = false -> hasByte "," ty = false -> hasByte "=" ty = false ->
  hasByte "," count = false -> hasByte "=" count = false ->
  parseGresGpuCount (name ++ ":" ++ ty ++ ":" ++ count)
  = parseGresGpuCount (name ++ ":" ++ count) /\
  parseGresGpuCount (name ++ ":" ++ count) = countField count.
Proof.
intros Hp Hc He Hg Hp' Hc' He' Hc'' He''.
assert (E : parseGresGpuCount (name ++ ":" ++ count) = countField count)
  by (apply parseGresGpuCount_named; assumption).
split; [|exact E]. rewrite E.
replace (name ++ ":" ++ ty ++ ":" ++ count)
  with ((name ++ ":" ++ ty) ++ ":" ++ count)
  by (rewrite !append_assoc; reflexivity).
apply parseGresGpuCount_named; trivial.
- rewrite !hasByte_app, Hp, Hp'. reflexivity.
- rewrite !hasByte_app, Hc, Hc'. reflexivity.
- rewrite !hasByte_app, He, He'. reflexivity.
- rewrite ToLower_app. apply Contains_app_l, Hg.
Qed.

Lemma type_name_ignored_witness :
  @parseGresGpuCount Fragment.runtime "GPU:tesla:4"
  = @parseGresGpuCount Fragment.runtime "GPU:4" /\
  @parseGresGpuCount Fragment.runtime "GPU:4" = 4%float.
Proof.
apply (type_name_ignored Fragment.runtime "GPU" "tesla" "4"); reflexivity.
Defined.

(** X3.  Resources other than GPUs are ignored in a legacy list: a list of
    two or more terms parses to the sum of the quantities of the terms that
    mention [gpu], as in [gpu:2,mem:10G]; and a single token that does not
    mention [gpu] parses to [0]. *)
Theorem legacy_other_resources_ignored (go : GoRuntime) :
  (forall ts,
     legacyTerms ts -> (2 <= List.length ts)%nat ->
     parseGresGpuCount (Join ts ",")
     = F64.sum (map termCount (filter mentionsGpu ts))) /\
  (forall t,
     hasByte "," t = false -> hasByte "=" t = false ->
     Contains (ToLower (stripIndex t)) "gpu" = false ->
     parseGresGpuCount t = F64.zero).
Proof.
split.
- intros ts L Hlen.
  destruct ts as [|p [|q ts]]; cbn in Hlen; try lia.
  rewrite (parseGresGpuCount_Join p q ts L).
  apply sum_skip_zero. intros t _ Ht.
  apply parseToken_other, Ht.
- intros t Hc He Hg.
  rewrite (parseGresGpuCount_token t He Hc). apply parseToken_other, Hg.
Qed.

Lemma legacy_other_resources_ignored_witness :
  @parseGresGpuCount Fragment.runtime "gpu:2,mem:10G,gpu:a100:1"
  = F64.sum [2%float; 1%float].
Proof.
change "gpu:2,mem:10G,gpu:a100:1" with (Join ["gpu:2"; "mem:10G"; "gpu:a100:1"] ",").
rewrite (proj1 (legacy_other_resources_ignored Fragment.runtime)).
- reflexivity.
- intros t [<-|[<-|[<-|[]]]]; split; reflexivity.
- cbn. lia.
Defined.

(** ** More on the fetchers *)

Section StepFacts.
Context {go : GoRuntime}.

Lemma fetch_steps (f : GpuCollector.GpuFetcher) (s : State) :
  GpuCollector.fetch f s =
  match GpuFetcher.fetchTotalGpus f s with
  | (Err e, s1) => (Err e, s1)
  | (Ok totalGpus, s1) =>
      match GpuFetcher.fetchAllocatedGpus f s1 with
      | (Err e, s2) => (Err e, s2)
      | (Ok allocGpus, s2) => (Ok (deriveMetrics totalGpus allocGpus), s2)
      end
  end.
Proof.
destruct f; cbn [GpuCollector.fetch GpuFetcher.fetchTotalGpus
                 GpuFetcher.fetchAllocatedGpus];
  unfold GpuJsonFetcher.fetch, GpuCliFallbackFetcher.fetch, try_, bind, ret.
- destruct (GpuJsonFetcher.fetchTotalGpus s) as [[t|e] s1]; [|reflexivity].
  destruct (GpuJsonFetcher.fetchAllocatedGpus s1) as [[a|e] s2]; reflexivity.
- destruct (GpuCliFallbackFetcher.fetchTotalGpus s) as [[t|e] s1]; [|reflexivity].
  destruct (GpuCliFallbackFetcher.fetchAllocatedGpus s1) as [[a|e] s2]; reflexivity.
Qed.

Lemma errorRecords_level (fmt : string) (errs : list string) :
  Forall (fun rec => level rec = LevelError) (errorRecords fmt errs).
Proof.
unfold errorRecords. apply Forall_forall. intros rec H.
apply in_rev, in_map_iff in H. destruct H as (e & <- & _). reflexivity.
Qed.

Ltac quiet := exists [], 0; repeat split; cbn; try lia; auto; discriminate.
Ltac noisy := repeat split; cbn; try lia; auto using errorRecords_level;
              try discriminate.

Lemma fetchTotalGpus_effect (f : GpuCollector.GpuFetcher) (s : State) r s1 :
  GpuFetcher.fetchTotalGpus f s = (r, s1) -> stepEffect Sinfo s r s1.
Proof.
destruct f; cbn [GpuFetcher.fetchTotalGpus]; intros H.
- apply GpuJsonFetcher_fetchTotalGpus_outcome in H.
  destruct H; (split; [split; reflexivity|]).
  + quiet.
  + eexists _, 0. noisy.
  + eexists _, _. noisy.
  + quiet.
- apply GpuCliFallbackFetcher_fetchTotalGpus_outcome in H.
  destruct H; (split; [split; reflexivity|]).
  + quiet.
  + quiet.
  + eexists _, 1. noisy.
  + quiet.
Qed.

Lemma fetchAllocatedGpus_effect (f : GpuCollector.GpuFetcher) (s : State) r s1 :
  GpuFetcher.fetchAllocatedGpus f s = (r, s1) -> stepEffect Sacct s r s1.
Proof.
destruct f; cbn [GpuFetcher.fetchAllocatedGpus]; intros H.
- apply GpuJsonFetcher_fetchAllocatedGpus_outcome in H.
  destruct H; (split; [split; reflexivity|]).
  + quiet.
  + eexists _, 0. noisy.
  + eexists _, _. noisy.
  + quiet.
- apply GpuCliFallbackFetcher_fetchAllocatedGpus_outcome in H.
  destruct H; (split; [split; reflexivity|]); quiet.
Qed.

End StepFacts.

Section CallFacts.
Context {go : GoRuntime}.

(** The state after a call differs from the state the fetch left only in
    the cache. *)
Lemma Called_frame (fetch : M (result GpuMetrics)) (s : State) r s' :
  Called fetch s r s' ->
  s' = s \/
  exists s2, fst (fetch (lock s)) = r /\ snd (fetch (lock s)) = s2 /\
             cacheHit s = None /\
             sinfoScraper s' = sinfoScraper s2 /\
             sacctScraper s' = sacctScraper s2 /\
             logs s' = logs s2 /\ errorCounter s' = errorCounter s2.
Proof.
intros [m H|e s2 H1 H2|m s2 H1 H2]; [left; reflexivity| |];
  right; exists s2; rewrite H2; repeat split; assumption.
Qed.

Lemma wrote_trans r1 n1 r2 n2 (s s1 s2 : State) :
  wrote r1 n1 s s1 -> wrote r2 n2 s1 s2 ->
  wrote (r2 ++ r1)%list (n1 + n2) s s2.
Proof.
intros [L1 C1] [L2 C2]. split.
- rewrite L2, L1. apply app_assoc.
- rewrite C2, C1. lia.
Qed.

(** What a whole fetch writes. *)
Lemma fetch_wrote (f : GpuCollector.GpuFetcher) (s : State) r s2 :
  GpuCollector.fetch f s = (r, s2) ->
  exists records n,
    wrote records n s s2 /\ 0 <= n /\
    Forall (fun rec => level rec = LevelError) records /\
    (forall m, r = Ok m -> records = [] /\ n = 0).
Proof.
rewrite fetch_steps.
destruct (GpuFetcher.fetchTotalGpus f s) as [[t|e] s1] eqn:E1.
- destruct (fetchTotalGpus_effect f s _ _ E1) as (_ & r1 & n1 & W1 & N1 & L1 & Q1).
  destruct (Q1 t eq_refl) as [-> ->].
  destruct (GpuFetcher.fetchAllocatedGpus f s1) as [[a|e] s2'] eqn:E2;
    destruct (fetchAllocatedGpus_effect f s1 _ _ E2)
      as (_ & r2 & n2 & W2 & N2 & L2 & Q2);
    intros [= <- <-]; exists (r2 ++ [])%list, (0 + n2).
  + destruct (Q2 a eq_refl) as [-> ->].
    repeat split; try apply (wrote_trans _ _ _ _ _ _ _ W1 W2); auto; lia.
  + repeat split; try apply (wrote_trans _ _ _ _ _ _ _ W1 W2);
      try lia; try discriminate.
    rewrite app_nil_r. exact L2.
- destruct (fetchTotalGpus_effect f s _ _ E1) as (_ & r1 & n1 & W1 & N1 & L1 & Q1).
  intros [= <- <-]. exists r1, n1. repeat split; try apply W1; auto; discriminate.
Qed.

Lemma ranOnce_both (s s1 s2 : State) :
  ranOnce Sinfo s s1 -> ranOnce Sacct s1 s2 ->
  invocations (sinfoScraper s2) = S (invocations (sinfoScraper s)) /\
  invocations (sacctScraper s2) = S (invocations (sacctScraper s)).
Proof.
intros [A B] [C D]. rewrite C, A, D. cbn. rewrite B. split; reflexivity.
Qed.

End CallFacts.

(** X4.  No command is run twice in one call, and [sacct] is not run when
    the [sinfo] step fails.  A call to [FetchMetrics] that returns does one
    of three things: it is served from the cache and changes nothing; or
    its [sinfo] step fails, after one run of [sinfo] and none of [sacct],
    and the call fails with that error; or its [sinfo] step succeeds and
    each of the two commands has run exactly once. *)
Theorem commands_run_at_most_once
        (go : GoRuntime) (f : GpuCollector.GpuFetcher) (s : State) r s' :
  GpuCollector.FetchMetrics f s = Some (r, s') ->
  (cacheHit s <> None /\ s' = s) \/
  (cacheHit s = None /\
   (exists e, r = Err e /\ fst (GpuFetcher.fetchTotalGpus f (lock s)) = Err e) /\
   invocations (sinfoScraper s') = S (invocations (sinfoScraper s)) /\
   sacctScraper s' = sacctScraper s) \/
  (cacheHit s = None /\
   (exists totalGpus, fst (GpuFetcher.fetchTotalGpus f (lock s)) = Ok totalGpus) /\
   invocations (sinfoScraper s') = S (invocations (sinfoScraper s)) /\
   invocations (sacctScraper s') = S (invocations (sacctScraper s))).
Proof.
intros H. apply FetchMetrics_outcome in H. destruct H as [Hm H].
assert (Hhit : forall m, cacheHit s = Some m -> cacheHit s <> None)
  by (intros m E; rewrite E; discriminate).
destruct H as [m H|e s2 H1 H2|m s2 H1 H2].
- left. split; [apply (Hhit m H)|reflexivity].
- right. rewrite fetch_steps in H2.
  destruct (GpuFetcher.fetchTotalGpus f (lock s)) as [[t|e1] s1] eqn:E1;
    destruct (fetchTotalGpus_effect f _ _ _ E1) as (R1 & _).
  + right. destruct (GpuFetcher.fetchAllocatedGpus f s1) as [[a|e2] s2'] eqn:E2;
      destruct (fetchAllocatedGpus_effect f _ _ _ E2) as (R2 & _);
      [discriminate H2|]. injection H2 as <- <-.
    split; [exact H1|]. split; [exists t; reflexivity|].
    exact (ranOnce_both (lock s) s1 s2' R1 R2).
  + left. injection H2 as <- <-. destruct R1 as [S1 S2].
    split; [exact H1|]. split; [exists e1; split; reflexivity|].
    cbn. rewrite S1, S2. split; reflexivity.
- right. right. rewrite fetch_steps in H2.
  destruct (GpuFetcher.fetchTotalGpus f (lock s)) as [[t|e1] s1] eqn:E1;
    destruct (fetchTotalGpus_effect f _ _ _ E1) as (R1 & _);
    [|discriminate H2].
  destruct (GpuFetcher.fetchAllocatedGpus f s1) as [[a|e2] s2'] eqn:E2;
    destruct (fetchAllocatedGpus_effect f _ _ _ E2) as (R2 & _);
    [|discriminate H2]. injection H2 as _ <-.
  split; [exact H1|]. split; [exists t; reflexivity|].
  exact (ranOnce_both (lock s) s1 s2' R1 R2).
Qed.

Lemma commands_run_at_most_once_witness :
  exists r s',
    @GpuCollector.FetchMetrics Fragment.runtime GpuCollector.CliFallbackFetcher
       Samples.sinfoDown = Some (r, s') /\
    invocations (sinfoScraper s') = 1%nat /\
    invocations (sacctScraper s') = 0%nat.
Proof.
destruct (@GpuCollector.FetchMetrics Fragment.runtime
            GpuCollector.CliFallbackFetcher Samples.sinfoDown)
  as [[r s']|] eqn:E; [|discriminate E].
exists r, s'. split; [reflexivity|].
destruct (commands_run_at_most_once Fragment.runtime _ _ _ _ E)
  as [[Hhit _]|[(_ & _ & H1 & H2)|(_ & [t Ht] & _)]].
- exfalso. apply Hhit. reflexivity.
- rewrite H1, H2. split; reflexivity.
- discriminate Ht.
Defined.

(** X5.  The scrape-error counter never goes down, and the records the
    fetcher and the collector write are added to the log at error level;
    a call that returns a snapshot, and a [Collect] that sends gauges,
    write no such record and leave the counter as it was.  (The debug
    line of the parser is outside [logs].) *)
Theorem scrape_errors_never_decrease
        (go : GoRuntime) (f : GpuCollector.GpuFetcher) (s : State) :
  (forall r s',
     GpuCollector.FetchMetrics f s = Some (r, s') ->
     exists records n,
       wrote records n s s' /\ 0 <= n /\
       Forall (fun rec => level rec = LevelError) records /\
       (forall m, r = Ok m -> records = [] /\ n = 0)) /\
  (forall sent s',
     GpuCollector.Collect f s = Some (sent, s') ->
     exists records,
       wrote records (errorCounter s' - errorCounter s) s s' /\
       errorCounter s <= errorCounter s' /\
       Forall (fun rec => level rec = LevelError) records /\
       (sent <> [] -> records = [] /\ errorCounter s' = errorCounter s)).
Proof.
assert (A : forall r s',
     GpuCollector.FetchMetrics f s = Some (r, s') ->
     exists records n,
       wrote records n s s' /\ 0 <= n /\
       Forall (fun rec => level rec = LevelError) records /\
       (forall m, r = Ok m -> records = [] /\ n = 0)).
{ intros r s' H. apply FetchMetrics_outcome in H. destruct H as [Hm H].
  destruct H as [m H|e s2 H1 H2|m s2 H1 H2].
  - exists [], 0. repeat split; cbn; auto; lia.
  - destruct (fetch_wrote f _ _ _ H2) as (records & n & [W1 W2] & N & L & Q).
    exists records, n. split; [split; [exact W1|exact W2]|]. auto.
  - destruct (fetch_wrote f _ _ _ H2) as (records & n & [W1 W2] & N & L & Q).
    exists records, n. split; [split; [exact W1|exact W2]|].
    split; [exact N|]. split; [exact L|].
    intros m' _. apply (Q m eq_refl). }
split; [exact A|].
intros sent s'. unfold GpuCollector.Collect.
destruct (GpuCollector.FetchMetrics f s) as [[[m|e] s1]|] eqn:E; [| |discriminate].
- intros [= <- <-]. destruct (A _ _ eq_refl) as (records & n & W & N & L & Q).
  destruct (Q m eq_refl) as [-> ->]. destruct W as [W1 W2].
  exists []. split; [split; [exact W1|lia]|].
  split; [lia|]. split; [constructor|]. intros _. split; [reflexivity|lia].
- intros [= <- <-]. destruct (A _ _ eq_refl) as (records & n & [W1 W2] & N & L & _).
  exists (mkLogEntry LevelError "Failed to fetch GPU metrics: %q" e :: records).
  split; [split; cbn; [rewrite W1; reflexivity|lia]|].
  split; [cbn; lia|]. split; [constructor; [reflexivity|exact L]|].
  intros X. contradiction X. reflexivity.
Qed.

(** X6.  [FetchMetrics] never returns with the mutex held: it blocks
    exactly when it finds the mutex held, and when it returns the mutex is
    free and the TTL is the one of before, so the next call returns too. *)
Theorem FetchMetrics_releases_mutex
        (go : GoRuntime) (f : GpuCollector.GpuFetcher) (s : State) :
  (GpuCollector.FetchMetrics f s = None <-> gpuCache.Mutex (cache s) = true) /\
  (forall r s',
     GpuCollector.FetchMetrics f s = Some (r, s') ->
     gpuCache.Mutex (cache s') = false /\
     gpuCache.limit (cache s') = gpuCache.limit (cache s) /\
     forall later, GpuCollector.FetchMetrics f (at_time later s') <> None).
Proof.
split.
- split.
  + intros H. destruct (gpuCache.Mutex (cache s)) eqn:Hm; [reflexivity|].
    destruct (FetchMetrics_returns f s Hm) as (r & s' & E). congruence.
  + intros Hm. destruct f; apply FetchMetricsWith_blocked, Hm.
- intros r s' H. apply FetchMetrics_outcome in H. destruct H as [Hm H].
  assert (G : gpuCache.Mutex (cache s') = false /\
              gpuCache.limit (cache s') = gpuCache.limit (cache s)).
  { destruct H as [m H|e s2 H1 H2|m s2 H1 H2].
    - split; [exact Hm|reflexivity].
    - apply fetch_cache in H2. cbn. rewrite H2. split; reflexivity.
    - apply fetch_cache in H2. cbn. rewrite H2. split; reflexivity. }
  destruct G as [G1 G2]. split; [exact G1|]. split; [exact G2|].
  intros later E.
  destruct (FetchMetrics_returns f (at_time later s') G1) as (r' & s'' & E').
  congruence.
Qed.

Lemma scrape_errors_never_decrease_witness :
  exists r s',
    @GpuCollector.FetchMetrics Fragment.runtime GpuCollector.JsonFetcher
       Samples.jsonState = Some (r, s') /\
    errorCounter Samples.jsonState <= errorCounter s'.
Proof.
destruct (@GpuCollector.FetchMetrics Fragment.runtime
            GpuCollector.JsonFetcher Samples.jsonState)
  as [[r s']|] eqn:E; [|discriminate E].
exists r, s'. split; [reflexivity|].
destruct (proj1 (scrape_errors_never_decrease Fragment.runtime _ _) _ _ E)
  as (records & n & [_ W] & N & _).
rewrite W. lia.
Defined.

Lemma FetchMetrics_releases_mutex_witness :
  exists r s',
    @GpuCollector.FetchMetrics Fragment.runtime GpuCollector.CliFallbackFetcher
       Samples.cliState = Some (r, s') /\
    gpuCache.Mutex (cache s') = false.
Proof.
destruct (@GpuCollector.FetchMetrics Fragment.runtime
            GpuCollector.CliFallbackFetcher Samples.cliState)
  as [[r s']|] eqn:E; [|discriminate E].
exists r, s'. split; [reflexivity|].
exact (proj1 (proj2 (FetchMetrics_releases_mutex Fragment.runtime _ _) _ _ E)).
Defined.

(** ** The TTL *)

Section TtlFacts.
Context {go : GoRuntime}.

Lemma Sub_nonneg (t u : Time) : u <= t -> 0 <= GoTime.Sub t u.
Proof. unfold GoTime.Sub, GoTime.minDuration, GoTime.maxDuration. lia. Qed.

Lemma Sub_small (t d : Z) :
  0 <= d <= GoTime.maxDuration -> GoTime.Sub (t + d) t = d.
Proof. unfold GoTime.Sub, GoTime.minDuration, GoTime.maxDuration. lia. Qed.

(** The cache, the clock and the limit after a refresh. *)
Lemma Called_refresh_cache (f : GpuCollector.GpuFetcher) (s : State) m s' :
  cacheHit s = None ->
  Called (GpuCollector.fetch f) s (Ok m) s' ->
  gpuCache.cache (cache s') = Some m /\
  gpuCache.t (cache s') = now s' /\
  gpuCache.limit (cache s') = gpuCache.limit (cache s).
Proof.
intros Hmiss H. inversion H; subst; [congruence|].
match goal with H : GpuCollector.fetch f _ = _ |- _ =>
  apply fetch_cache in H; rename H into Hc end.
cbn. rewrite Hc. repeat split.
Qed.

End TtlFacts.

(** X7.  The TTL in whole seconds.  After a refresh, with a limit of [L]
    seconds ([L] a whole number, as the default of 10), a call made [k]
    whole seconds later is served from the cache exactly when [k < L]:
    the snapshot is returned at [L - 1] seconds and the commands run again
    at [L] seconds. *)
Theorem ttl_in_whole_seconds
        (go : GoRuntime) (f : GpuCollector.GpuFetcher) (s : State) m s' (L k : Z) :
  GpuCollector.FetchMetrics f s = Some (Ok m, s') ->
  cacheHit s = None ->
  gpuCache.limit (cache s) = F64.of_Z L ->
  0 <= L < 2 ^ 53 -> 0 <= k <= 9223372036 ->
  let later := at_time (now s' + k * GoTime.Second) s' in
  cacheHit later = (if k <? L then Some m else None) /\
  (k < L -> GpuCollector.FetchMetrics f later = Some (Ok m, later)) /\
  (L <= k ->
   exists r s'',
     GpuCollector.FetchMetrics f later = Some (r, s'') /\
     invocations (sinfoScraper s'') = S (invocations (sinfoScraper s'))).
Proof.
intros H Hmiss HL HLr Hk later.
apply FetchMetrics_outcome in H. destruct H as [Hm H].
destruct (Called_refresh_cache f s m s' Hmiss H) as (C1 & C2 & C3).
destruct (Called_ok_cache f s m s' Hm H) as [Hm' _].
assert (Hhit : cacheHit later = (if k <? L then Some m else None)).
{ unfold cacheHit, later. cbn [at_time set_now now cache].
  rewrite C1, C2, C3, HL.
  rewrite Sub_small
    by (unfold GoTime.Second, GoTime.maxDuration; lia).
  rewrite Seconds_whole by lia.
  rewrite lt_of_Z by lia. reflexivity. }
split; [exact Hhit|]. split.
- intros Hlt. apply FetchMetrics_outcome. split; [exact Hm'|].
  apply Called_hit. rewrite Hhit.
  replace (k <? L) with true by (symmetry; apply Z.ltb_lt; exact Hlt).
  reflexivity.
- intros Hge.
  destruct (FetchMetrics_returns f later Hm') as (r & s'' & E).
  exists r, s''. split; [exact E|].
  apply FetchMetrics_outcome in E. destruct E as [_ E].
  assert (Hmiss' : cacheHit later = None).
  { rewrite Hhit.
    replace (k <? L) with false by (symmetry; apply Z.ltb_ge; exact Hge).
    reflexivity. }
  rewrite (Called_miss_sinfo f later r s'' Hmiss' E). reflexivity.
Qed.

Lemma ttl_in_whole_seconds_witness :
  exists m s',
    @GpuCollector.FetchMetrics Fragment.runtime GpuCollector.JsonFetcher
       Samples.jsonState = Some (Ok m, s') /\
    cacheHit (at_time (now s' + 9 * GoTime.Second) s') = Some m /\
    cacheHit (at_time (now s' + 10 * GoTime.Second) s') = None.
Proof.
destruct (@GpuCollector.FetchMetrics Fragment.runtime
            GpuCollector.JsonFetcher Samples.jsonState)
  as [[[m|e] s']|] eqn:E; [|discriminate E|discriminate E].
exists m, s'. split; [reflexivity|].
pose proof (ttl_in_whole_seconds Fragment.runtime GpuCollector.JsonFetcher
              Samples.jsonState m s' 10) as T.
split.
- apply (T 9 E); [reflexivity|reflexivity|lia|lia].
- apply (T 10 E); [reflexivity|reflexivity|lia|lia].
Defined.

(** X8.  A limit that is not above zero switches the cache off: when
    [0 < limit] is false (the limit is zero, negative or not a number) the
    cache test fails at every clock reading from the time of storing on,
    so every call that finds the mutex free runs the [sinfo] command. *)
Theorem limit_not_positive_disables_cache
        (go : GoRuntime) (f : GpuCollector.GpuFetcher) (s : State) :
  F64.lt F64.zero (gpuCache.limit (cache s)) = false ->
  gpuCache.t (cache s) <= now s ->
  cacheHit s = None /\
  (gpuCache.Mutex (cache s) = false ->
   exists r s',
     GpuCollector.FetchMetrics f s = Some (r, s') /\
     invocations (sinfoScraper s') = S (invocations (sinfoScraper s))).
Proof.
intros Hl Ht.
assert (Hmiss : cacheHit s = None).
{ unfold cacheHit. destruct (gpuCache.cache (cache s)); [|reflexivity].
  rewrite lt_nonneg_limit; [reflexivity| |exact Hl].
  apply Seconds_nonneg, Sub_nonneg, Ht. }
split; [exact Hmiss|]. intros Hm.
destruct (FetchMetrics_returns f s Hm) as (r & s' & E).
exists r, s'. split; [exact E|].
apply FetchMetrics_outcome in E. destruct E as [_ E].
rewrite (Called_miss_sinfo f s r s' Hmiss E). reflexivity.
Qed.

Lemma limit_not_positive_disables_cache_witness :
  cacheHit
    (mkState 1 [] [] (Samples.prints EmptyString 0) (Samples.prints EmptyString 0) 0
             (gpuCache.mk false 1 0%float
                          (Some (deriveMetrics 12%float 3%float)) 0)) = None.
Proof.
apply (limit_not_positive_disables_cache Fragment.runtime GpuCollector.JsonFetcher);
  [reflexivity|cbn; lia].
Defined.

(** ** The two variants on the same data *)

Section VariantFacts.
Context {go : GoRuntime}.

Lemma fold_addRecord (records : list (list string)) (acc : float) :
  fold_left GpuCliFallbackFetcher.addRecord records acc
  = fold_left PrimFloat.add
      (map parseGresGpuCount (map gresField (filter hasGresField records))) acc.
Proof.
revert acc. induction records as [|r rs IH]; intros acc; [reflexivity|].
cbn [fold_left filter]. unfold GpuCliFallbackFetcher.addRecord at 2, hasGresField at 1.
destruct (Z.of_nat (List.length r) <? 2); cbn [negb map fold_left]; apply IH.
Qed.

Lemma fold_addLine (lines : list string) (acc : float) :
  fold_left GpuCliFallbackFetcher.addLine lines acc
  = fold_left PrimFloat.add
      (map parseGresGpuCount (map allocField (filter notBlank lines))) acc.
Proof.
revert acc. induction lines as [|l ls IH]; intros acc; [reflexivity|].
cbn [fold_left filter]. unfold GpuCliFallbackFetcher.addLine at 2, notBlank at 1.
destruct (len (TrimSpace l) =? 0); cbn [negb map fold_left]; apply IH.
Qed.

Lemma sumNodes_eq (nodes : list sinfoGpuNode) :
  sumNodes nodes = F64.sum (map parseGresGpuCount (map Gres nodes)).
Proof. unfold sumNodes. rewrite map_map. reflexivity. Qed.

Lemma sumJobs_eq (jobs : list sacctGpuJob) :
  sumJobs jobs = F64.sum (map parseGresGpuCount (map AllocGRES jobs)).
Proof. unfold sumJobs. rewrite map_map. reflexivity. Qed.

Lemma jsonData_fetch (s : State) (nodes jobs : list string) :
  jsonData s nodes jobs ->
  GpuJsonFetcher.fetch s = (Ok (snapshotOf nodes jobs), afterSacct (afterSinfo s)).
Proof.
intros (raw1 & resp1 & raw2 & resp2 & O1 & U1 & E1 & N & O2 & U2 & E2 & J).
apply GpuJsonFetcher_fetch_outcome. unfold snapshotOf.
rewrite <- N, <- J, <- sumNodes_eq, <- sumJobs_eq.
apply (Fetch_ok JsonTotal JsonAlloc s (sumNodes (Nodes resp1)) (afterSinfo s)
                (sumJobs (Jobs resp2)) (afterSacct (afterSinfo s))).
- exact (JsonTotal_ok s raw1 resp1 O1 U1 E1).
- exact (JsonAlloc_ok (afterSinfo s) raw2 resp2 O2 U2 E2).
Qed.

Lemma cliData_fetch (s : State) (nodes jobs : list string) :
  cliData s nodes jobs ->
  GpuCliFallbackFetcher.fetch s
  = (Ok (snapshotOf nodes jobs), afterSacct (afterSinfo s)).
Proof.
intros (raw1 & records & raw2 & O1 & R & N & O2 & J).
apply GpuCliFallbackFetcher_fetch_outcome. unfold snapshotOf.
assert (T : CliTotal s (Ok (F64.sum (map parseGresGpuCount nodes))) (afterSinfo s)).
{ destruct R as [[B ->]|[B R]].
  - cbn in N. subst nodes. exact (CliTotal_blank s raw1 O1 B).
  - rewrite <- N. unfold F64.sum. rewrite <- fold_addRecord.
    exact (CliTotal_ok s raw1 records O1 B R). }
assert (A : CliAlloc (afterSinfo s) (Ok (F64.sum (map parseGresGpuCount jobs)))
                     (afterSacct (afterSinfo s))).
{ destruct (TrimSpace raw2) as [|c rest] eqn:B.
  - cbn in J. subst jobs. exact (CliAlloc_blank (afterSinfo s) raw2 O2 B).
  - rewrite <- J. unfold F64.sum. rewrite <- fold_addLine.
    rewrite <- B.
    apply (CliAlloc_ok (afterSinfo s) raw2 O2). rewrite B. discriminate. }
exact (Fetch_ok CliTotal CliAlloc s _ _ _ _ T A).
Qed.

End VariantFacts.

(** X9.  The two variants agree.  When the text read in CLI fallback mode
    carries the resource strings of the JSON documents (the second fields
    of the CSV records for the [gres] of the nodes, the non-blank lines,
    quotes removed, for the [allocated_gres] of the jobs), both [fetch]
    methods return the same snapshot: the one derived from the sums of the
    parsed strings. *)
Theorem variants_agree (go : GoRuntime) (sj sc : State) (nodes jobs : list string) :
  jsonData sj nodes jobs -> cliData sc nodes jobs ->
  fst (GpuJsonFetcher.fetch sj) = Ok (snapshotOf nodes jobs) /\
  fst (GpuCliFallbackFetcher.fetch sc) = Ok (snapshotOf nodes jobs).
Proof.
intros Hj Hc. rewrite (jsonData_fetch sj nodes jobs Hj).
rewrite (cliData_fetch sc nodes jobs Hc). split; reflexivity.
Qed.

Lemma variants_agree_witness :
  fst (@GpuJsonFetcher.fetch Fragment.runtime MoreSamples.sameJson)
  = Ok (mkGpuMetrics 3 9 12 0.25) /\
  fst (@GpuCliFallbackFetcher.fetch Fragment.runtime MoreSamples.sameCli)
  = Ok (mkGpuMetrics 3 9 12 0.25).
Proof.
apply (variants_agree Fragment.runtime MoreSamples.sameJson MoreSamples.sameCli
         ["gpu:4"; "gpu:a100:8(IDX:0-7)"; "(null)"] ["gres/gpu=2"; "gpu:1"]).
- eexists _, _, _, _. repeat split; try (vm_compute; reflexivity).
- eexists _, _, _. split; [vm_compute; reflexivity|].
  split; [right; split; [vm_compute; discriminate|vm_compute; reflexivity]|].
  repeat split; vm_compute; reflexivity.
Defined.

(** X10.  Blank output is not an error in CLI fallback mode.  When both
    commands print white space only, [fetch] runs each of them once,
    returns the snapshot of all zeros, writes nothing to the log and
    leaves the error counter alone; when only [sinfo] does, the total and
    the utilization are zero whatever [sacct] prints. *)
Theorem cli_blank_output_is_zero (go : GoRuntime) (s : State) (raw1 raw2 : string) :
  sinfoOutput s = Ok raw1 -> TrimSpace raw1 = EmptyString ->
  sacctOutput s = Ok raw2 ->
  (TrimSpace raw2 = EmptyString ->
   GpuCliFallbackFetcher.fetch s
   = (Ok (mkGpuMetrics 0 0 0 0), afterSacct (afterSinfo s)) /\
   logs (afterSacct (afterSinfo s)) = logs s /\
   errorCounter (afterSacct (afterSinfo s)) = errorCounter s) /\
  (exists m,
     GpuCliFallbackFetcher.fetch s = (Ok m, afterSacct (afterSinfo s)) /\
     Total m = 0%float /\ Utilization m = 0%float).
Proof.
intros O1 B1 O2.
assert (D : forall jobs,
  map allocField (filter notBlank (Split (TrimSpace raw2) newline)) = jobs ->
  cliData s [] jobs).
{ intros jobs J. exists raw1, [], raw2. repeat split; auto. }
split.
- intros B2. split; [|split; reflexivity].
  apply (cliData_fetch s [] []). apply D. rewrite B2. reflexivity.
- exists (snapshotOf []
            (map allocField (filter notBlank (Split (TrimSpace raw2) newline)))).
  split; [apply cliData_fetch, D; reflexivity|]. split; reflexivity.
Qed.

Lemma cli_blank_output_is_zero_witness :
  @GpuCliFallbackFetcher.fetch Fragment.runtime MoreSamples.blank
  = (Ok (mkGpuMetrics 0 0 0 0), afterSacct (afterSinfo MoreSamples.blank)).
Proof.
destruct (cli_blank_output_is_zero Fragment.runtime MoreSamples.blank
            (String newline " ") (String newline EmptyString)
            eq_refl eq_refl eq_refl) as [H _].
exact (proj1 (H eq_refl)).
Defined.

(** X11.  [Collect] sends all four gauges or none.  It blocks exactly when
    [FetchMetrics] does; when the fetch fails it sends nothing; otherwise
    it sends one gauge for each name of [Describe], in that order, with
    the fields of the snapshot that is in the cache after the call. *)
Theorem Collect_all_or_nothing
        (go : GoRuntime) (f : GpuCollector.GpuFetcher) (s : State) :
  (GpuCollector.Collect f s = None <-> GpuCollector.FetchMetrics f s = None) /\
  (forall sent s',
     GpuCollector.Collect f s = Some (sent, s') ->
     (sent = [] /\ exists e s1, GpuCollector.FetchMetrics f s = Some (Err e, s1)) \/
     (exists m,
        GpuCollector.FetchMetrics f s = Some (Ok m, s') /\
        gpuCache.cache (cache s') = Some m /\
        map fst sent = GpuCollector.Describe /\
        map snd sent = [Alloc m; Idle m; Total m; Utilization m])).
Proof.
unfold GpuCollector.Collect.
destruct (GpuCollector.FetchMetrics f s) as [[[m|e] s1]|] eqn:E.
- split; [split; discriminate|].
  intros sent s' [= <- <-]. right. exists m. split; [reflexivity|].
  apply FetchMetrics_outcome in E. destruct E as [Hm E].
  split; [apply (Called_ok_cache f s m s1 Hm E)|]. split; reflexivity.
- split; [split; discriminate|].
  intros sent s' [= <- <-]. left. split; [reflexivity|]. eauto.
- split; [split; reflexivity|]. discriminate.
Qed.

Lemma Collect_all_or_nothing_witness :
  exists sent s',
    @GpuCollector.Collect Fragment.runtime GpuCollector.JsonFetcher
       Samples.jsonState = Some (sent, s') /\
    map fst sent = ["slurm_gpus_alloc"; "slurm_gpus_idle"; "slurm_gpus_total";
                    "slurm_gpus_utilization"] /\
    map snd sent = [3%float; 9%float; 12%float; 0.25%float].
Proof.
destruct (@GpuCollector.Collect Fragment.runtime GpuCollector.JsonFetcher
            Samples.jsonState) as [[sent s']|] eqn:E; [|discriminate E].
exists sent, s'. split; [reflexivity|].
destruct (proj2 (Collect_all_or_nothing Fragment.runtime _ _) _ _ E)
  as [[_ (e & s1 & H)]|(m & H & _ & Hn & Hv)].
- discriminate H.
- split; [exact Hn|]. rewrite Hv.
  vm_compute in H. injection H as <- _. reflexivity.
Defined.

(** * Configuration and construction *)

Section ConfigFacts.
Context {go : GoRuntime} {sr : ServerRuntime}.

Lemma Join_cons_char (c : ascii) (p : string) (ps : list string) (sep : ascii) :
  Join (String c p :: ps) sep = String c (Join (p :: ps) sep).
Proof. destruct ps; reflexivity. Qed.

(** Joining what [Split] cut gives the string back. *)
Lemma Join_Split (s : string) (sep : ascii) : Join (Split s sep) sep = s.
Proof.
induction s as [|c s IH]; [reflexivity|].
cbn [Split]. destruct (Ascii.eqb c sep) eqn:E.
- apply Ascii.eqb_eq in E. subst c.
  destruct (Split_cons s sep) as (p & ps & Hs). rewrite Hs in *.
  change (Join (EmptyString :: p :: ps) sep)
    with (EmptyString ++ String sep (Join (p :: ps) sep)).
  rewrite IH. reflexivity.
- destruct (Split s sep) as [|p ps] eqn:Hs.
  + destruct (Split_cons s sep) as (p & ps & Hs'). congruence.
  + rewrite Join_cons_char, IH. reflexivity.
Qed.

Lemma Split_no_sep (s : string) (sep : ascii) :
  Forall (fun word => hasByte sep word = false) (Split s sep).
Proof.
apply Forall_forall. intros p Hp.
apply (Split_absent sep sep s); [left; apply Ascii.eqb_refl|exact Hp].
Qed.

Lemma nonEmpty_true (s : string) : Server.nonEmpty s = true <-> s <> EmptyString.
Proof.
unfold Server.nonEmpty. destruct (String.eqb_spec s EmptyString) as [->|N];
  cbn; split; congruence.
Qed.

(** What [NewConfig] returns when it succeeds: the fields of the
    configuration that the GPU collector and the handler are built from,
    in terms of the flags and the environment. *)
Lemma NewConfig_fields (env : string -> option string) (cliFlags : Server.CliFlags)
      (config : Server.Config) :
  Server.NewConfig env cliFlags = Ok config ->
  exists re envLimit,
    Compile (Server.CliFlags.MetricsExcludeFilterRegex cliFlags) = Ok re /\
    match env "POLL_LIMIT" with
    | Some lm => ParseFloat lm = Some envLimit
    | None => envLimit = 10%float
    end /\
    Server.PollLimit config
    = (if F64.gt (Server.CliFlags.SlurmPollLimit cliFlags) F64.zero
       then Server.CliFlags.SlurmPollLimit cliFlags else envLimit) /\
    Server.LogLevel config
    = (if Server.nonEmpty (Server.CliFlags.LogLevel cliFlags)
       then Server.mapIndex Server.logLevelMap (Server.CliFlags.LogLevel cliFlags)
       else match env "LOGLEVEL" with
            | Some lvl => Server.mapIndex Server.logLevelMap lvl
            | None => LevelInfo
            end) /\
    Server.fallback (Server.cliOpts config)
    = Server.CliFlags.SlurmCliFallback cliFlags /\
    Server.excludeFilter (Server.cliOpts config) = Some re /\
    Server.sinfoGpu (Server.cliOpts config)
    = (if Server.nonEmpty (Server.CliFlags.SlurmSinfoGpuOverride cliFlags)
       then Split (Server.CliFlags.SlurmSinfoGpuOverride cliFlags) " "
       else if Server.CliFlags.SlurmCliFallback cliFlags
            then ["sinfo"; "-h"; "-O"; "Gres:30|"]
            else ["sinfo"; "--json"]) /\
    Server.sacctGpu (Server.cliOpts config)
    = (if Server.nonEmpty (Server.CliFlags.SlurmSacctGpuOverride cliFlags)
       then Split (Server.CliFlags.SlurmSacctGpuOverride cliFlags) " "
       else if Server.CliFlags.SlurmCliFallback cliFlags
            then ["sacct"; "-a"; "-X"; "--format=AllocGRES"; "--state=RUNNING";
                  "--noheader"; "--parsable2"]
            else ["sacct"; "-a"; "-X"; "--format=AllocGRES"; "--state=RUNNING";
                  "--json"]) /\
    Server.sharedFetcher (Server.TraceConf config)
    = Some (Server.mkJobFetcher
              (if Server.CliFlags.SlurmCliFallback cliFlags
               then Server.JobCliFallbackFetcher else Server.JobJsonFetcher)
              (Server.squeue (Server.cliOpts config))
              (Server.PollLimit config)
              ("job_scrape_errors", "job scrape errors")).
Proof.
unfold Server.NewConfig, Server.nonEmpty.
destruct (Compile _) as [re|err]; [|discriminate].
destruct (env "POLL_LIMIT") as [lm|] eqn:E.
- destruct (ParseFloat lm) as [limit|] eqn:P; [|discriminate].
  intros H. exists re, limit. split; [reflexivity|]. split; [reflexivity|].
  revert H.
  destruct (Server.CliFlags.SlurmCliFallback cliFlags);
    destruct (String.eqb (Server.CliFlags.SlurmSinfoGpuOverride cliFlags) EmptyString);
    destruct (String.eqb (Server.CliFlags.SlurmSacctGpuOverride cliFlags) EmptyString);
    intros [= <-]; cbn; repeat split; reflexivity.
- intros H. exists re, 10%float. split; [reflexivity|]. split; [reflexivity|].
  revert H.
  destruct (Server.CliFlags.SlurmCliFallback cliFlags);
    destruct (String.eqb (Server.CliFlags.SlurmSinfoGpuOverride cliFlags) EmptyString);
    destruct (String.eqb (Server.CliFlags.SlurmSacctGpuOverride cliFlags) EmptyString);
    intros [= <-]; cbn; repeat split; reflexivity.
Qed.

End ConfigFacts.

(** X12.  [NewConfig] fails in two cases only, and hands on the error of
    the library: when the exclusion pattern does not compile, and when
    [POLL_LIMIT] is set in the environment to something that is not a
    number.  The second holds whatever limit the flag gives: a flag that
    would replace the value does not rescue it. *)
Theorem NewConfig_fails_exactly_when
        (go : GoRuntime) (sr : ServerRuntime)
        (env : string -> option string) (cliFlags : Server.CliFlags) (err : error) :
  Server.NewConfig env cliFlags = Err err <->
  Compile (Server.CliFlags.MetricsExcludeFilterRegex cliFlags) = Err err \/
  ((exists re,
      Compile (Server.CliFlags.MetricsExcludeFilterRegex cliFlags) = Ok re) /\
   exists lm, env "POLL_LIMIT" = Some lm /\ ParseFloat lm = None /\
              err = ParseFloatError lm).
Proof.
unfold Server.NewConfig.
destruct (Compile _) as [re|err0].
- destruct (env "POLL_LIMIT") as [lm|].
  + destruct (ParseFloat lm) as [limit|] eqn:P.
    * destruct (Server.CliFlags.SlurmCliFallback cliFlags); split;
        try discriminate;
        intros [H|(_ & lm' & [= <-] & H & _)]; congruence.
    * split.
      -- intros [= <-]. right. split; [eauto|]. exists lm. auto.
      -- intros [H|(_ & lm' & [= <-] & _ & ->)]; [discriminate H|reflexivity].
  + destruct (Server.CliFlags.SlurmCliFallback cliFlags); split;
      try discriminate;
      intros [H|(_ & lm' & H & _)]; discriminate H.
- split.
  + intros [= ->]. left. reflexivity.
  + intros [[= ->]|((re & H) & _)]; [reflexivity|discriminate H].
Qed.

Lemma NewConfig_fails_exactly_when_witness :
  @Server.NewConfig Fragment.runtime FragmentServer.runtime
     FragmentServer.badLimitEnv FragmentServer.gpuFlags
  = Err (FragmentServer.ParseFloatError "ten").
Proof.
apply (NewConfig_fails_exactly_when Fragment.runtime FragmentServer.runtime).
right. split; [exists "slurm_gpus_idle"; reflexivity|].
exists "ten". repeat split; reflexivity.
Defined.

(** X13.  One TTL for every cache, chosen in the order flag, environment,
    default.  When [NewConfig] succeeds, the limit is the flag's when that
    is above zero, else the number [POLL_LIMIT] holds, else [10]; the cache
    of the GPU fetcher that [NewGpuCollector] builds and the cache of the
    shared job fetcher both carry it, and both fetchers are of the variant
    the fallback flag selects. *)
Theorem poll_limit_reaches_the_caches
        (go : GoRuntime) (sr : ServerRuntime)
        (env : string -> option string) (cliFlags : Server.CliFlags)
        (config : Server.Config) :
  Server.NewConfig env cliFlags = Ok config ->
  let flag := Server.CliFlags.SlurmPollLimit cliFlags in
  let gpu := Server.fetcher (Server.NewGpuCollector config) in
  (F64.gt flag F64.zero = true -> Server.PollLimit config = flag) /\
  (F64.gt flag F64.zero = false ->
   match env "POLL_LIMIT" with
   | Some lm => ParseFloat lm = Some (Server.PollLimit config)
   | None => Server.PollLimit config = 10%float
   end) /\
  gpuCache.limit (Server.fetcherCache gpu) = Server.PollLimit config /\
  Server.variant gpu
  = (if Server.CliFlags.SlurmCliFallback cliFlags
     then GpuCollector.CliFallbackFetcher else GpuCollector.JsonFetcher) /\
  exists job,
    Server.sharedFetcher (Server.TraceConf config) = Some job /\
    Server.jobCacheLimit job = Server.PollLimit config /\
    Server.jobVariant job
    = (if Server.CliFlags.SlurmCliFallback cliFlags
       then Server.JobCliFallbackFetcher else Server.JobJsonFetcher).
Proof.
intros H flag gpu.
destruct (NewConfig_fields env cliFlags config H)
  as (re & envLimit & _ & Henv & HP & _ & Hf & _ & _ & _ & Hj).
fold flag in HP.
split; [intros G; rewrite HP, G; reflexivity|].
split.
{ intros G. rewrite HP, G. destruct (env "POLL_LIMIT"); [exact Henv|exact Henv]. }
unfold gpu, Server.NewGpuCollector. rewrite Hf.
split; [destruct (Server.CliFlags.SlurmCliFallback cliFlags); reflexivity|].
split; [destruct (Server.CliFlags.SlurmCliFallback cliFlags); reflexivity|].
eexists. split; [exact Hj|]. split; reflexivity.
Qed.

Lemma poll_limit_reaches_the_caches_witness :
  exists config,
    @Server.NewConfig Fragment.runtime FragmentServer.runtime
       FragmentServer.debugEnv FragmentServer.noFlags = Ok config /\
    gpuCache.limit
      (Server.fetcherCache (Server.fetcher (Server.NewGpuCollector config)))
    = 2.5%float.
Proof.
destruct (@Server.NewConfig Fragment.runtime FragmentServer.runtime
            FragmentServer.debugEnv FragmentServer.noFlags)
  as [config|err] eqn:E; [|discriminate E].
exists config. split; [reflexivity|].
destruct (poll_limit_reaches_the_caches Fragment.runtime FragmentServer.runtime
            _ _ _ E) as (_ & Henv & Hgpu & _).
rewrite Hgpu. specialize (Henv eq_refl). cbn in Henv.
injection Henv as <-. reflexivity.
Defined.

(** X14.  The GPU commands.  When [NewConfig] succeeds, the command of
    each scraper of the new GPU fetcher is the override cut at its spaces
    when an override is given (so its words, joined by single spaces, give
    back the override, and none of them holds a space), and otherwise the
    default of the mode: the [--json] form, or in CLI fallback mode the
    plain-text form. *)
Theorem gpu_commands_follow_overrides
        (go : GoRuntime) (sr : ServerRuntime)
        (env : string -> option string) (cliFlags : Server.CliFlags)
        (config : Server.Config) :
  Server.NewConfig env cliFlags = Ok config ->
  let gpu := Server.fetcher (Server.NewGpuCollector config) in
  let sinfoOverride := Server.CliFlags.SlurmSinfoGpuOverride cliFlags in
  let sacctOverride := Server.CliFlags.SlurmSacctGpuOverride cliFlags in
  let fallback := Server.CliFlags.SlurmCliFallback cliFlags in
  (sinfoOverride <> EmptyString ->
   Join (Server.sinfoCommand gpu) " " = sinfoOverride /\
   Forall (fun word => hasByte " " word = false) (Server.sinfoCommand gpu)) /\
  (sinfoOverride = EmptyString ->
   Server.sinfoCommand gpu
   = if fallback then ["sinfo"; "-h"; "-O"; "Gres:30|"] else ["sinfo"; "--json"]) /\
  (sacctOverride <> EmptyString ->
   Join (Server.sacctCommand gpu) " " = sacctOverride /\
   Forall (fun word => hasByte " " word = false) (Server.sacctCommand gpu)) /\
  (sacctOverride = EmptyString ->
   Server.sacctCommand gpu
   = if fallback
     then ["sacct"; "-a"; "-X"; "--format=AllocGRES"; "--state=RUNNING";
           "--noheader"; "--parsable2"]
     else ["sacct"; "-a"; "-X"; "--format=AllocGRES"; "--state=RUNNING";
           "--json"]).
Proof.
intros H gpu sinfoOverride sacctOverride fallback.
destruct (NewConfig_fields env cliFlags config H)
  as (re & envLimit & _ & _ & _ & _ & Hf & _ & Hsinfo & Hsacct & _).
assert (E1 : Server.sinfoCommand gpu = Server.sinfoGpu (Server.cliOpts config)).
{ unfold gpu, Server.NewGpuCollector.
  destruct (Server.fallback (Server.cliOpts config)); reflexivity. }
assert (E2 : Server.sacctCommand gpu = Server.sacctGpu (Server.cliOpts config)).
{ unfold gpu, Server.NewGpuCollector.
  destruct (Server.fallback (Server.cliOpts config)); reflexivity. }
rewrite E1, E2, Hsinfo, Hsacct.
fold sinfoOverride sacctOverride fallback.
split; [|split; [|split]].
- intros N. apply nonEmpty_true in N. rewrite N.
  split; [apply Join_Split|apply Split_no_sep].
- intros ->. reflexivity.
- intros N. apply nonEmpty_true in N. rewrite N.
  split; [apply Join_Split|apply Split_no_sep].
- intros ->. reflexivity.
Qed.

Lemma gpu_commands_follow_overrides_witness :
  exists config,
    @Server.NewConfig Fragment.runtime FragmentServer.runtime
       FragmentServer.emptyEnv FragmentServer.gpuFlags = Ok config /\
    Server.sinfoCommand (Server.fetcher (Server.NewGpuCollector config))
    = ["sinfo"; "-h"; "-O"; "NodeHost:30|,Gres:30"] /\
    Server.sacctCommand (Server.fetcher (Server.NewGpuCollector config))
    = ["sacct"; "-a"; "-X"; "--format=AllocGRES"; "--state=RUNNING";
       "--noheader"; "--parsable2"].
Proof.
destruct (@Server.NewConfig Fragment.runtime FragmentServer.runtime
            FragmentServer.emptyEnv FragmentServer.gpuFlags)
  as [config|err] eqn:E; [|discriminate E].
exists config. split; [reflexivity|].
destruct (gpu_commands_follow_overrides Fragment.runtime FragmentServer.runtime
            _ _ _ E) as (_ & _ & _ & Hsacct).
split; [|exact (Hsacct eq_refl)].
vm_compute in E. injection E as <-. reflexivity.
Defined.

(** X15.  The log level.  When [NewConfig] succeeds, the level is the one
    the flag names when the flag is given, else the one [LOGLEVEL] names,
    else [info]; a name that is none of [debug], [info], [warn] and
    [error] selects [info] without an error, also when it replaces a
    valid level of the environment. *)
Theorem log_level_unknown_is_info
        (go : GoRuntime) (sr : ServerRuntime)
        (env : string -> option string) (cliFlags : Server.CliFlags)
        (config : Server.Config) :
  Server.NewConfig env cliFlags = Ok config ->
  let flag := Server.CliFlags.LogLevel cliFlags in
  (flag <> EmptyString ->
   Server.LogLevel config = Server.mapIndex Server.logLevelMap flag) /\
  (flag = EmptyString ->
   Server.LogLevel config
   = match env "LOGLEVEL" with
     | Some lvl => Server.mapIndex Server.logLevelMap lvl
     | None => LevelInfo
     end) /\
  (forall name,
     ~ In name ["debug"; "info"; "warn"; "error"] ->
     Server.mapIndex Server.logLevelMap name = LevelInfo) /\
  Server.mapIndex Server.logLevelMap "debug" = LevelDebug /\
  Server.mapIndex Server.logLevelMap "warn" = LevelWarn /\
  Server.mapIndex Server.logLevelMap "error" = LevelError.
Proof.
intros H flag.
destruct (NewConfig_fields env cliFlags config H)
  as (re & envLimit & _ & _ & _ & HL & _).
fold flag in HL. rewrite HL.
split; [|split; [|split; [|repeat split]]].
- intros N. apply nonEmpty_true in N. rewrite N. reflexivity.
- intros ->. reflexivity.
- intros name N. cbn [Server.mapIndex Server.logLevelMap].
  destruct (String.eqb_spec "debug" name) as [<-|_]; [contradiction N; cbn; auto|].
  destruct (String.eqb_spec "info" name) as [<-|_]; [reflexivity|].
  destruct (String.eqb_spec "warn" name) as [<-|_];
    [contradiction N; cbn; auto|].
  destruct (String.eqb_spec "error" name) as [<-|_];
    [contradiction N; cbn; auto|].
  reflexivity.
Qed.

Lemma log_level_unknown_is_info_witness :
  exists config,
    @Server.NewConfig Fragment.runtime FragmentServer.runtime
       FragmentServer.debugEnv FragmentServer.gpuFlags = Ok config /\
    Server.LogLevel config = LevelInfo.
Proof.
destruct (@Server.NewConfig Fragment.runtime FragmentServer.runtime
            FragmentServer.debugEnv FragmentServer.gpuFlags)
  as [config|err] eqn:E; [|discriminate E].
exists config. split; [reflexivity|].
destruct (log_level_unknown_is_info Fragment.runtime FragmentServer.runtime
            _ _ _ E) as (Hflag & _ & Hunknown & _).
rewrite Hflag by discriminate. apply Hunknown.
cbn. intros [X|[X|[X|[X|[]]]]]; discriminate X.
Defined.

Section FirstCall.
Context {go : GoRuntime}.

(** A command that cannot run ends the first step with its error. *)
Lemma fetchTotalGpus_transport (f : GpuCollector.GpuFetcher) (s : State) (e : error) :
  sinfoOutput s = Err e ->
  GpuFetcher.fetchTotalGpus f s = (Err e, afterSinfo s).
Proof.
intros H. destruct f; cbn [GpuFetcher.fetchTotalGpus].
- apply GpuJsonFetcher_fetchTotalGpus_outcome. exact (JsonTotal_transport s e H).
- apply GpuCliFallbackFetcher_fetchTotalGpus_outcome.
  exact (CliTotal_transport s e H).
Qed.

Lemma fetch_transport (f : GpuCollector.GpuFetcher) (s : State) (e : error) :
  sinfoOutput s = Err e -> GpuCollector.fetch f s = (Err e, afterSinfo s).
Proof.
intros H. rewrite fetch_steps, (fetchTotalGpus_transport f s e H). reflexivity.
Qed.

End FirstCall.

(** X16.  The first call on a new collector.  The collector
    [NewGpuCollector] builds describes the four gauges [Collect] sends, and
    its cache is empty: whatever the limit and the clock, the first
    [FetchMetrics] does not block, misses the cache and runs the configured
    [sinfo] command once; if that command cannot run, the call fails with
    the command's error and [sacct] is not run. *)
Theorem new_collector_first_call
        (go : GoRuntime) (sr : ServerRuntime) (config : Server.Config)
        (exec : list string -> nat -> ScrapeResult) (clock : Time) :
  let gc := Server.NewGpuCollector config in
  let s0 := Server.start exec clock (Server.fetcher gc) in
  map Server.fqName (Server.Describe gc) = GpuCollector.Describe /\
  cacheHit s0 = None /\
  (exists r s1,
     GpuCollector.FetchMetrics (Server.variant (Server.fetcher gc)) s0
     = Some (r, s1) /\
     invocations (sinfoScraper s1) = 1%nat) /\
  (forall e,
     output (exec (Server.sinfoGpu (Server.cliOpts config)) 0%nat) = Err e ->
     exists s1,
       GpuCollector.FetchMetrics (Server.variant (Server.fetcher gc)) s0
       = Some (Err e, s1) /\
       invocations (sinfoScraper s1) = 1%nat /\
       invocations (sacctScraper s1) = 0%nat).
Proof.
intros gc s0.
assert (Hm : gpuCache.Mutex (cache s0) = false).
{ unfold s0, gc, Server.NewGpuCollector.
  destruct (Server.fallback (Server.cliOpts config)); reflexivity. }
assert (Hmiss : cacheHit s0 = None).
{ unfold s0, gc, Server.NewGpuCollector.
  destruct (Server.fallback (Server.cliOpts config)); reflexivity. }
assert (Hinv : invocations (sinfoScraper s0) = 0%nat) by reflexivity.
assert (Hcmd : sinfoOutput s0
               = output (exec (Server.sinfoGpu (Server.cliOpts config)) 0%nat)).
{ unfold s0, gc, Server.NewGpuCollector.
  destruct (Server.fallback (Server.cliOpts config)); reflexivity. }
split; [reflexivity|]. split; [exact Hmiss|]. split.
- destruct (FetchMetrics_returns (Server.variant (Server.fetcher gc)) s0 Hm)
    as (r & s1 & E).
  exists r, s1. split; [exact E|].
  apply FetchMetrics_outcome in E. destruct E as [_ E].
  rewrite (Called_miss_sinfo _ s0 r s1 Hmiss E). reflexivity.
- intros e He. rewrite <- Hcmd in He.
  exists (unlock (afterSinfo (lock s0))). split; [|split; reflexivity].
  apply FetchMetrics_outcome. split; [exact Hm|].
  apply Called_failed; [exact Hmiss|].
  apply fetch_transport. exact He.
Qed.

Lemma new_collector_first_call_witness :
  exists config s1,
    @Server.NewConfig Fragment.runtime FragmentServer.runtime
       FragmentServer.emptyEnv FragmentServer.gpuFlags = Ok config /\
    @GpuCollector.FetchMetrics Fragment.runtime GpuCollector.CliFallbackFetcher
       (Server.start (fun _ _ => mkScrapeResult (Err "exit status 1") 7) 0
                     (Server.fetcher (Server.NewGpuCollector config)))
    = Some (Err "exit status 1", s1) /\
    invocations (sacctScraper s1) = 0%nat.
Proof.
destruct (@Server.NewConfig Fragment.runtime FragmentServer.runtime
            FragmentServer.emptyEnv FragmentServer.gpuFlags)
  as [config|err] eqn:E; [|discriminate E].
destruct (proj2 (proj2 (proj2
            (new_collector_first_call Fragment.runtime FragmentServer.runtime
               config (fun _ _ => mkScrapeResult (Err "exit status 1") 7) 0)))
            "exit status 1" eq_refl) as (s1 & H1 & _ & H3).
exists config, s1. split; [reflexivity|]. split; [|exact H3].
vm_compute in E. injection E as <-. exact H1.
Defined.

(** ** The filtering handler *)

Section FilterFacts.
Context {sr : ServerRuntime}.

Lemma filterLoop_from (re : Regexp) (allMetrics acc : list MetricFamily) :
  fold_left
    (fun filteredMetrics mf =>
       if negb (MatchString re (GetName mf))
       then (filteredMetrics ++ [mf])%list else filteredMetrics)
    allMetrics acc
  = (acc ++ filter (fun mf => negb (MatchString re (GetName mf))) allMetrics)%list.
Proof.
revert acc. induction allMetrics as [|mf rest IH]; intros acc; cbn [fold_left filter].
- symmetry. apply app_nil_r.
- rewrite IH. destruct (negb (MatchString re (GetName mf))); [|reflexivity].
  rewrite <- app_assoc. reflexivity.
Qed.

Lemma filterLoop_filter (re : Regexp) (allMetrics : list MetricFamily) :
  Server.filterLoop re allMetrics
  = filter (fun mf => negb (MatchString re (GetName mf))) allMetrics.
Proof. unfold Server.filterLoop. apply filterLoop_from. Qed.

End FilterFacts.

(** X17.  The handler hides exactly the families the pattern matches.
    Without a pattern, or with one whose source text is empty, the handler
    is the default one and serves what is gathered; this is the case after
    [NewConfig] when no exclusion flag is given.  Otherwise a gathering
    error is handed on, and of the gathered families those whose name the
    pattern does not match are served, each once and in the order gathered,
    and no other. *)
Theorem handler_hides_matching_families
        (go : GoRuntime) (sr : ServerRuntime) :
  (forall gathered,
     Server.served (fst (Server.NewPromHTTPServer None)) gathered = gathered) /\
  (forall re gathered,
     RegexpString re = EmptyString ->
     Server.served (fst (Server.NewPromHTTPServer (Some re))) gathered = gathered) /\
  (forall re,
     RegexpString re <> EmptyString ->
     let h := fst (Server.NewPromHTTPServer (Some re)) in
     (forall err, Server.served h (Err err) = Err err) /\
     (forall allMetrics,
        exists servedMetrics,
          Server.served h (Ok allMetrics) = Ok servedMetrics /\
          servedMetrics
          = filter (fun mf => negb (MatchString re (GetName mf))) allMetrics /\
          (forall mf, In mf servedMetrics <->
                      In mf allMetrics /\ MatchString re (GetName mf) = false))) /\
  ((forall s re, Compile s = Ok re -> RegexpString re = s) ->
   forall env cliFlags config,
     Server.NewConfig env cliFlags = Ok config ->
     Server.CliFlags.MetricsExcludeFilterRegex cliFlags = EmptyString ->
     Server.NewPromHTTPServer (Server.excludeFilter (Server.cliOpts config))
     = (Server.DefaultHandler, [])).
Proof.
split; [reflexivity|]. split; [|split].
- intros re gathered H. unfold Server.NewPromHTTPServer. rewrite H. reflexivity.
- intros re N h.
  assert (Hh : h = Server.FilteredHandler re).
  { unfold h, Server.NewPromHTTPServer.
    destruct (String.eqb_spec (RegexpString re) EmptyString); [contradiction|].
    reflexivity. }
  rewrite Hh. split; [reflexivity|].
  intros allMetrics. eexists. split; [reflexivity|].
  split; [apply filterLoop_filter|].
  intros mf. rewrite filterLoop_filter, filter_In, negb_true_iff. reflexivity.
- intros Law env cliFlags config H Hempty.
  destruct (NewConfig_fields env cliFlags config H)
    as (re & envLimit & Hc & _ & _ & _ & _ & Hx & _).
  rewrite Hx. unfold Server.NewPromHTTPServer.
  rewrite (Law _ _ Hc), Hempty. reflexivity.
Qed.

Lemma handler_hides_matching_families_witness :
  exists config,
    @Server.NewConfig Fragment.runtime FragmentServer.runtime
       FragmentServer.emptyEnv FragmentServer.gpuFlags = Ok config /\
    Server.served
      (fst (Server.NewPromHTTPServer
              (Server.excludeFilter (Server.cliOpts config))))
      (Ok ["slurm_gpus_alloc"; "slurm_gpus_idle"; "slurm_gpus_total"])
    = Ok ["slurm_gpus_alloc"; "slurm_gpus_total"].
Proof.
destruct (@Server.NewConfig Fragment.runtime FragmentServer.runtime
            FragmentServer.emptyEnv FragmentServer.gpuFlags)
  as [config|err] eqn:E; [|discriminate E].
exists config. split; [reflexivity|].
vm_compute in E. injection E as <-.
destruct (proj1 (proj2 (proj2
            (handler_hides_matching_families Fragment.runtime FragmentServer.runtime)))
            "slurm_gpus_idle") as [_ H]; [discriminate|].
destruct (H ["slurm_gpus_alloc"; "slurm_gpus_idle"; "slurm_gpus_total"])
  as (servedMetrics & H1 & H2 & _).
etransitivity; [exact H1|]. rewrite H2. reflexivity.
Defined.

(** X18.  Consistent totals give derived fields that are not negative.
    For a snapshot of a successful fetch with [0 <= Alloc <= Total] and a
    finite [Total], the idle count and the utilization are [>= 0], hence
    numbers.  (When [Alloc] exceeds [Total] the idle count is negative;
    when both are infinite neither field is a number.) *)
Theorem derived_fields_not_negative
        (go : GoRuntime) (f : GpuCollector.GpuFetcher) (s : State) m s' :
  GpuCollector.fetch f s = (Ok m, s') ->
  nonneg (Alloc m) -> F64.le (Alloc m) (Total m) = true ->
  F64.lt (Total m) PrimFloat.infinity = true ->
  nonneg (Idle m) /\ nonneg (Utilization m).
Proof.
intros H Ha Hle Hfin. pose proof (fetch_derive f s m s' H) as E.
rewrite E. cbn [deriveMetrics Idle Utilization]. unfold nonneg. split.
- apply sub_nonneg; assumption.
- destruct (F64.gt (Total m) F64.zero) eqn:G; [|reflexivity].
  apply div_nonneg; assumption.
Qed.

Lemma derived_fields_not_negative_witness :
  exists m s',
    @GpuCollector.fetch Fragment.runtime GpuCollector.CliFallbackFetcher
       Samples.cliState = (Ok m, s') /\
    nonneg (Idle m) /\ nonneg (Utilization m).
Proof.
destruct (@GpuCollector.fetch Fragment.runtime GpuCollector.CliFallbackFetcher
            Samples.cliState) as [[m|e] s'] eqn:E; [|discriminate E].
exists m, s'. split; [reflexivity|].
apply (derived_fields_not_negative Fragment.runtime _ _ _ _ E);
  vm_compute in E; injection E as <- _; reflexivity.
Defined.

(** X19.  Whole counts give exact gauges.  When every resource string of
    the nodes and of the jobs parses to a whole number [>= 0], the sum of
    the nodes' numbers is below [2^53] and the jobs' sum does not exceed
    it, then in both variants the total and the allocated count are these
    sums, the idle count is their difference, all without rounding, and the
    utilization is the float64 quotient of the two sums ([0] for no
    GPUs). *)
Theorem whole_counts_are_exact
        (go : GoRuntime) (nodes jobs : list string) (count : string -> Z) :
  (forall g, In g nodes \/ In g jobs ->
             0 <= count g /\ parseGresGpuCount g = F64.of_Z (count g)) ->
  let T := F64.Zsum (map count nodes) in
  let A := F64.Zsum (map count jobs) in
  T < 2 ^ 53 -> A <= T ->
  let exact :=
    mkGpuMetrics (F64.of_Z A) (F64.of_Z (T - A)) (F64.of_Z T)
                 (if 0 <? T then PrimFloat.div (F64.of_Z A) (F64.of_Z T)
                  else F64.zero) in
  (forall s, jsonData s nodes jobs -> fst (GpuJsonFetcher.fetch s) = Ok exact) /\
  (forall s, cliData s nodes jobs ->
             fst (GpuCliFallbackFetcher.fetch s) = Ok exact).
Proof.
intros Hc T A HT HA exact.
assert (NT : Forall (fun n => 0 <= n) (map count nodes)).
{ apply Forall_forall. intros n Hn. apply in_map_iff in Hn.
  destruct Hn as (g & <- & Hg). apply (Hc g). left. exact Hg. }
assert (NA : Forall (fun n => 0 <= n) (map count jobs)).
{ apply Forall_forall. intros n Hn. apply in_map_iff in Hn.
  destruct Hn as (g & <- & Hg). apply (Hc g). right. exact Hg. }
pose proof (Zsum_nonneg _ NT) as T0. pose proof (Zsum_nonneg _ NA) as A0.
fold T in T0. fold A in A0.
assert (ET : F64.sum (map parseGresGpuCount nodes) = F64.of_Z T).
{ replace (map parseGresGpuCount nodes) with (map F64.of_Z (map count nodes)).
  - apply sum_of_Z; assumption.
  - rewrite map_map. apply map_ext_in. intros g Hg. symmetry.
    apply (Hc g). left. exact Hg. }
assert (EA : F64.sum (map parseGresGpuCount jobs) = F64.of_Z A).
{ replace (map parseGresGpuCount jobs) with (map F64.of_Z (map count jobs)).
  - apply sum_of_Z; [assumption|fold A; lia].
  - rewrite map_map. apply map_ext_in. intros g Hg. symmetry.
    apply (Hc g). right. exact Hg. }
assert (E : snapshotOf nodes jobs = exact).
{ unfold snapshotOf, deriveMetrics, exact. rewrite ET, EA.
  rewrite sub_of_Z by lia.
  change F64.zero with (F64.of_Z 0) at 1. unfold F64.gt.
  rewrite lt_of_Z by lia. reflexivity. }
split; intros s D.
- rewrite (jsonData_fetch s nodes jobs D). cbn [fst]. rewrite E. reflexivity.
- rewrite (cliData_fetch s nodes jobs D). cbn [fst]. rewrite E. reflexivity.
Qed.

Lemma whole_counts_are_exact_witness :
  fst (@GpuCliFallbackFetcher.fetch Fragment.runtime MoreSamples.sameCli)
  = Ok (mkGpuMetrics (F64.of_Z 3) (F64.of_Z 9) (F64.of_Z 12)
                     (PrimFloat.div (F64.of_Z 3) (F64.of_Z 12))).
Proof.
pose proof (whole_counts_are_exact Fragment.runtime
              ["gpu:4"; "gpu:a100:8(IDX:0-7)"; "(null)"] ["gres/gpu=2"; "gpu:1"]
              (fun g => if String.eqb g "gpu:4" then 4
                        else if String.eqb g "gpu:a100:8(IDX:0-7)" then 8
                        else if String.eqb g "gres/gpu=2" then 2
                        else if String.eqb g "gpu:1" then 1 else 0)) as H.
cbv zeta in H.
destruct H as [_ H].
- intros g [[<-|[<-|[<-|[]]]]|[<-|[<-|[]]]]; split; (cbn; lia) || reflexivity.
- reflexivity.
- cbn. lia.
- apply H.
  eexists _, _, _. split; [vm_compute; reflexivity|].
  split; [right; split; [vm_compute; discriminate|vm_compute; reflexivity]|].
  repeat split; vm_compute; reflexivity.
Defined.
